(** * jeth-lasa: the document-to-summary pipeline, embedded and verified

    A shallow embedding of two request handlers, followed by the properties
    the specification states about them:
    - [POST] of the summarize endpoint with its helpers ([toDbSource],
      [toApiSource], [parsePdfToText], [extractJson], [normalizeSummary],
      [parseSummary], [pdfBufferToJpegPagesBase64], [chunkText],
      [summarizeFullPdfTextAcademic], ...), from
      [app/api/summaries/route.ts];
    - [DELETE] of a summary, from [app/api/summary/[id]/route.ts].

    Beyond the specification's statements the file covers the handler [GET]
    of the history listing ([app/api/history/route.ts], kept in the second
    part of [app/api/summary/[id]/route.ts]) and the helpers of the page
    that calls the handlers ([clip], [isOkResponse], [isErrResponse],
    [fetchWithRetry], [toUiSource], [normalizeKeywords], from the client
    component in [app/layout.tsx]), with properties read off the code.

    Conventions.
    - A JavaScript string is the list of its UTF-16 code units, so [length],
      [slice] and [trim] count what the source counts.
    - JavaScript numbers that index or count are integers in [Z]
      ([indexOf] answers [-1]).
    - Code that can throw returns a [Res]; code with effects (model calls,
      rasterization, the datastore) runs in the monad [M], a state monad
      over [World] whose run returns, throws or hangs.
    - What the handlers call but the repository does not define
      ([JSON.parse], pdfjs, [sharp], the Gemini client, the datastore's
      identifiers and clock) is a field of [Ext]. The datastore itself is
      modelled as reliable: its operations do not throw. *)

From Stdlib Require Import List ZArith NArith Lia Bool String Ascii.
From Stdlib Require Import Numbers.DecimalString.
From Stdlib Require Import Sorting.Sorted Sorting.Permutation.
Import ListNotations.

#[local] Set Warnings "-register-all,-abstract-large-number".
Local Open Scope Z_scope.

(* ------------------------------------------------------------------ *)
(** ** JavaScript strings *)

Module Js.

Definition code_unit := N.
Definition js_string := list code_unit.

Fixpoint bytes_of (s : string) : list N :=
  match s with
  | EmptyString => []
  | String a r => N_of_ascii a :: bytes_of r
  end.

(** The literals below are written in UTF-8, as the source file is; a
    JavaScript string holds the UTF-16 code units of the same text. *)
Fixpoint utf16_of_utf8 (bs : list N) : js_string :=
  match bs with
  | [] => []
  | b :: t =>
    if (b <? 128)%N then b :: utf16_of_utf8 t
    else match t with
    | [] => [65533%N]
    | b2 :: t2 =>
      if (b <? 224)%N then ((b - 192) * 64 + (b2 - 128))%N :: utf16_of_utf8 t2
      else match t2 with
      | [] => [65533%N]
      | b3 :: t3 =>
        if (b <? 240)%N
        then ((b - 224) * 4096 + (b2 - 128) * 64 + (b3 - 128))%N :: utf16_of_utf8 t3
        else match t3 with
        | [] => [65533%N]
        | b4 :: t4 =>
          let cp := ((b - 240) * 262144 + (b2 - 128) * 4096
                     + (b3 - 128) * 64 + (b4 - 128) - 65536)%N in
          (55296 + cp / 1024)%N :: (56320 + cp mod 1024)%N :: utf16_of_utf8 t4
        end
      end
    end
  end.

Definition js (s : string) : js_string := utf16_of_utf8 (bytes_of s).
Arguments js s%_string.

(** The empty string. *)
Definition empty : js_string := [].

(** The double quote, which a literal of this file cannot hold. *)
Definition dq : js_string := [34%N].

Definition eqb (a b : js_string) : bool :=
  if list_eq_dec N.eq_dec a b then true else false.

(** [s.length] *)
Definition length (s : js_string) : Z := Z.of_nat (List.length s).

(** A string is falsy exactly when it is empty. *)
Definition truthy (s : js_string) : bool :=
  match s with [] => false | _ :: _ => true end.

(** [s.slice(start, end)]: negative positions count from the end, both are
    clamped to the string. *)
Definition clamp_pos (len p : Z) : Z :=
  if p <? 0 then Z.max (len + p) 0 else Z.min p len.

Definition slice (s : js_string) (start end_ : Z) : js_string :=
  let len := length s in
  let from := clamp_pos len start in
  let to := clamp_pos len end_ in
  firstn (Z.to_nat (Z.max (to - from) 0)) (skipn (Z.to_nat from) s).

(** [s.indexOf(c)] and [s.lastIndexOf(c)] for a search string of one
    character, which is how the source calls them. *)
Fixpoint indexOf_from (s : js_string) (c : code_unit) (i : Z) : Z :=
  match s with
  | [] => -1
  | x :: r => if (x =? c)%N then i else indexOf_from r c (i + 1)
  end.

Definition indexOf (s : js_string) (c : code_unit) : Z := indexOf_from s c 0.

Fixpoint lastIndexOf_from (s : js_string) (c : code_unit) (i last : Z) : Z :=
  match s with
  | [] => last
  | x :: r => lastIndexOf_from r c (i + 1) (if (x =? c)%N then i else last)
  end.

Definition lastIndexOf (s : js_string) (c : code_unit) : Z :=
  lastIndexOf_from s c 0 (-1).

(** WhiteSpace and LineTerminator of ECMAScript: what [trim] strips. *)
Definition is_whitespace (c : code_unit) : bool :=
  ((9 <=? c) && (c <=? 13) || (c =? 32) || (c =? 160) || (c =? 5760)
   || (8192 <=? c) && (c <=? 8202) || (c =? 8232) || (c =? 8233)
   || (c =? 8239) || (c =? 8287) || (c =? 12288) || (c =? 65279))%N.

Fixpoint trimStart (s : js_string) : js_string :=
  match s with
  | [] => []
  | c :: r => if is_whitespace c then trimStart r else s
  end.

Definition trimEnd (s : js_string) : js_string := rev (trimStart (rev s)).

Definition trim (s : js_string) : js_string := trimEnd (trimStart s).

(** [s.replace(/\s+/g, " ")]: every run of blanks becomes one space.
    [in_run] says that the character before was a blank. *)
Fixpoint collapse_blanks (in_run : bool) (s : js_string) : js_string :=
  match s with
  | [] => []
  | c :: r =>
    if is_whitespace c
    then (if in_run then collapse_blanks true r else 32%N :: collapse_blanks true r)
    else c :: collapse_blanks false r
  end.

(** [parts.join(sep)] *)
Fixpoint join (sep : js_string) (parts : list js_string) : js_string :=
  match parts with
  | [] => []
  | [p] => p
  | p :: rest => p ++ sep ++ join sep rest
  end.

(** [String(n)] for an integer [n]. *)
Definition of_Z (n : Z) : js_string :=
  js (NilZero.string_of_int (Z.to_int n)).

End Js.
Import Js.

(* ------------------------------------------------------------------ *)
(** ** Results and exceptions *)

(** A thrown value, as the handler's [catch] sees it: its [message] when
    that is a string. *)
Record Exn := { message : option js_string }.

Definition Error (msg : js_string) : Exn := {| message := Some msg |}.

Inductive Res (A : Type) :=
| Ok (a : A)
| Throw (e : Exn).
Arguments Ok {A} a.
Arguments Throw {A} e.

(* ------------------------------------------------------------------ *)
(** ** JSON values and a reference [JSON.parse] *)

Inductive Json :=
| JNull
| JBool (b : bool)
| JNumber (lexeme : js_string)
| JString (s : js_string)
| JArray (elems : list Json)
| JObject (members : list (js_string * Json)).

(** [v.key] on a parsed object: the last member of that name wins, as
    [JSON.parse] builds it; anything that is not an object has none of the
    properties the handler reads. *)
Fixpoint lookup_member (key : js_string) (ms : list (js_string * Json))
  : option Json :=
  match ms with
  | [] => None
  | (k, v) :: r =>
    match lookup_member key r with
    | Some v' => Some v'
    | None => if Js.eqb k key then Some v else None
    end
  end.

Definition get_prop (v : Json) (key : js_string) : option Json :=
  match v with
  | JObject ms => lookup_member key ms
  | _ => None
  end.

Module JsonRef.

Definition is_json_ws (c : code_unit) : bool :=
  ((c =? 32) || (c =? 9) || (c =? 10) || (c =? 13))%N.

Fixpoint skip_ws (s : js_string) : js_string :=
  match s with
  | [] => []
  | c :: r => if is_json_ws c then skip_ws r else s
  end.

Definition is_digit (c : code_unit) : bool := ((48 <=? c) && (c <=? 57))%N.

Definition hex_val (c : code_unit) : option N :=
  if is_digit c then Some (c - 48)%N
  else if ((97 <=? c) && (c <=? 102))%N then Some (c - 87)%N
  else if ((65 <=? c) && (c <=? 70))%N then Some (c - 55)%N
  else None.

Definition simple_escape (c : code_unit) : option code_unit :=
  if (c =? 34)%N then Some 34%N
  else if (c =? 92)%N then Some 92%N
  else if (c =? 47)%N then Some 47%N
  else if (c =? 98)%N then Some 8%N
  else if (c =? 102)%N then Some 12%N
  else if (c =? 110)%N then Some 10%N
  else if (c =? 114)%N then Some 13%N
  else if (c =? 116)%N then Some 9%N
  else None.

(** After the opening quote: the string's value and what follows the
    closing quote. *)
Fixpoint string_body (s acc : js_string) : option (js_string * js_string) :=
  match s with
  | [] => None
  | c :: r =>
    if (c =? 34)%N then Some (rev acc, r)
    else if (c =? 92)%N then
      match r with
      | [] => None
      | e :: r1 =>
        if (e =? 117)%N then
          match r1 with
          | h1 :: h2 :: h3 :: h4 :: r2 =>
            match hex_val h1, hex_val h2, hex_val h3, hex_val h4 with
            | Some a, Some b, Some c', Some d =>
              string_body r2 ((a * 4096 + b * 256 + c' * 16 + d)%N :: acc)
            | _, _, _, _ => None
            end
          | _ => None
          end
        else
          match simple_escape e with
          | Some v => string_body r1 (v :: acc)
          | None => None
          end
      end
    else if (c <? 32)%N then None
    else string_body r (c :: acc)
  end.

Fixpoint span_digits (s : js_string) : js_string * js_string :=
  match s with
  | c :: r =>
    if is_digit c then let (d, rest) := span_digits r in (c :: d, rest)
    else ([], s)
  | [] => ([], [])
  end.

Definition digits1 (s : js_string) : option (js_string * js_string) :=
  match span_digits s with
  | ([], _) => None
  | (d, rest) => Some (d, rest)
  end.

Definition number (s : js_string) : option (js_string * js_string) :=
  let (sign, s1) :=
    match s with
    | c :: r => if (c =? 45)%N then ([c], r) else ([], s)
    | [] => ([], s)
    end in
  let int_part :=
    match s1 with
    | c :: r => if (c =? 48)%N then Some ([c], r) else digits1 s1
    | [] => None
    end in
  match int_part with
  | None => None
  | Some (i, s2) =>
    let frac_part :=
      match s2 with
      | c :: r =>
        if (c =? 46)%N then
          match digits1 r with
          | Some (d, rest) => Some (c :: d, rest)
          | None => None
          end
        else Some ([], s2)
      | [] => Some ([], s2)
      end in
    match frac_part with
    | None => None
    | Some (f, s3) =>
      let exp_part :=
        match s3 with
        | c :: r =>
          if ((c =? 101) || (c =? 69))%N then
            let (sg, r1) :=
              match r with
              | x :: r' => if ((x =? 43) || (x =? 45))%N then ([x], r') else ([], r)
              | [] => ([], r)
              end in
            match digits1 r1 with
            | Some (d, rest) => Some (c :: sg ++ d, rest)
            | None => None
            end
          else Some ([], s3)
        | [] => Some ([], s3)
        end in
      match exp_part with
      | None => None
      | Some (e, s4) => Some (sign ++ i ++ f ++ e, s4)
      end
    end
  end.

Definition literal (word : js_string) (s : js_string) : option js_string :=
  if Js.eqb (firstn (List.length word) s) word
  then Some (skipn (List.length word) s) else None.

Fixpoint value (fuel : nat) (s : js_string) : option (Json * js_string) :=
  match fuel with
  | O => None
  | S fuel' =>
    match skip_ws s with
    | [] => None
    | c :: r =>
      if (c =? 123)%N then
        match skip_ws r with
        | c' :: r' =>
          if (c' =? 125)%N then Some (JObject [], r') else members fuel' r []
        | [] => None
        end
      else if (c =? 91)%N then
        match skip_ws r with
        | c' :: r' =>
          if (c' =? 93)%N then Some (JArray [], r') else elements fuel' r []
        | [] => None
        end
      else if (c =? 34)%N then
        match string_body r [] with
        | Some (str, rest) => Some (JString str, rest)
        | None => None
        end
      else if (c =? 116)%N then
        match literal (js "true") (c :: r) with
        | Some rest => Some (JBool true, rest)
        | None => None
        end
      else if (c =? 102)%N then
        match literal (js "false") (c :: r) with
        | Some rest => Some (JBool false, rest)
        | None => None
        end
      else if (c =? 110)%N then
        match literal (js "null") (c :: r) with
        | Some rest => Some (JNull, rest)
        | None => None
        end
      else
        match number (c :: r) with
        | Some (lex, rest) => Some (JNumber lex, rest)
        | None => None
        end
    end
  end
with elements (fuel : nat) (s : js_string) (acc : list Json)
  : option (Json * js_string) :=
  match fuel with
  | O => None
  | S fuel' =>
    match value fuel' s with
    | None => None
    | Some (v, r) =>
      match skip_ws r with
      | c :: r' =>
        if (c =? 44)%N then elements fuel' r' (v :: acc)
        else if (c =? 93)%N then Some (JArray (rev (v :: acc)), r')
        else None
      | [] => None
      end
    end
  end
with members (fuel : nat) (s : js_string) (acc : list (js_string * Json))
  : option (Json * js_string) :=
  match fuel with
  | O => None
  | S fuel' =>
    match skip_ws s with
    | q :: r0 =>
      if (q =? 34)%N then
        match string_body r0 [] with
        | None => None
        | Some (key, r1) =>
          match skip_ws r1 with
          | colon :: r2 =>
            if (colon =? 58)%N then
              match value fuel' r2 with
              | None => None
              | Some (v, r3) =>
                match skip_ws r3 with
                | c :: r4 =>
                  if (c =? 44)%N then members fuel' r4 ((key, v) :: acc)
                  else if (c =? 125)%N
                  then Some (JObject (rev ((key, v) :: acc)), r4)
                  else None
                | [] => None
                end
              end
            else None
          | [] => None
          end
        end
      else None
    | [] => None
    end
  end.

Definition SyntaxError : Exn := Error (js "Unexpected token in JSON").

(** The whole text must be one value, blanks around it allowed. Every call
    above consumes a character before it recurses twice, so twice the
    length is fuel enough. *)
Definition parse (s : js_string) : Res Json :=
  match value (2 * List.length s + 3) s with
  | Some (v, rest) =>
    match skip_ws rest with
    | [] => Ok v
    | _ :: _ => Throw SyntaxError
    end
  | None => Throw SyntaxError
  end.

End JsonRef.

(* ------------------------------------------------------------------ *)
(** ** The datastore: the [User] and [Summary] tables *)

(** The Prisma enum [SummarySource] and the strings its members are at run
    time. *)
Inductive SummarySource := pdf | image | pdf_image.

Definition SummarySource_value (s : SummarySource) : js_string :=
  match s with
  | pdf => js "pdf"
  | image => js "image"
  | pdf_image => js "pdf_image"
  end.

Module Db.

(** A row of the [Summary] table, as the migrations create it, with the two
    columns [pdfName] and [imageCount] that [POST] writes and reads back.
    The table's key is [id]; nothing below needs the ids to differ. *)
Record Summary := {
  id : js_string;
  createdAt : js_string;
  userId : js_string;
  source : SummarySource;
  title : js_string;
  summary : js_string;
  keywords : Json;
  inputText : option js_string;
  pdfName : option js_string;
  imageCount : option Z
}.

(** What [create] is given; the datastore adds [id] and [createdAt]. *)
Record SummaryData := {
  d_userId : js_string;
  d_source : SummarySource;
  d_title : js_string;
  d_summary : js_string;
  d_keywords : list js_string;
  d_inputText : js_string;
  d_pdfName : option js_string;
  d_imageCount : Z
}.

(** The two tables: of a user only the id is ever read or written. *)
Record Store := {
  users : list js_string;
  summaries : list Summary
}.

(** [prisma.user.upsert({where: {id}, update: {}, create: {id}})] *)
Definition user_upsert (uid : js_string) (st : Store) : Store :=
  if existsb (Js.eqb uid) (users st) then st
  else {| users := users st ++ [uid]; summaries := summaries st |}.

(** [prisma.summary.create({data})] *)
Definition summary_create (new_id now : js_string) (d : SummaryData)
  (st : Store) : Summary * Store :=
  let row := {|
    id := new_id;
    createdAt := now;
    userId := d_userId d;
    source := d_source d;
    title := d_title d;
    summary := d_summary d;
    keywords := JArray (map JString (d_keywords d));
    inputText := Some (d_inputText d);
    pdfName := d_pdfName d;
    imageCount := Some (d_imageCount d)
  |} in
  (row, {| users := users st; summaries := summaries st ++ [row] |}).

(** [prisma.summary.deleteMany({where: {id, userId}})]: the rows that match
    both go, and their number is the answer. *)
Definition matches (id_ userId_ : js_string) (r : Summary) : bool :=
  Js.eqb (id r) id_ && Js.eqb (userId r) userId_.

Definition summary_deleteMany (id_ userId_ : js_string) (st : Store)
  : Z * Store :=
  let gone := filter (matches id_ userId_) (summaries st) in
  let kept := filter (fun r => negb (matches id_ userId_ r)) (summaries st) in
  (Z.of_nat (List.length gone), {| users := users st; summaries := kept |}).

End Db.

(* ------------------------------------------------------------------ *)
(** ** The world a handler runs in *)

Definition Buffer := list N.

(** An uploaded file: what the handler reads of it. *)
Record File := {
  name : js_string;
  arrayBuffer : Buffer
}.

(** A content part of a model call. *)
Inductive Part :=
| text_part (text : js_string)
| inlineData (mimeType data : js_string).

(** The model's answer: its [text], which may be absent. *)
Record GenerateContentResponse := { text : option js_string }.

(** What the repository calls and does not define. [pdfjs_text_items buf]
    is, page by page, the [str] of each text item pdfjs finds in the
    document (absent for an item that has none), or what loading pdfjs or
    the document throws. [generateContent n parts] is the answer to the call
    that [n] calls preceded, so the model may answer the same prompt
    differently each time. *)
Record Ext := {
  GEMINI_API_KEY : option js_string;
  JSON_parse : js_string -> Res Json;
  pdfjs_text_items : Buffer -> Res (list (list (option js_string)));
  sharp_pdf_pages : Buffer -> Res (option Z);
  sharp_pdf_page_jpeg : Buffer -> Z -> Res js_string;
  sharp_jpeg : Buffer -> Res js_string;
  generateContent : nat -> list Part -> Res GenerateContentResponse;
  cuid : Db.Store -> js_string;
  now : js_string
}.

(** The datastore, and a log of the model calls and rasterizations made. *)
Record World := {
  db : Db.Store;
  model_calls : list (list Part);
  raster_calls : list Buffer
}.

(** How a handler's run ends. [Hangs] is a loop that never ends. The world
    a run leaves behind is kept also when it throws: a model call that was
    made stays made. *)
Inductive Outcome (A : Type) :=
| Returns (a : A)
| Throws (e : Exn)
| Hangs.
Arguments Returns {A} a.
Arguments Throws {A} e.
Arguments Hangs {A}.

Definition M (A : Type) : Type := World -> Outcome A * World.

Definition ret {A} (a : A) : M A := fun w => (Returns a, w).

Definition bind {A B} (m : M A) (k : A -> M B) : M B :=
  fun w =>
    match m w with
    | (Returns a, w') => k a w'
    | (Throws e, w') => (Throws e, w')
    | (Hangs, w') => (Hangs, w')
    end.

Definition throw {A} (e : Exn) : M A := fun w => (Throws e, w).

Definition hang {A} : M A := fun w => (Hangs, w).

Definition lift {A} (r : Res A) : M A :=
  match r with
  | Ok a => ret a
  | Throw e => throw e
  end.

(** [try { m } catch (e) { h e }] *)
Definition try_catch {A} (m : M A) (h : Exn -> M A) : M A :=
  fun w =>
    match m w with
    | (Throws e, w') => h e w'
    | r => r
    end.

Notation "x <- m ;; k" := (bind m (fun x => k))
  (at level 61, m at next level, right associativity).
Notation "m ;;; k" := (bind m (fun _ => k))
  (at level 61, right associativity).

Definition with_db (w : World) (st : Db.Store) : World :=
  {| db := st; model_calls := model_calls w; raster_calls := raster_calls w |}.

Definition with_call (w : World) (parts : list Part) : World :=
  {| db := db w; model_calls := model_calls w ++ [parts];
     raster_calls := raster_calls w |}.

Definition with_raster (w : World) (buf : Buffer) : World :=
  {| db := db w; model_calls := model_calls w;
     raster_calls := raster_calls w ++ [buf] |}.

Definition on_db {A} (f : Db.Store -> A * Db.Store) : M A :=
  fun w => (Returns (fst (f (db w))), with_db w (snd (f (db w)))).

(** [ai.models.generateContent({model, contents: [{role: "user", parts}]})];
    the call is logged whether it is answered or throws. *)
Definition ai_generateContent (ext : Ext) (parts : list Part)
  : M GenerateContentResponse :=
  fun w =>
    match generateContent ext (List.length (model_calls w)) parts with
    | Ok r => (Returns r, with_call w parts)
    | Throw e => (Throws e, with_call w parts)
    end.

(** Notes that the rasterizer is about to be run on [buf]. *)
Definition log_raster (buf : Buffer) : M unit :=
  fun w => (Returns tt, with_raster w buf).

(** [NextResponse.json(body, {status})] *)
Record NextResponse := {
  status : Z;
  body : Json
}.

Definition NextResponse_json (b : Json) (st : Z) : NextResponse :=
  {| status := st; body := b |}.

(* ------------------------------------------------------------------ *)
(** ** [app/api/summaries/route.ts]: the summarize endpoint *)

(** [xs.length] of an array. *)
Definition len {A} (xs : list A) : Z := Z.of_nat (List.length xs).

(** The line feed. *)
Definition nl : js_string := [10%N].

(** [typeof v === "object" && v !== null]: objects and arrays. *)
Definition isRecord (v : Json) : bool :=
  match v with
  | JObject _ | JArray _ => true
  | _ => false
  end.

Definition ensureUserRow (userId : js_string) : M unit :=
  on_db (fun st => (tt, Db.user_upsert userId st)).

(** The three literals of the source's union type ["pdf" | "image" |
    "pdf+image"]. *)
Inductive ApiSource := api_pdf | api_image | api_pdf_plus_image.

Definition ApiSource_value (s : ApiSource) : js_string :=
  match s with
  | api_pdf => js "pdf"
  | api_image => js "image"
  | api_pdf_plus_image => js "pdf+image"
  end.

Definition toDbSource (source : ApiSource) : SummarySource :=
  match source with
  | api_pdf => pdf
  | api_image => image
  | api_pdf_plus_image => pdf_image
  end.

(** Takes the enum member as the string it is at run time. *)
Definition toApiSource (source : js_string) : js_string :=
  if Js.eqb source (js "pdf_image") then js "pdf+image" else source.

(** [parsePdfToText]: of each page the items whose [str] is truthy, then a
    line feed; all joined by spaces, runs of blanks collapsed, the ends
    trimmed. Whatever pdfjs throws, and the two errors the function throws
    itself when pdfjs is not as expected, are the [Throw] of
    [pdfjs_text_items]. *)
Definition page_texts (items : list (option js_string)) : list js_string :=
  flat_map (fun item =>
              match item with
              | Some str => if truthy str then [str] else []
              | None => []
              end) items
  ++ [nl].

Definition parsePdfToText (ext : Ext) (buffer : Buffer) : Res js_string :=
  match pdfjs_text_items ext buffer with
  | Throw e => Throw e
  | Ok pages =>
    let texts := flat_map page_texts pages in
    Ok (trim (collapse_blanks false (join (js " ") texts)))
  end.

(** The type [SummaryJSON] of the source: [title] is optional. *)
Record SummaryJSON := {
  title : option js_string;
  summary : js_string;
  keywords : list js_string
}.

(** The characters [{] and [}]. *)
Definition open_brace : code_unit := 123%N.
Definition close_brace : code_unit := 125%N.

Definition extractJson (raw : js_string) : option js_string :=
  let s := indexOf raw open_brace in
  let e := lastIndexOf raw close_brace in
  if (s <? 0) || (e <=? s) then None
  else Some (slice raw s (e + 1)).

(** [arr.filter((k) => typeof k === "string")] *)
Fixpoint filter_strings (vs : list Json) : list js_string :=
  match vs with
  | [] => []
  | JString s :: r => s :: filter_strings r
  | _ :: r => filter_strings r
  end.

Definition default_keywords : list js_string :=
  [js "summary"; js "document"; js "analysis"].

Definition normalizeSummary (v : Json) : option SummaryJSON :=
  if negb (isRecord v) then None
  else match get_prop v (js "summary") with
  | Some (JString summary_) =>
    let title_ :=
      match get_prop v (js "title") with
      | Some (JString t) => Some t
      | _ => None
      end in
    let keywords_ :=
      match get_prop v (js "keywords") with
      | Some (JArray ks) => filter_strings ks
      | _ => []
      end in
    let keywords_ :=
      if len keywords_ =? 0 then default_keywords else keywords_ in
    Some {| title := title_; summary := summary_; keywords := keywords_ |}
  | _ => None
  end.

Definition parseSummary (ext : Ext) (raw : js_string) : option SummaryJSON :=
  match JSON_parse ext raw with
  | Ok v => normalizeSummary v
  | Throw _ =>
    match extractJson raw with
    | None => None
    | Some sliced =>
      if negb (truthy sliced) then None
      else match JSON_parse ext sliced with
      | Ok v => normalizeSummary v
      | Throw _ => None
      end
    end
  end.

Definition normalizeKeywordsFromJson (v : Json) : list js_string :=
  match v with
  | JArray xs => filter_strings xs
  | _ => []
  end.

Record Image := {
  mime : js_string;
  b64 : js_string
}.

Definition compressImageToJpegBase64 (ext : Ext) (file : File) : Res Image :=
  match sharp_jpeg ext (arrayBuffer file) with
  | Ok out => Ok {| mime := js "image/jpeg"; b64 := out |}
  | Throw e => Throw e
  end.

(** The [for] loop of [pdfBufferToJpegPagesBase64]: [n] pages are left to
    render, page [i] is next. *)
Fixpoint render_pages (ext : Ext) (pdfBuffer : Buffer) (n : nat) (i : Z)
  (out : list Image) : Res (list Image) :=
  match n with
  | O => Ok out
  | S n' =>
    match sharp_pdf_page_jpeg ext pdfBuffer i with
    | Ok jpg =>
      render_pages ext pdfBuffer n' (i + 1)
        (out ++ [{| mime := js "image/jpeg"; b64 := jpg |}])
    | Throw e => Throw e
    end
  end.

Definition pdfBufferToJpegPagesBase64 (ext : Ext) (pdfBuffer : Buffer)
  (maxPages : Z) : Res (list Image) :=
  let totalPages :=
    match sharp_pdf_pages ext pdfBuffer with
    | Ok (Some pages) => if 0 <? pages then pages else 1
    | Ok None => 1
    | Throw _ => 1
    end in
  let pagesToRender := Z.min totalPages maxPages in
  render_pages ext pdfBuffer (Z.to_nat pagesToRender) 0 [].

(** The loop of [chunkText]; [None] when the fuel runs out before the loop
    ends. *)
Fixpoint chunk_loop (fuel : nat) (t : js_string) (chunkSize i : Z)
  (out : list js_string) : option (list js_string) :=
  if i <? Js.length t then
    match fuel with
    | O => None
    | S fuel' =>
      chunk_loop fuel' t chunkSize (i + chunkSize)
        (out ++ [slice t i (i + chunkSize)])
    end
  else Some out.

(** [None]: the fuel ran out before the loop ended, which happens for no
    positive [chunkSize]; the handler passes 9000. For a size of zero or
    less the source's loop pushes until the array's length limit throws,
    and the model does not follow it there. *)
Definition chunkText (s : js_string) (chunkSize : Z)
  : option (list js_string) :=
  let t := trim s in
  if negb (truthy t) then Some []
  else chunk_loop (List.length t) t chunkSize 0 [].

Definition ACADEMIC_GUIDE : js_string :=
  join nl [
    js "ONLY return JSON. No markdown fences. No extra text.";
    js "Schema: {" ++ dq ++ js "title" ++ dq ++ js "?:string," ++ dq
      ++ js "summary" ++ dq ++ js ":string," ++ dq ++ js "keywords" ++ dq
      ++ js ":string[]}";
    js "Write in the same language as the document.";
    js "Write an ACADEMIC summary suitable for a course assignment.";
    js "Use a structured format INSIDE the summary field (Markdown headings are allowed inside the string).";
    js "Required structure inside summary:";
    js "1) ## Amaç ve Kapsam";
    js "2) ## Temel Kavramlar ve Tanımlar (terimleri kısa tanımla: CLR, IL, JIT, CLS/CTS, ASP.NET, ADO.NET, Windows Forms vb.)";
    js "3) ## Mimari / Çalışma Mantığı (adım adım: kaynak kod -> IL -> CLR -> JIT -> makine kodu)";
    js "4) ## Bileşenler ve Örnekler (servisler, araçlar, kullanım alanları)";
    js "5) ## Karşılaştırma (varsa: J2EE vs .NET; JVM vs CLR; portability; tools)";
    js "6) ## Sonuç (ana çıkarımlar, neden önemli?)";
    js "Avoid tekrar/boş cümle. Teknik terimleri KORU.";
    js "keywords: 8-12 adet, ders için anlamlı terimler."
  ].

(** The answer's [text] when it is a string, the empty string when it is
    absent. *)
Definition response_text (r : GenerateContentResponse) : js_string :=
  match text r with
  | Some t => t
  | None => empty
  end.

Definition chunk_prompt (text_ : js_string) : list Part :=
  [text_part
     (js "ONLY return JSON." ++ nl
      ++ js "Schema: {" ++ dq ++ js "summary" ++ dq ++ js ":string," ++ dq
      ++ js "keywords" ++ dq ++ js ":string[]}" ++ nl
      ++ js "Write in the same language as the text." ++ nl
      ++ js "Write an ACADEMIC chunk summary." ++ nl
      ++ js "summary: 10-14 sentences." ++ nl
      ++ js "Must include key definitions/terms mentioned in this chunk." ++ nl
      ++ js "keywords: 6-10." ++ nl ++ nl
      ++ js "TEXT:" ++ nl ++ text_)].

Definition geminiSummarizeTextChunkAcademic (ext : Ext) (text_ : js_string)
  : M js_string :=
  r <- ai_generateContent ext (chunk_prompt text_) ;;
  ret (response_text r).

Definition merge_prompt (partials summaryLength : js_string) : list Part :=
  [text_part
     (ACADEMIC_GUIDE ++ nl
      ++ js "Length guidance (sentences): " ++ summaryLength ++ js "." ++ nl
      ++ js "Merge the chunk summaries into ONE coherent academic summary." ++ nl
      ++ js "Remove duplicates but keep depth." ++ nl
      ++ js "If document includes section about comparison (e.g., J2EE vs .NET), 반드시 ekle."
      ++ nl ++ nl
      ++ js "CHUNK_SUMMARIES:" ++ nl ++ partials)].

Definition geminiFinalSummaryAcademic (ext : Ext)
  (partials summaryLength : js_string) : M js_string :=
  r <- ai_generateContent ext (merge_prompt partials summaryLength) ;;
  ret (response_text r).

(** The [for] loop of [summarizeFullPdfTextAcademic] over the chunks that
    are left, [i] the index of the next one. *)
Fixpoint summarize_chunks (ext : Ext) (chunks : list js_string) (i : Z)
  (partialJsons : list js_string) : M (list js_string) :=
  match chunks with
  | [] => ret partialJsons
  | chunk :: rest =>
    raw <- geminiSummarizeTextChunkAcademic ext chunk ;;
    summarize_chunks ext rest (i + 1)
      (partialJsons ++ [js "CHUNK_" ++ of_Z (i + 1) ++ js ": " ++ raw])
  end.

Definition summarizeFullPdfTextAcademic (ext : Ext)
  (pdfText summaryLength : js_string) : M js_string :=
  match chunkText pdfText 9000 with
  | None => hang
  | Some chunks =>
    if len chunks =? 0 then throw (Error (js "PDF metni boş."))
    else
      partialJsons <- summarize_chunks ext chunks 0 [] ;;
      geminiFinalSummaryAcademic ext (join (nl ++ nl) partialJsons) summaryLength
  end.

(** What the handler reads of the request: the caller as the identity
    provider reports it, and the two form fields. *)
Record Request := {
  caller : option js_string;
  form_pdf : option File;
  form_images : list File
}.

(** [!x] for a value that is a string or absent. *)
Definition falsy (x : option js_string) : bool :=
  match x with
  | Some s => negb (truthy s)
  | None => true
  end.

Definition error_body (msg : js_string) : Json :=
  JObject [(js "ok", JBool false); (js "error", JString msg)].

Definition msg_no_key : js_string := js "GEMINI_API_KEY yok (.env.local).".
Definition msg_unauthorized : js_string := js "Unauthorized".
Definition msg_no_input : js_string := js "PDF veya en az 1 görsel yükle.".
Definition msg_scanned_empty : js_string :=
  js "Bu PDF taranmış (text layer yok) ve otomatik görsel çıkarma başarısız oldu. Çözüm: PDF sayfasının ekran görüntüsünü / sayfa görselini 'Görsel ekle' ile yükle.".
Definition msg_scanned_failed : js_string :=
  js "Bu PDF taranmış (text layer yok). Otomatik sayfa görseli çıkarılamadı. Çözüm: PDF sayfasının ekran görüntüsünü / sayfa görselini 'Görsel ekle' ile yükle (Gemini görselden özet çıkarır).".
Definition msg_no_json : js_string := js "Model JSON dönmedi.".
Definition default_title : js_string := js "Akademik Özet".

(** The band of sentence counts the prompt asks for ([POST], lines
    328-333). *)
Definition choose_summaryLength (pdfText : js_string) : js_string :=
  if truthy pdfText && (0 <? Js.length pdfText) then
    if Js.length pdfText <? 10000 then js "16-22"
    else if Js.length pdfText <? 40000 then js "24-34"
    else js "34-45"
  else js "18-24".

(** [for (const img of imgs) { ... parts.push({inlineData}) }] *)
Fixpoint push_compressed (ext : Ext) (imgs : list File) (parts : list Part)
  : M (list Part) :=
  match imgs with
  | [] => ret parts
  | img :: rest =>
    c <- lift (compressImageToJpegBase64 ext img) ;;
    push_compressed ext rest (parts ++ [inlineData (mime c) (b64 c)])
  end.

Definition single_prompt_text (pdfText summaryLength : js_string)
  (hasAnyImages : bool) : js_string :=
  ACADEMIC_GUIDE ++ nl
  ++ js "Length guidance (sentences): " ++ summaryLength ++ js "." ++ nl ++ nl
  ++ (if truthy pdfText
      then js "PDF TEXT:" ++ nl ++ slice pdfText 0 12000 ++ nl ++ nl
      else js "PDF TEXT: (none / scanned)" ++ nl ++ nl)
  ++ (if hasAnyImages then js "IMAGES attached below." ++ nl
      else js "IMAGES: (none)" ++ nl).

(** The [else] branch of the strategy choice ([POST], lines 371-395): one
    call with the text and at most four images of each kind. *)
Definition summarizeSingleCall (ext : Ext) (pdfText summaryLength : js_string)
  (images : list File) (autoPdfImages : list Image) (hasAnyImages : bool)
  : M js_string :=
  let parts := [text_part (single_prompt_text pdfText summaryLength hasAnyImages)] in
  parts <- push_compressed ext (firstn 4 images) parts ;;
  let parts :=
    parts ++ map (fun a => inlineData (mime a) (b64 a)) (firstn 4 autoPdfImages) in
  result <- ai_generateContent ext parts ;;
  ret (response_text result).

(** The text of the PDF, empty when there is none or extraction throws
    ([POST], lines 315-326). *)
Definition extractPdfText (ext : Ext) (pdfFile : option File) : M js_string :=
  match pdfFile with
  | Some f =>
    try_catch (lift (parsePdfToText ext (arrayBuffer f))) (fun _ => ret (empty))
  | None => ret (empty)
  end.

(** The fallback for a PDF without text and a request without images
    ([POST], lines 335-363): the pages as images, or the response that ends
    the request. *)
Definition autoRasterize (ext : Ext) (pdfFile : option File)
  (pdfBuf : option Buffer) (pdfText : js_string) (images : list File)
  : M (NextResponse + list Image) :=
  match pdfFile with
  | Some f =>
    if (Js.length (trim pdfText) =? 0) && (len images =? 0) then
      try_catch
        (let buf :=
           match pdfBuf with
           | Some b => b
           | None => arrayBuffer f
           end in
         log_raster buf ;;;
         autoPdfImages <- lift (pdfBufferToJpegPagesBase64 ext buf 2) ;;
         if len autoPdfImages =? 0
         then ret (inl (NextResponse_json (error_body msg_scanned_empty) 400))
         else ret (inr autoPdfImages))
        (fun _ =>
           ret (inl (NextResponse_json (error_body msg_scanned_failed) 400)))
    else ret (inr [])
  | None => ret (inr [])
  end.

(** The choice of strategy ([POST], lines 365-396): chunk-and-merge for a
    long text without images, one call otherwise. Returns the model's raw
    answer. *)
Definition summarize (ext : Ext) (pdfText summaryLength : js_string)
  (images : list File) (autoPdfImages : list Image) (hasAnyImages : bool)
  : M js_string :=
  if truthy pdfText && (12000 <? Js.length pdfText) && negb hasAnyImages
  then summarizeFullPdfTextAcademic ext pdfText summaryLength
  else summarizeSingleCall ext pdfText summaryLength images autoPdfImages
         hasAnyImages.

Definition opt_string_json (x : option js_string) : Json :=
  match x with
  | Some s => JString s
  | None => JNull
  end.

Definition opt_number_json (x : option Z) : Json :=
  match x with
  | Some n => JNumber (of_Z n)
  | None => JNull
  end.

(** [{ok: true, data: {...saved, source: toApiSource(saved.source),
    keywords: normalizeKeywordsFromJson(saved.keywords)}}] with the fields
    the [select] keeps. *)
Definition saved_body (saved : Db.Summary) : Json :=
  JObject [
    (js "ok", JBool true);
    (js "data", JObject [
      (js "id", JString (Db.id saved));
      (js "createdAt", JString (Db.createdAt saved));
      (js "source", JString (toApiSource (SummarySource_value (Db.source saved))));
      (js "title", JString (Db.title saved));
      (js "summary", JString (Db.summary saved));
      (js "keywords",
       JArray (map JString (normalizeKeywordsFromJson (Db.keywords saved))));
      (js "pdfName", opt_string_json (Db.pdfName saved));
      (js "imageCount", opt_number_json (Db.imageCount saved))
    ])
  ].

(** Parsing the model's answer and, when it parses, storing the summary
    ([POST], lines 398-437). *)
Definition finishSummary (ext : Ext) (userId : js_string)
  (pdfFile : option File) (images : list File) (autoPdfImages : list Image)
  (hasAnyImages : bool) (pdfText raw : js_string) : M NextResponse :=
  match parseSummary ext raw with
  | None =>
    ret (NextResponse_json
           (JObject [(js "ok", JBool false); (js "error", JString msg_no_json);
                     (js "raw", JString (slice raw 0 300))]) 500)
  | Some parsed =>
    let sourceUI :=
      match pdfFile with
      | Some _ => if hasAnyImages then api_pdf_plus_image else api_pdf
      | None => api_image
      end in
    let sourceDB := toDbSource sourceUI in
    saved <- on_db (fun st =>
      Db.summary_create (cuid ext st) (now ext) {|
        Db.d_userId := userId;
        Db.d_source := sourceDB;
        Db.d_title :=
          match title parsed with
          | Some t => if truthy (slice t 0 140) then slice t 0 140 else default_title
          | None => default_title
          end;
        Db.d_summary := summary parsed;
        Db.d_keywords := keywords parsed;
        Db.d_inputText := if truthy pdfText then pdfText else empty;
        Db.d_pdfName := option_map name pdfFile;
        Db.d_imageCount :=
          if 0 <? len images then len images else len autoPdfImages
      |} st) ;;
    ret (NextResponse_json (saved_body saved) 200)
  end.

(** With the text and the images at hand: ask the model, then store what it
    answered ([POST], lines 365-437). *)
Definition summarizeAndStore (ext : Ext) (userId : js_string)
  (pdfFile : option File) (images : list File)
  (pdfText summaryLength : js_string) (autoPdfImages : list Image)
  : M NextResponse :=
  let hasAnyImages := (0 <? len images) || (0 <? len autoPdfImages) in
  raw <- summarize ext pdfText summaryLength images autoPdfImages hasAnyImages ;;
  finishSummary ext userId pdfFile images autoPdfImages hasAnyImages pdfText raw.

(** The handler once the key and the caller are known ([POST], lines
    305-437). *)
Definition summarizeFor (ext : Ext) (userId : js_string) (req : Request)
  : M NextResponse :=
  ensureUserRow userId ;;;
  let pdfFile := form_pdf req in
  let images := form_images req in
  match pdfFile, images with
  | None, [] => ret (NextResponse_json (error_body msg_no_input) 400)
  | _, _ =>
    pdfText <- extractPdfText ext pdfFile ;;
    let pdfBuf := option_map arrayBuffer pdfFile in
    let summaryLength := choose_summaryLength pdfText in
    auto <- autoRasterize ext pdfFile pdfBuf pdfText images ;;
    match auto with
    | inl response => ret response
    | inr autoPdfImages =>
      summarizeAndStore ext userId pdfFile images pdfText summaryLength
        autoPdfImages
    end
  end.

(** The answer of the handler's own [catch] (lines 438-445). *)
Definition server_error (e : Exn) : NextResponse :=
  NextResponse_json
    (error_body
       (match message e with
        | Some msg => msg
        | None => js "Server error"
        end)) 500.

(** The handler: the two guards, then [summarizeFor], all inside the
    [try]. *)
Definition POST (ext : Ext) (req : Request) : M NextResponse :=
  try_catch
    (if falsy (GEMINI_API_KEY ext)
     then ret (NextResponse_json (error_body msg_no_key) 500)
     else match caller req with
     | None => ret (NextResponse_json (error_body msg_unauthorized) 401)
     | Some userId =>
       if negb (truthy userId)
       then ret (NextResponse_json (error_body msg_unauthorized) 401)
       else summarizeFor ext userId req
     end)
    (fun e => ret (server_error e)).

(* ------------------------------------------------------------------ *)
(** ** [app/api/summary/[id]/route.ts]: deleting a summary *)

(** The caller as the identity provider reports it, and the id of the
    route. *)
Record DeleteRequest := {
  del_caller : option js_string;
  params_id : js_string
}.

(** The handler: 401 without a caller, else [deleteMany] on the id and the
    caller together, 404 when that removed nothing. *)
Definition DELETE (req : DeleteRequest) : M NextResponse :=
  match del_caller req with
  | None =>
    ret (NextResponse_json (JObject [(js "error", JString msg_unauthorized)]) 401)
  | Some userId =>
    if negb (truthy userId)
    then ret (NextResponse_json
                (JObject [(js "error", JString msg_unauthorized)]) 401)
    else
      deleted_count <- on_db (Db.summary_deleteMany (params_id req) userId) ;;
      if deleted_count =? 0
      then ret (NextResponse_json
                  (JObject [(js "error", JString (js "Not found"))]) 404)
      else ret (NextResponse_json (JObject [(js "success", JBool true)]) 200)
  end.

(* ------------------------------------------------------------------ *)
(** ** Vocabulary of the statements *)

(** The text [POST] works with: what [extractPdfText] returns. *)
Definition extractedText (ext : Ext) (pdfFile : option File) : js_string :=
  match pdfFile with
  | Some f =>
    match parsePdfToText ext (arrayBuffer f) with
    | Ok t => t
    | Throw _ => empty
    end
  | None => empty
  end.

(** [ceil(a / b)] for a positive [b]. *)
Definition ceil_div (a b : Z) : Z := (a + b - 1) / b.

(** The parts that are images. *)
Definition is_inline (p : Part) : bool :=
  match p with
  | inlineData _ _ => true
  | text_part _ => false
  end.

(** [typeof v === "string"] *)
Definition is_string (v : Json) : bool :=
  match v with
  | JString _ => true
  | _ => false
  end.

(** How many images a model call carries. *)
Definition images_in (parts : list Part) : Z := len (filter is_inline parts).

(** Same datastore, same rasterizations: only model calls were made. *)
Definition same_store (w w' : World) : Prop :=
  db w' = db w /\ raster_calls w' = raster_calls w.

(** The model answers every call. *)
Definition answers (ext : Ext) : Prop :=
  forall n parts, exists r, generateContent ext n parts = Ok r.

(** [sharp] re-encodes each of these images. *)
Definition compressible (ext : Ext) (imgs : list File) : Prop :=
  forall img, In img imgs -> exists out, sharp_jpeg ext (arrayBuffer img) = Ok out.

(** [m] touches nothing but the log of model calls. *)
Definition only_calls {A} (m : M A) : Prop :=
  forall w, same_store w (snd (m w)).

(** A string that is empty or starts with a character [trim] keeps. *)
Definition starts_clean (s : js_string) : Prop :=
  match s with
  | [] => True
  | c :: _ => is_whitespace c = false
  end.

(** The summaries of a caller, as a later listing would show them. *)
Definition summaries_of (userId : js_string) (w : World) : list Db.Summary :=
  filter (fun r => Js.eqb (Db.userId r) userId) (Db.summaries (db w)).

(* ------------------------------------------------------------------ *)
(** ** Concrete requests and collaborators, for the examples *)

Module Demo.

(** A model answer that is no JSON at all. *)
Definition refusal : js_string := js "I cannot summarize this.".

(** A model answer that wraps its object in prose. *)
Definition wrapped_answer : js_string :=
  js "Here is the result: {" ++ dq ++ js "summary" ++ dq ++ js ":" ++ dq
  ++ js "..." ++ dq ++ js "," ++ dq ++ js "keywords" ++ dq ++ js ":[" ++ dq
  ++ js "a" ++ dq ++ js "," ++ dq ++ js "b" ++ dq ++ js "]} Thanks!".

(** Collaborators for which a PDF's text is its bytes, every page renders
    exactly when [raster_ok], and the model always gives [answer]. *)
Definition ext (raster_ok : bool) (answer : js_string) : Ext := {|
  GEMINI_API_KEY := Some (js "key");
  JSON_parse := JsonRef.parse;
  pdfjs_text_items := fun buf => Ok [[Some buf]];
  sharp_pdf_pages := fun _ => Ok (Some 3);
  sharp_pdf_page_jpeg := fun _ _ =>
    if raster_ok then Ok (js "page") else Throw (Error (js "unsupported"));
  sharp_jpeg := fun b => Ok b;
  generateContent := fun _ _ => Ok {| text := Some answer |};
  cuid := fun st => js "c" ++ of_Z (len (Db.summaries st));
  now := js "2026-01-01T00:00:00.000Z"
|}.

(** A file of [size] letters [a]. *)
Definition file (size : nat) : File :=
  {| name := js "a.pdf"; arrayBuffer := repeat 97%N size |}.

(** A request of caller [u1] with a PDF of [size] letters and [n] images. *)
Definition request (size n : nat) : Request :=
  {| caller := Some (js "u1");
     form_pdf := Some (file size);
     form_images := repeat (file 1) n |}.

(** A stored summary with the given id and owner. *)
Definition row (id_ userId_ : js_string) : Db.Summary := {|
  Db.id := id_;
  Db.createdAt := js "2026-01-01T00:00:00.000Z";
  Db.userId := userId_;
  Db.source := pdf;
  Db.title := default_title;
  Db.summary := js "s";
  Db.keywords := JArray [JString (js "k")];
  Db.inputText := None;
  Db.pdfName := None;
  Db.imageCount := None
|}.

(** A world with these summaries and nothing logged yet. *)
Definition world (rows : list Db.Summary) : World :=
  {| db := {| Db.users := []; Db.summaries := rows |};
     model_calls := [];
     raster_calls := [] |}.

End Demo.

(* ------------------------------------------------------------------ *)
(** ** [app/api/history/route.ts]: listing the summaries *)

(** [orderBy: {createdAt: "desc"}]: insertion into a list that is newest
    first. [newer a b] is the datastore's order on timestamps: [a] is at or
    after [b]. Rows of equal time stay in the order they were stored in; the
    datastore promises no order among them. *)
Fixpoint insert_desc (newer : js_string -> js_string -> bool)
  (r : Db.Summary) (sorted : list Db.Summary) : list Db.Summary :=
  match sorted with
  | [] => [r]
  | x :: rest =>
    if newer (Db.createdAt r) (Db.createdAt x) then r :: sorted
    else x :: insert_desc newer r rest
  end.

Definition sort_desc (newer : js_string -> js_string -> bool)
  (rows : list Db.Summary) : list Db.Summary :=
  fold_right (insert_desc newer) [] rows.

(** [prisma.summary.findMany({where: {userId}, orderBy: {createdAt: "desc"},
    take})] *)
Definition summary_findMany (newer : js_string -> js_string -> bool)
  (userId_ : js_string) (take : nat) (st : Db.Store) : list Db.Summary :=
  firstn take
    (sort_desc newer
       (filter (fun r => Js.eqb (Db.userId r) userId_) (Db.summaries st))).

(** A listed row with the fields the [select] keeps, as the response
    carries it: the source is the enum member as it is stored, the
    keywords are the stored JSON. *)
Definition history_item (r : Db.Summary) : Json :=
  JObject [
    (js "id", JString (Db.id r));
    (js "createdAt", JString (Db.createdAt r));
    (js "source", JString (SummarySource_value (Db.source r)));
    (js "title", JString (Db.title r));
    (js "summary", JString (Db.summary r));
    (js "keywords", Db.keywords r);
    (js "pdfName", opt_string_json (Db.pdfName r));
    (js "imageCount", opt_number_json (Db.imageCount r))
  ].

(** The handler [GET] of the history route: 401 without a caller, else the
    caller's 50 newest summaries. *)
Definition GET_history (newer : js_string -> js_string -> bool)
  (caller_ : option js_string) : M NextResponse :=
  match caller_ with
  | None => ret (NextResponse_json (error_body msg_unauthorized) 401)
  | Some userId =>
    if negb (truthy userId)
    then ret (NextResponse_json (error_body msg_unauthorized) 401)
    else
      items <- on_db (fun st => (summary_findMany newer userId 50 st, st)) ;;
      ret (NextResponse_json
             (JObject [(js "ok", JBool true);
                       (js "data", JArray (map history_item items))]) 200)
  end.

(* ------------------------------------------------------------------ *)
(** ** The client component of [app/layout.tsx]: the page that calls the
    handlers *)

Module Page.

(** The character [U+2026], which [clip] appends. *)
Definition ellipsis : js_string := [8230%N].

(** [clip(s, n)]: the text trimmed and with its runs of blanks collapsed,
    cut to [n] characters and an ellipsis when it is longer. *)
Definition clip (s : js_string) (n : Z) : js_string :=
  let t := collapse_blanks false (trim (if truthy s then s else empty)) in
  if Js.length t <=? n then t else slice t 0 n ++ ellipsis.

(** [o.ok === true && "data" in o] on an object. *)
Definition isOkResponse (v : Json) : bool :=
  if negb (isRecord v) then false
  else match get_prop v (js "ok"), get_prop v (js "data") with
       | Some (JBool true), Some _ => true
       | _, _ => false
       end.

(** [o.ok === false && typeof o.error === "string"] on an object. *)
Definition isErrResponse (v : Json) : bool :=
  if negb (isRecord v) then false
  else match get_prop v (js "ok"), get_prop v (js "error") with
       | Some (JBool false), Some (JString _) => true
       | _, _ => false
       end.

(** [toUiSource]: the stored and the shown spelling of a source both give
    the shown one; anything else counts as a PDF. *)
Definition toUiSource (s : Json) : js_string :=
  match s with
  | JString x =>
    if Js.eqb x (js "pdf") then js "pdf"
    else if Js.eqb x (js "image") then js "image"
    else if Js.eqb x (js "pdf_image") || Js.eqb x (js "pdf+image")
    then js "pdf+image"
    else js "pdf"
  | _ => js "pdf"
  end.

(** [normalizeKeywords]: the strings of an array, nothing for anything
    else. *)
Definition normalizeKeywords (v : Json) : list js_string :=
  match v with
  | JArray xs => filter_strings xs
  | _ => []
  end.

(** What [fetchWithRetry] reads of a response. *)
Record Response := { res_status : Z }.

(** The network as the page meets it: how many requests were sent, and the
    waits asked of [sleep], in milliseconds. *)
Record Net := {
  sent : nat;
  slept : list Z
}.

(** [await fetch(input, init)]: [fetch n] is what the request that [n]
    requests preceded gives, a response or a network failure. *)
Definition do_fetch (fetch : nat -> Res Response) (net : Net)
  : Res Response * Net :=
  (fetch (sent net), {| sent := S (sent net); slept := slept net |}).

(** [await sleep(ms)] *)
Definition do_sleep (ms : Z) (net : Net) : Net :=
  {| sent := sent net; slept := slept net ++ [ms] |}.

(** The loop of [fetchWithRetry]: [left] rounds are left to run, round [i]
    is next. When none is left the function throws the last failure, or an
    error of its own when there was none. The waits are the source's
    [1200 * Math.pow(2, i)] and [800 * Math.pow(2, i)] where these are what
    the integers give: a timer honours a wait below [2 ^ 31] ms, which they
    are up to round 20, and as doubles they are exact up to round 1013 and
    infinite after. The statements keep [retries] at or below 20. *)
Fixpoint retry_loop (fetch : nat -> Res Response) (retries : Z) (left : nat)
  (i : Z) (lastErr : option Exn) (net : Net) : Res Response * Net :=
  match left with
  | O =>
    (Throw match lastErr with
           | Some e => e
           | None => Error (js "Beklenmeyen hata")
           end, net)
  | S left' =>
    match do_fetch fetch net with
    | (Ok res, net1) =>
      if (res_status res =? 503) && (i <? retries)
      then retry_loop fetch retries left' (i + 1) lastErr
             (do_sleep (1200 * 2 ^ i) net1)
      else (Ok res, net1)
    | (Throw e, net1) =>
      if i <? retries
      then retry_loop fetch retries left' (i + 1) (Some e)
             (do_sleep (800 * 2 ^ i) net1)
      else (Throw e, net1)
    end
  end.

(** [fetchWithRetry(input, init, retries)]: the loop runs for [i] from 0 to
    [retries]. *)
Definition fetchWithRetry (fetch : nat -> Res Response) (retries : Z)
  (net : Net) : Res Response * Net :=
  retry_loop fetch retries (Z.to_nat (retries + 1)) 0 None net.

End Page.

(* ------------------------------------------------------------------ *)
(** ** Vocabulary of the further statements *)

(** Every call of [calls] was answered, the first being the call that [n]
    calls preceded. *)
Fixpoint answered_from (ext : Ext) (n : nat) (calls : list (list Part))
  : Prop :=
  match calls with
  | [] => True
  | c :: rest =>
    (exists r, generateContent ext n c = Ok r) /\ answered_from ext (S n) rest
  end.

(** All calls but the last were answered, and the last threw [e]. *)
Definition failed_last (ext : Ext) (n : nat) (calls : list (list Part))
  (e : Exn) : Prop :=
  exists before last,
    calls = before ++ [last]
    /\ answered_from ext n before
    /\ generateContent ext (n + List.length before) last = Throw e.

(** The text of the model's answer to the call [parts] that [n] calls
    preceded. *)
Definition answer_text (ext : Ext) (n : nat) (parts : list Part) : js_string :=
  match generateContent ext n parts with
  | Ok r => response_text r
  | Throw _ => empty
  end.

(** The labelled answers that go into the merge prompt: chunk [k] (from 1)
    is answered by the call that [n + k - 1] calls preceded. *)
Fixpoint labelled_answers (ext : Ext) (n : nat) (i : Z)
  (chunks : list js_string) : list js_string :=
  match chunks with
  | [] => []
  | chunk :: rest =>
    (js "CHUNK_" ++ of_Z (i + 1) ++ js ": "
     ++ answer_text ext n (chunk_prompt chunk))
    :: labelled_answers ext (S n) (i + 1) rest
  end.

(** Checks that every blank of a text is one space that follows a
    character that is not blank; [after_blank] says whether the text comes
    after a blank (or at the start). *)
Fixpoint single_spaced (after_blank : bool) (s : js_string) : bool :=
  match s with
  | [] => true
  | c :: r =>
    if is_whitespace c
    then negb after_blank && (c =? 32)%N && single_spaced true r
    else single_spaced false r
  end.

(** [newer] compares any two timestamps one way or the other. *)
Definition total_order (newer : js_string -> js_string -> bool) : Prop :=
  forall a b, newer a b = true \/ newer b a = true.

(** Row [a] is at least as new as row [b]. *)
Definition not_older (newer : js_string -> js_string -> bool)
  (a b : Db.Summary) : Prop :=
  newer (Db.createdAt a) (Db.createdAt b) = true.

(** A result after which [fetchWithRetry] tries again, when a round is
    left: a response of status 503, or a network failure. *)
Definition wants_retry (r : Res Page.Response) : bool :=
  match r with
  | Ok res => Page.res_status res =? 503
  | Throw _ => true
  end.

(** The wait before the next round, after round [i] ended in [r]. *)
Definition backoff (r : Res Page.Response) (i : Z) : Z :=
  match r with
  | Ok _ => 1200 * 2 ^ i
  | Throw _ => 800 * 2 ^ i
  end.

(** [m] stops at the first model call that fails: the calls it makes are
    all answered, or all but the last, whose failure is what [m] throws;
    and [m] does end. *)
Definition fail_fast {A} (ext : Ext) (m : M A) : Prop :=
  forall w, exists calls,
    model_calls (snd (m w)) = model_calls w ++ calls
    /\ match fst (m w) with
       | Returns _ => answered_from ext (List.length (model_calls w)) calls
       | Throws e =>
         answered_from ext (List.length (model_calls w)) calls
         \/ failed_last ext (List.length (model_calls w)) calls e
       | Hangs => False
       end.

(** The row [POST] stores in the datastore [st] for caller [uid] and an
    answer that parsed as [p]. *)
Definition new_row (ext : Ext) (uid : js_string) (pdfFile : option File)
  (images : list File) (auto : list Image) (pdfText : js_string)
  (p : SummaryJSON) (st : Db.Store) : Db.Summary := {|
  Db.id := cuid ext st;
  Db.createdAt := now ext;
  Db.userId := uid;
  Db.source :=
    toDbSource match pdfFile with
               | Some _ =>
                 if (0 <? len images) || (0 <? len auto)
                 then api_pdf_plus_image else api_pdf
               | None => api_image
               end;
  Db.title :=
    match title p with
    | Some t => if truthy (slice t 0 140) then slice t 0 140 else default_title
    | None => default_title
    end;
  Db.summary := summary p;
  Db.keywords := JArray (map JString (keywords p));
  Db.inputText := Some pdfText;
  Db.pdfName := option_map name pdfFile;
  Db.imageCount := Some (if 0 <? len images then len images else len auto)
|}.

(** The datastore with one more summary. *)
Definition with_row (st : Db.Store) (row : Db.Summary) : Db.Store :=
  {| Db.users := Db.users st; Db.summaries := Db.summaries st ++ [row] |}.

(** The answer of [POST] to a model answer that is no usable JSON. *)
Definition no_json_response (raw : js_string) : NextResponse :=
  NextResponse_json
    (JObject [(js "ok", JBool false); (js "error", JString msg_no_json);
              (js "raw", JString (slice raw 0 300))]) 500.

(* ------------------------------------------------------------------ *)
(** ** Model answers, for the examples *)

Module Answers.

(** The object [{"summary":"s"}] with further members. *)
Definition object (members : js_string) : js_string :=
  js "{" ++ dq ++ js "summary" ++ dq ++ js ":" ++ dq ++ js "s" ++ dq
  ++ members ++ js "}".

(** A member [,"key":value]. *)
Definition member (key value : js_string) : js_string :=
  js "," ++ dq ++ key ++ dq ++ js ":" ++ value.

(** A string literal without escapes. *)
Definition quoted (s : js_string) : js_string := dq ++ s ++ dq.

(** No keywords at all. *)
Definition no_keywords : js_string := object empty.

(** [keywords: []] *)
Definition empty_keywords : js_string :=
  object (member (js "keywords") (js "[]")).

(** [keywords: [1, "a", null, "b"]] *)
Definition mixed_keywords : js_string :=
  object (member (js "keywords")
            (js "[1," ++ quoted (js "a") ++ js ",null," ++ quoted (js "b")
             ++ js "]")).

(** [title: ""] *)
Definition empty_title : js_string :=
  object (member (js "title") (quoted empty)).

(** A title of 150 letters [b]. *)
Definition long_title : js_string :=
  object (member (js "title") (quoted (repeat 98%N 150))).

End Answers.

(* ================================================================== *)
(** * Properties *)

(* ------------------------------------------------------------------ *)
(** ** Strings *)

Lemma js_eqb_eq (a b : js_string) : Js.eqb a b = true <-> a = b.
Proof.
  unfold Js.eqb. destruct (list_eq_dec N.eq_dec a b); split; congruence.
Qed.

Lemma js_eqb_neq (a b : js_string) : Js.eqb a b = false <-> a <> b.
Proof.
  unfold Js.eqb. destruct (list_eq_dec N.eq_dec a b); split; congruence.
Qed.

Lemma js_eqb_refl (a : js_string) : Js.eqb a a = true.
Proof. now apply js_eqb_eq. Qed.

Lemma truthy_false (s : js_string) : truthy s = false <-> s = [].
Proof. destruct s; cbn; split; congruence. Qed.

Lemma truthy_true (s : js_string) : truthy s = true <-> s <> [].
Proof. destruct s; cbn; split; congruence. Qed.

Lemma length_nonneg (s : js_string) : 0 <= Js.length s.
Proof. unfold Js.length. lia. Qed.

Lemma length_zero (s : js_string) : Js.length s = 0 <-> s = [].
Proof.
  unfold Js.length. destruct s; cbn [List.length]; split; try congruence; lia.
Qed.

Lemma len_zero {A} (xs : list A) : len xs = 0 <-> xs = [].
Proof.
  unfold len. destruct xs; cbn [List.length]; split; try congruence; lia.
Qed.

Lemma slice_window (t : js_string) (i n : Z) :
  0 <= i -> 0 <= n ->
  slice t i (i + n) = firstn (Z.to_nat n) (skipn (Z.to_nat i) t).
Proof.
  intros Hi Hn. unfold slice, clamp_pos.
  destruct (Z.ltb_spec i 0); [lia|].
  destruct (Z.ltb_spec (i + n) 0); [lia|].
  pose proof (length_nonneg t) as HL. unfold Js.length in *.
  destruct (Z_le_gt_dec i (Z.of_nat (List.length t))) as [Hle|Hgt].
  - rewrite (Z.min_l i) by lia.
    destruct (Z_le_gt_dec (i + n) (Z.of_nat (List.length t))).
    + rewrite Z.min_l by lia. f_equal. lia.
    + rewrite Z.min_r by lia.
      rewrite !firstn_all2; [reflexivity| |]; rewrite length_skipn; lia.
  - rewrite (Z.min_r i) by lia.
    rewrite !skipn_all2 by lia. now rewrite !firstn_nil.
Qed.

Lemma slice_prefix (t : js_string) (n : Z) :
  0 <= n -> slice t 0 n = firstn (Z.to_nat n) t.
Proof. intros Hn. apply (slice_window t 0 n); lia. Qed.

Lemma slice_length (t : js_string) (i n : Z) :
  0 <= i -> 0 <= n ->
  Js.length (slice t i (i + n)) = Z.max 0 (Z.min n (Js.length t - i)).
Proof.
  intros Hi Hn. rewrite slice_window by assumption.
  unfold Js.length. rewrite length_firstn, length_skipn. lia.
Qed.

(** *** [trim] leaves a string that blanks neither start nor end *)

Lemma trimStart_clean (s : js_string) : starts_clean (trimStart s).
Proof.
  induction s as [|c r IH]; cbn; [exact I|].
  destruct (is_whitespace c) eqn:E; [exact IH | exact E].
Qed.

Lemma trimStart_id (s : js_string) : starts_clean s -> trimStart s = s.
Proof. destruct s as [|c r]; cbn; [reflexivity|]. now intros ->. Qed.

Lemma trimStart_suffix (s : js_string) : exists p, s = p ++ trimStart s.
Proof.
  induction s as [|c r [p IH]]; [now exists []|]. cbn.
  destruct (is_whitespace c).
  - exists (c :: p). cbn. now rewrite <- IH.
  - now exists [].
Qed.

Lemma trimEnd_prefix (s : js_string) : exists q, s = trimEnd s ++ q.
Proof.
  unfold trimEnd. destruct (trimStart_suffix (rev s)) as [p Hp].
  exists (rev p). rewrite <- rev_app_distr, <- Hp. now rewrite rev_involutive.
Qed.

Lemma trimEnd_keeps_start (s : js_string) :
  starts_clean s -> starts_clean (trimEnd s).
Proof.
  intros Hs. destruct (trimEnd_prefix s) as [q Hq].
  destruct (trimEnd s) as [|c r]; [exact I|].
  rewrite Hq in Hs. exact Hs.
Qed.

Lemma trimEnd_id (s : js_string) : starts_clean (rev s) -> trimEnd s = s.
Proof.
  intros H. unfold trimEnd. rewrite trimStart_id by assumption.
  apply rev_involutive.
Qed.

Lemma trim_idempotent (s : js_string) : trim (trim s) = trim s.
Proof.
  unfold trim at 1.
  rewrite trimStart_id.
  - apply trimEnd_id. unfold trim, trimEnd. rewrite rev_involutive.
    apply trimStart_clean.
  - unfold trim. apply trimEnd_keeps_start, trimStart_clean.
Qed.

(** *** The loop of [chunkText] *)

Lemma chunk_loop_spec (fuel : nat) :
  forall (t : js_string) (cs i : Z) (out : list js_string),
    0 < cs -> 0 <= i -> Js.length t - i <= Z.of_nat fuel ->
    exists cks,
      chunk_loop fuel t cs i out = Some (out ++ cks)
      /\ List.concat cks = skipn (Z.to_nat i) t
      /\ len cks = (Z.max (Js.length t - i) 0 + cs - 1) / cs
      /\ forall k c, nth_error cks k = Some c ->
           c = slice t (i + Z.of_nat k * cs) (i + Z.of_nat k * cs + cs).
Proof.
  induction fuel as [|fuel IH]; intros t cs i out Hcs Hi Hfuel.
  - exists []. cbn [chunk_loop].
    destruct (Z.ltb_spec i (Js.length t)); [lia|].
    rewrite app_nil_r. repeat split.
    + cbn. rewrite skipn_all2; [reflexivity|]. unfold Js.length in *. lia.
    + rewrite Z.max_r by lia. cbn. symmetry. apply Z.div_small. lia.
    + intros [|k] c Hk; discriminate.
  - cbn [chunk_loop]. destruct (Z.ltb_spec i (Js.length t)) as [Hlt|Hge].
    + destruct (IH t cs (i + cs) (out ++ [slice t i (i + cs)]))
        as (cks & Hrun & Hcat & Hlen & Hnth); try lia.
      exists (slice t i (i + cs) :: cks). repeat split.
      * rewrite Hrun, <- app_assoc. reflexivity.
      * cbn [List.concat]. rewrite Hcat, slice_window by lia.
        replace (Z.to_nat (i + cs)) with (Z.to_nat i + Z.to_nat cs)%nat by lia.
        rewrite Nat.add_comm, <- skipn_skipn. apply firstn_skipn.
      * unfold len in *. cbn [List.length]. rewrite Nat2Z.inj_succ, Hlen.
        rewrite (Z.max_l (Js.length t - i)) by lia.
        destruct (Z_le_gt_dec 0 (Js.length t - (i + cs))).
        -- rewrite Z.max_l by lia.
           replace (Js.length t - i + cs - 1)
             with (Js.length t - (i + cs) + cs - 1 + 1 * cs) by lia.
           rewrite Z.div_add by lia. lia.
        -- rewrite Z.max_r by lia.
           rewrite (Z.div_small (0 + cs - 1)) by lia.
           replace ((Js.length t - i + cs - 1) / cs) with 1; [lia|].
           apply Z.div_unique with (r := Js.length t - i - 1); lia.
      * intros [|k] c Hk; cbn [nth_error] in Hk.
        -- injection Hk as <-. f_equal; lia.
        -- apply Hnth in Hk. subst c. f_equal; lia.
    + exists []. rewrite app_nil_r. repeat split.
      * cbn. rewrite skipn_all2; [reflexivity|]. unfold Js.length in *. lia.
      * rewrite Z.max_r by lia. cbn. symmetry. apply Z.div_small. lia.
      * intros [|k] c Hk; discriminate.
Qed.

(** [chunkText] for any positive chunk size. *)
Lemma chunkText_spec (s : js_string) (cs : Z) :
  0 < cs ->
  exists chunks,
    chunkText s cs = Some chunks
    /\ List.concat chunks = trim s
    /\ len chunks = ceil_div (Js.length (trim s)) cs
    /\ forall k c, nth_error chunks k = Some c ->
         c = slice (trim s) (Z.of_nat k * cs) (Z.of_nat k * cs + cs).
Proof.
  intros Hcs. unfold chunkText, ceil_div.
  destruct (truthy (trim s)) eqn:Ht; cbn [negb].
  - destruct (chunk_loop_spec (List.length (trim s)) (trim s) cs 0 [] Hcs)
      as (cks & Hrun & Hcat & Hlen & Hnth); [lia | unfold Js.length; lia |].
    exists cks. cbn [app] in Hrun. rewrite Z.sub_0_r in Hlen.
    rewrite Z.max_l in Hlen by apply length_nonneg.
    repeat split; assumption.
  - apply truthy_false in Ht. rewrite Ht. exists []. repeat split.
    + cbn. symmetry. apply Z.div_small. lia.
    + intros [|k] c Hk; discriminate.
Qed.

(** C5. [chunkText] with the chunk size 9000 returns, for every input: no
    chunk when the trimmed input is empty, and otherwise the consecutive
    windows of 9000 characters of the trimmed input, in order. Chunk [k] is
    the slice from [9000 k] to [9000 k + 9000]; every chunk but the last
    has exactly 9000 characters and the last has between 1 and 9000; the
    chunks concatenated are the trimmed input; there are
    [ceil(len(trimmed) / 9000)] of them. Being a function of its input, the
    result is the same on every call. *)
Theorem chunkText_windows (s : js_string) :
  exists chunks,
    chunkText s 9000 = Some chunks
    /\ (trim s = [] -> chunks = [])
    /\ List.concat chunks = trim s
    /\ len chunks = ceil_div (Js.length (trim s)) 9000
    /\ forall k c, nth_error chunks k = Some c ->
         c = slice (trim s) (9000 * Z.of_nat k) (9000 * Z.of_nat k + 9000)
         /\ 0 < Js.length c <= 9000
         /\ (Z.of_nat k + 1 < len chunks -> Js.length c = 9000).
Proof.
  destruct (chunkText_spec s 9000) as (chunks & Hrun & Hcat & Hlen & Hnth);
    [lia|].
  exists chunks. repeat split; try assumption.
  - intros Ht. rewrite Ht in Hlen. apply len_zero. rewrite Hlen. reflexivity.
  - rewrite (Hnth k c H). f_equal; lia.
  - assert (Hk : Z.of_nat k < len chunks).
    { unfold len. apply Nat2Z.inj_lt. apply nth_error_Some. congruence. }
    rewrite (Hnth k c H), slice_length by lia.
    unfold ceil_div in Hlen. rewrite Hlen in Hk.
    pose proof (Z.mul_div_le (Js.length (trim s) + 9000 - 1) 9000). lia.
  - rewrite (Hnth k c H), slice_length by lia. lia.
  - intros Hk. rewrite (Hnth k c H), slice_length by lia.
    unfold ceil_div in Hlen. rewrite Hlen in Hk.
    pose proof (Z.mul_div_le (Js.length (trim s) + 9000 - 1) 9000). lia.
Qed.

(* ------------------------------------------------------------------ *)
(** ** Running the monad *)

Lemma bind_returns {A B} (m : M A) (k : A -> M B) (w w1 : World) (a : A) :
  m w = (Returns a, w1) -> bind m k w = k a w1.
Proof. unfold bind. now intros ->. Qed.

Lemma bind_throws {A B} (m : M A) (k : A -> M B) (w w1 : World) (e : Exn) :
  m w = (Throws e, w1) -> bind m k w = (Throws e, w1).
Proof. unfold bind. now intros ->. Qed.

Lemma try_catch_returns {A} (m : M A) (h : Exn -> M A) (w w1 : World) (a : A) :
  m w = (Returns a, w1) -> try_catch m h w = (Returns a, w1).
Proof. unfold try_catch. now intros ->. Qed.

(** *** Computations that only call the model *)

Lemma same_store_refl (w : World) : same_store w w.
Proof. now split. Qed.

Lemma same_store_trans (w1 w2 w3 : World) :
  same_store w1 w2 -> same_store w2 w3 -> same_store w1 w3.
Proof. unfold same_store. intros [H1 H2] [H3 H4]. split; congruence. Qed.

Lemma only_calls_ret {A} (a : A) : only_calls (ret a).
Proof. intros w. apply same_store_refl. Qed.

Lemma only_calls_throw {A} (e : Exn) : only_calls (@throw A e).
Proof. intros w. apply same_store_refl. Qed.

Lemma only_calls_hang {A} : only_calls (@hang A).
Proof. intros w. apply same_store_refl. Qed.

Lemma only_calls_lift {A} (r : Res A) : only_calls (lift r).
Proof. destruct r; [apply only_calls_ret | apply only_calls_throw]. Qed.

Lemma only_calls_bind {A B} (m : M A) (k : A -> M B) :
  only_calls m -> (forall a, only_calls (k a)) -> only_calls (bind m k).
Proof.
  intros Hm Hk w. unfold bind. specialize (Hm w).
  destruct (m w) as [[a|e|] w1]; cbn [snd] in *; try assumption.
  eapply same_store_trans; [exact Hm | apply Hk].
Qed.

Lemma only_calls_generate (ext : Ext) (parts : list Part) :
  only_calls (ai_generateContent ext parts).
Proof.
  intros w. unfold ai_generateContent.
  destruct (generateContent _ _ _); now split.
Qed.

Ltac frame :=
  repeat first
    [ apply only_calls_ret | apply only_calls_throw | apply only_calls_hang
    | apply only_calls_lift | apply only_calls_generate
    | apply only_calls_bind; [|intros ?] ].

Lemma only_calls_summarize_chunks (ext : Ext) (chunks : list js_string) :
  forall i acc, only_calls (summarize_chunks ext chunks i acc).
Proof.
  induction chunks as [|c rest IH]; intros i acc; cbn [summarize_chunks].
  - frame.
  - unfold geminiSummarizeTextChunkAcademic. frame. apply IH.
Qed.

Lemma only_calls_push_compressed (ext : Ext) (imgs : list File) :
  forall parts, only_calls (push_compressed ext imgs parts).
Proof.
  induction imgs as [|img rest IH]; intros parts; cbn [push_compressed].
  - frame.
  - frame. apply IH.
Qed.

Lemma only_calls_summarize (ext : Ext) (pdfText summaryLength : js_string)
  (images : list File) (autoPdfImages : list Image) (hasAnyImages : bool) :
  only_calls (summarize ext pdfText summaryLength images autoPdfImages
                hasAnyImages).
Proof.
  unfold summarize.
  destruct (truthy pdfText && (12000 <? Js.length pdfText) && negb hasAnyImages).
  - unfold summarizeFullPdfTextAcademic.
    destruct (chunkText pdfText 9000) as [chunks|]; [|frame].
    destruct (len chunks =? 0); [frame|].
    unfold geminiFinalSummaryAcademic. frame.
    apply only_calls_summarize_chunks.
  - unfold summarizeSingleCall. frame.
    apply only_calls_push_compressed.
Qed.

(** *** The blocks of [POST], run *)

Lemma ensureUserRow_run (uid : js_string) (w : World) :
  ensureUserRow uid w = (Returns tt, with_db w (Db.user_upsert uid (db w))).
Proof. reflexivity. Qed.

Lemma user_upsert_summaries (uid : js_string) (st : Db.Store) :
  Db.summaries (Db.user_upsert uid st) = Db.summaries st.
Proof. unfold Db.user_upsert. now destruct (existsb _ _). Qed.

Lemma extractPdfText_run (ext : Ext) (pdfFile : option File) (w : World) :
  extractPdfText ext pdfFile w = (Returns (extractedText ext pdfFile), w).
Proof.
  unfold extractPdfText, extractedText. destruct pdfFile as [f|]; [|reflexivity].
  unfold try_catch. now destruct (parsePdfToText ext (arrayBuffer f)).
Qed.

Lemma extractedText_trimmed (ext : Ext) (pdfFile : option File) :
  trim (extractedText ext pdfFile) = extractedText ext pdfFile.
Proof.
  unfold extractedText, parsePdfToText. destruct pdfFile as [f|]; [|reflexivity].
  destruct (pdfjs_text_items ext (arrayBuffer f)); [|reflexivity].
  apply trim_idempotent.
Qed.

(** The rasterizer renders one or two pages, or throws. *)
Lemma render_pages_length (ext : Ext) (buf : Buffer) (n : nat) :
  forall i out pages,
    render_pages ext buf n i out = Ok pages ->
    List.length pages = (List.length out + n)%nat.
Proof.
  induction n as [|n IH]; intros i out pages H; cbn [render_pages] in H.
  - injection H as <-. lia.
  - destruct (sharp_pdf_page_jpeg ext buf i); [|discriminate].
    apply IH in H. rewrite H, length_app. cbn. lia.
Qed.

Lemma rasterized_pages (ext : Ext) (buf : Buffer) (pages : list Image) :
  pdfBufferToJpegPagesBase64 ext buf 2 = Ok pages -> 1 <= len pages <= 2.
Proof.
  unfold pdfBufferToJpegPagesBase64. intros H.
  apply render_pages_length in H. unfold len. rewrite H. cbn [List.length].
  destruct (sharp_pdf_pages ext buf) as [[pages'|]|]; try (cbn; lia).
  destruct (Z.ltb_spec 0 pages'); lia.
Qed.

(** What [autoRasterize] does, case by case. *)
Lemma autoRasterize_skipped (ext : Ext) (pdfFile : option File)
  (pdfBuf : option Buffer) (pdfText : js_string) (images : list File)
  (w : World) :
  pdfFile = None \/ trim pdfText <> [] \/ images <> [] ->
  autoRasterize ext pdfFile pdfBuf pdfText images w = (Returns (inr []), w).
Proof.
  intros H. unfold autoRasterize. destruct pdfFile as [f|]; [|reflexivity].
  destruct H as [H|[H|H]]; [discriminate| |].
  - destruct (Z.eqb_spec (Js.length (trim pdfText)) 0) as [E|E].
    + now apply length_zero in E.
    + reflexivity.
  - destruct (Z.eqb_spec (len images) 0) as [E|E].
    + now apply len_zero in E.
    + now rewrite andb_false_r.
Qed.

Lemma autoRasterize_run (ext : Ext) (f : File) (pdfText : js_string)
  (w : World) :
  trim pdfText = [] ->
  autoRasterize ext (Some f) (Some (arrayBuffer f)) pdfText [] w =
  (Returns
     match pdfBufferToJpegPagesBase64 ext (arrayBuffer f) 2 with
     | Ok [] => inl (NextResponse_json (error_body msg_scanned_empty) 400)
     | Ok pages => inr pages
     | Throw _ => inl (NextResponse_json (error_body msg_scanned_failed) 400)
     end,
   with_raster w (arrayBuffer f)).
Proof.
  intros Ht. unfold autoRasterize. rewrite Ht. cbn [Js.length List.length Z.of_nat Z.eqb len andb].
  unfold try_catch, bind, log_raster, lift.
  destruct (pdfBufferToJpegPagesBase64 ext (arrayBuffer f) 2) as [[|p ps]|e];
    reflexivity.
Qed.

Lemma generate_run (ext : Ext) (parts : list Part) (w : World) :
  answers ext ->
  exists r, ai_generateContent ext parts w = (Returns r, with_call w parts).
Proof.
  intros Hai. unfold ai_generateContent.
  destruct (Hai (List.length (model_calls w)) parts) as [r ->]. now exists r.
Qed.

Lemma summarize_chunks_run (ext : Ext) (chunks : list js_string) :
  answers ext ->
  forall i acc w,
  exists partials w',
    summarize_chunks ext chunks i acc w = (Returns partials, w')
    /\ same_store w w'
    /\ model_calls w' = model_calls w ++ map chunk_prompt chunks.
Proof.
  intros Hai. induction chunks as [|c rest IH]; intros i acc w;
    cbn [summarize_chunks map].
  - exists acc, w. rewrite app_nil_r. repeat split.
  - unfold geminiSummarizeTextChunkAcademic, bind at 1 2.
    destruct (generate_run ext (chunk_prompt c) w Hai) as [r ->].
    cbn [ret].
    destruct (IH (i + 1)
                 (acc ++ [js "CHUNK_" ++ of_Z (i + 1) ++ js ": " ++ response_text r])
                 (with_call w (chunk_prompt c)))
      as (partials & w' & Hrun & Hsame & Hcalls).
    exists partials, w'. rewrite Hrun. repeat split; try apply Hsame.
    rewrite Hcalls. cbn [with_call model_calls]. now rewrite <- app_assoc.
Qed.

Lemma ceil_div_pos (a b : Z) : 0 < a -> 0 < b -> 0 < ceil_div a b.
Proof.
  intros Ha Hb. unfold ceil_div.
  apply Z.div_str_pos. lia.
Qed.

(** The chunk-and-merge path calls the model once per chunk, in order,
    then once to merge. *)
Lemma summarizeFull_run (ext : Ext) (pdfText summaryLength : js_string)
  (w : World) :
  answers ext -> trim pdfText <> [] ->
  exists chunks partials raw w',
    chunkText pdfText 9000 = Some chunks
    /\ summarizeFullPdfTextAcademic ext pdfText summaryLength w = (Returns raw, w')
    /\ same_store w w'
    /\ model_calls w' =
       model_calls w ++ map chunk_prompt chunks
         ++ [merge_prompt partials summaryLength].
Proof.
  intros Hai Ht. unfold summarizeFullPdfTextAcademic.
  destruct (chunkText_spec pdfText 9000) as (chunks & Hck & _ & Hlen & _); [lia|].
  rewrite Hck.
  assert (Hpos : 0 < len chunks).
  { rewrite Hlen. apply ceil_div_pos; [|lia].
    pose proof (length_nonneg (trim pdfText)).
    destruct (Z.eq_dec (Js.length (trim pdfText)) 0) as [E|E]; [|lia].
    now apply length_zero in E. }
  destruct (Z.eqb_spec (len chunks) 0); [lia|].
  unfold bind at 1.
  destruct (summarize_chunks_run ext chunks Hai 0 [] w)
    as (partials & w1 & -> & Hsame & Hcalls).
  unfold geminiFinalSummaryAcademic, bind.
  destruct (generate_run ext (merge_prompt (join (nl ++ nl) partials) summaryLength)
              w1 Hai) as [r ->].
  cbn [ret].
  exists chunks, (join (nl ++ nl) partials), (response_text r),
    (with_call w1 (merge_prompt (join (nl ++ nl) partials) summaryLength)).
  repeat split; try apply Hsame.
  cbn [with_call model_calls]. rewrite Hcalls. now rewrite <- app_assoc.
Qed.

Lemma push_compressed_run (ext : Ext) (imgs : list File) :
  compressible ext imgs ->
  forall parts w,
  exists ps,
    push_compressed ext imgs parts w = (Returns (parts ++ ps), w)
    /\ List.length ps = List.length imgs
    /\ filter is_inline ps = ps.
Proof.
  induction imgs as [|img rest IH]; intros Hok parts w; cbn [push_compressed].
  - exists []. now rewrite app_nil_r.
  - destruct (Hok img (or_introl eq_refl)) as [out Hout].
    unfold compressImageToJpegBase64. rewrite Hout. cbn [lift].
    unfold bind at 1. cbn [ret mime b64].
    destruct (IH (fun i Hi => Hok i (or_intror Hi))
                 (parts ++ [inlineData (js "image/jpeg") out]) w)
      as (ps & Hrun & Hlen & Hinl).
    exists (inlineData (js "image/jpeg") out :: ps).
    rewrite Hrun, <- app_assoc. cbn [app List.length filter is_inline].
    repeat split; congruence.
Qed.

Lemma filter_inline_map (imgs : list Image) :
  filter is_inline (map (fun a => inlineData (mime a) (b64 a)) imgs)
  = map (fun a => inlineData (mime a) (b64 a)) imgs.
Proof. induction imgs as [|a r IH]; cbn; congruence. Qed.

Lemma len_firstn {A} (n : nat) (xs : list A) :
  len (firstn n xs) = Z.min (Z.of_nat n) (len xs).
Proof. unfold len. rewrite length_firstn. lia. Qed.

(** The single-call path makes exactly one call, with at most four images
    of each kind, whether the model answers it or not. *)
Lemma summarizeSingleCall_run (ext : Ext) (pdfText summaryLength : js_string)
  (images : list File) (autoPdfImages : list Image) (hasAnyImages : bool)
  (w : World) :
  compressible ext (firstn 4 images) ->
  exists out parts w',
    summarizeSingleCall ext pdfText summaryLength images autoPdfImages
      hasAnyImages w = (out, w')
    /\ same_store w w'
    /\ model_calls w' = model_calls w ++ [parts]
    /\ images_in parts = Z.min 4 (len images) + Z.min 4 (len autoPdfImages)
    /\ (answers ext -> exists raw, out = Returns raw).
Proof.
  intros Hok. unfold summarizeSingleCall, bind at 1.
  destruct (push_compressed_run ext (firstn 4 images) Hok
              [text_part (single_prompt_text pdfText summaryLength hasAnyImages)] w)
    as (ps & -> & Hlen & Hinl).
  set (parts := ([text_part (single_prompt_text pdfText summaryLength hasAnyImages)]
                   ++ ps)
                ++ map (fun a => inlineData (mime a) (b64 a))
                     (firstn 4 autoPdfImages)).
  assert (Himg : images_in parts
                 = Z.min 4 (len images) + Z.min 4 (len autoPdfImages)).
  { unfold images_in, parts. rewrite !filter_app, filter_inline_map, Hinl.
    cbn [filter is_inline app]. unfold len at 1. rewrite length_app, length_map.
    rewrite Hlen, Nat2Z.inj_add.
    change (Z.of_nat (List.length (firstn 4 images))) with (len (firstn 4 images)).
    change (Z.of_nat (List.length (firstn 4 autoPdfImages)))
      with (len (firstn 4 autoPdfImages)).
    now rewrite !len_firstn. }
  unfold bind, ai_generateContent.
  destruct (generateContent ext (List.length (model_calls w)) parts) as [r|e] eqn:E.
  - exists (Returns (response_text r)), parts, (with_call w parts).
    cbn [ret]. repeat split; try assumption. intros _. now eexists.
  - exists (Throws e), parts, (with_call w parts).
    repeat split; try assumption.
    intros Hai. destruct (Hai (List.length (model_calls w)) parts) as [r Hr].
    congruence.
Qed.

(** [finishSummary] returns a response and calls neither the model nor the
    rasterizer. *)
Lemma finishSummary_rejects (ext : Ext) (uid : js_string)
  (pdfFile : option File) (images : list File) (auto : list Image)
  (has : bool) (pdfText raw : js_string) (w : World) :
  parseSummary ext raw = None ->
  finishSummary ext uid pdfFile images auto has pdfText raw w =
  (Returns
     (NextResponse_json
        (JObject [(js "ok", JBool false); (js "error", JString msg_no_json);
                  (js "raw", JString (slice raw 0 300))]) 500), w).
Proof. intros H. unfold finishSummary. now rewrite H. Qed.

Lemma finishSummary_stores (ext : Ext) (uid : js_string)
  (pdfFile : option File) (images : list File) (auto : list Image)
  (has : bool) (pdfText raw : js_string) (w : World) (p : SummaryJSON) :
  parseSummary ext raw = Some p ->
  exists row w',
    finishSummary ext uid pdfFile images auto has pdfText raw w =
      (Returns (NextResponse_json (saved_body row) 200), w')
    /\ Db.summaries (db w') = Db.summaries (db w) ++ [row]
    /\ Db.users (db w') = Db.users (db w)
    /\ model_calls w' = model_calls w
    /\ raster_calls w' = raster_calls w
    /\ Db.userId row = uid
    /\ Db.source row =
       toDbSource match pdfFile with
                  | Some _ => if has then api_pdf_plus_image else api_pdf
                  | None => api_image
                  end
    /\ Db.title row =
       match title p with
       | Some t => if truthy (slice t 0 140) then slice t 0 140 else default_title
       | None => default_title
       end
    /\ Db.summary row = summary p
    /\ Db.keywords row = JArray (map JString (keywords p))
    /\ Db.imageCount row =
       Some (if 0 <? len images then len images else len auto).
Proof.
  intros H. unfold finishSummary. rewrite H. unfold bind, on_db.
  cbn [ret Db.summary_create fst snd].
  eexists _, _. split; [reflexivity|]. cbn. repeat split.
Qed.

Lemma finishSummary_calls (ext : Ext) (uid : js_string)
  (pdfFile : option File) (images : list File) (auto : list Image)
  (has : bool) (pdfText raw : js_string) (w : World) :
  exists resp w',
    finishSummary ext uid pdfFile images auto has pdfText raw w = (Returns resp, w')
    /\ model_calls w' = model_calls w /\ raster_calls w' = raster_calls w.
Proof.
  destruct (parseSummary ext raw) as [p|] eqn:E.
  - destruct (finishSummary_stores ext uid pdfFile images auto has pdfText raw w p E)
      as (row & w' & Hrun & _ & _ & Hc & Hr & _).
    eexists _, w'. now rewrite Hrun.
  - rewrite finishSummary_rejects by assumption. now eexists _, w.
Qed.

(** *** [summarizeAndStore] and [POST] *)

Lemma try_catch_world {A} (m : M A) (h : Exn -> A) (w : World) :
  snd (try_catch m (fun e => ret (h e)) w) = snd (m w).
Proof. unfold try_catch. now destruct (m w) as [[a|e|] w1]. Qed.

Lemma try_catch_result {A} (m : M A) (h : Exn -> A) (w : World) (a : A) :
  fst (m w) = Returns a -> fst (try_catch m (fun e => ret (h e)) w) = Returns a.
Proof.
  unfold try_catch. destruct (m w) as [[a'|e|] w1]; cbn; congruence.
Qed.

(** A row is stored only for an answer that parses, and is built from it. *)
Lemma summarizeAndStore_rows (ext : Ext) (uid : js_string)
  (pdfFile : option File) (images : list File)
  (pdfText summaryLength : js_string) (auto : list Image) (w : World) :
  let run := summarizeAndStore ext uid pdfFile images pdfText summaryLength auto w in
  raster_calls (snd run) = raster_calls w
  /\ (Db.summaries (db (snd run)) = Db.summaries (db w)
      \/ exists raw p row,
           parseSummary ext raw = Some p
           /\ fst run = Returns (NextResponse_json (saved_body row) 200)
           /\ Db.summaries (db (snd run)) = Db.summaries (db w) ++ [row]
           /\ Db.userId row = uid
           /\ Db.source row =
              toDbSource match pdfFile with
                         | Some _ =>
                           if (0 <? len images) || (0 <? len auto)
                           then api_pdf_plus_image else api_pdf
                         | None => api_image
                         end
           /\ Db.title row =
              match title p with
              | Some t =>
                if truthy (slice t 0 140) then slice t 0 140 else default_title
              | None => default_title
              end
           /\ Db.summary row = summary p
           /\ Db.keywords row = JArray (map JString (keywords p))
           /\ Db.imageCount row =
              Some (if 0 <? len images then len images else len auto)).
Proof.
  cbn zeta. unfold summarizeAndStore, bind.
  set (has := (0 <? len images) || (0 <? len auto)).
  pose proof (only_calls_summarize ext pdfText summaryLength images auto has w)
    as [Hdb Hr].
  destruct (summarize ext pdfText summaryLength images auto has w)
    as [[raw|e|] w1]; cbn [snd fst] in *.
  2,3: split; [assumption | left; now rewrite Hdb].
  destruct (parseSummary ext raw) as [p|] eqn:E.
  - destruct (finishSummary_stores ext uid pdfFile images auto has pdfText raw w1 p E)
      as (row & w' & -> & Hs & _ & _ & Hr' & Hrow).
    cbn [fst snd]. split; [congruence|]. right. exists raw, p, row.
    rewrite Hs, Hdb. repeat (split; [first [exact E | reflexivity]|]).
    exact Hrow.
  - rewrite finishSummary_rejects by assumption. cbn [fst snd].
    split; [assumption | left; now rewrite Hdb].
Qed.

(** On the chunk-and-merge path the calls are the chunk calls, then the
    merge call. *)
Lemma summarizeAndStore_chunked (ext : Ext) (uid : js_string)
  (pdfFile : option File) (pdfText summaryLength : js_string) (w : World) :
  answers ext -> trim pdfText <> [] -> 12000 < Js.length pdfText ->
  exists chunks partials,
    chunkText pdfText 9000 = Some chunks
    /\ model_calls (snd (summarizeAndStore ext uid pdfFile [] pdfText
                           summaryLength [] w))
       = model_calls w ++ map chunk_prompt chunks
           ++ [merge_prompt partials summaryLength].
Proof.
  intros Hai Ht HL. unfold summarizeAndStore, summarize.
  cbn [len List.length Z.of_nat Z.ltb Z.compare orb negb].
  assert (truthy pdfText = true) as ->.
  { apply truthy_true. intros ->. cbn in HL. lia. }
  destruct (Z.ltb_spec 12000 (Js.length pdfText)); [|lia]. cbn [andb].
  destruct (summarizeFull_run ext pdfText summaryLength w Hai Ht)
    as (chunks & partials & raw & w1 & Hck & Hrun & _ & Hcalls).
  unfold bind. rewrite Hrun.
  destruct (finishSummary_calls ext uid pdfFile [] [] false pdfText raw w1)
    as (resp & w2 & -> & Hc & _).
  exists chunks, partials. split; [assumption|]. cbn [snd]. congruence.
Qed.

(** Off that path exactly one call is made. *)
Lemma summarizeAndStore_single (ext : Ext) (uid : js_string)
  (pdfFile : option File) (images : list File)
  (pdfText summaryLength : js_string) (auto : list Image) (w : World) :
  compressible ext (firstn 4 images) ->
  Js.length pdfText <= 12000 \/ images <> [] \/ auto <> [] ->
  exists parts,
    model_calls (snd (summarizeAndStore ext uid pdfFile images pdfText
                        summaryLength auto w))
    = model_calls w ++ [parts]
    /\ images_in parts = Z.min 4 (len images) + Z.min 4 (len auto).
Proof.
  intros Hok Hcase. unfold summarizeAndStore, summarize.
  set (has := (0 <? len images) || (0 <? len auto)).
  assert (truthy pdfText && (12000 <? Js.length pdfText) && negb has = false)
    as ->.
  { destruct Hcase as [H|[H|H]].
    - destruct (Z.ltb_spec 12000 (Js.length pdfText)); [lia|].
      now rewrite andb_false_r.
    - assert (has = true) as ->; [|now rewrite andb_false_r].
      unfold has. destruct images; [congruence|]. reflexivity.
    - assert (has = true) as ->; [|now rewrite andb_false_r].
      unfold has. destruct auto; [congruence|]. apply orb_true_r. }
  destruct (summarizeSingleCall_run ext pdfText summaryLength images auto has w Hok)
    as (out & parts & w1 & Hrun & _ & Hcalls & Himg & _).
  exists parts. split; [|assumption]. unfold bind. rewrite Hrun.
  destruct out as [raw|e|]; cbn [snd]; try assumption.
  destruct (finishSummary_calls ext uid pdfFile images auto has pdfText raw w1)
    as (resp & w2 & -> & Hc & _).
  cbn [snd]. congruence.
Qed.

Lemma POST_guarded (ext : Ext) (req : Request) (uid : js_string) (w : World) :
  falsy (GEMINI_API_KEY ext) = false ->
  caller req = Some uid -> truthy uid = true ->
  POST ext req w
  = try_catch (summarizeFor ext uid req) (fun e => ret (server_error e)) w.
Proof. intros Hk Hc Hu. unfold POST. now rewrite Hk, Hc, Hu. Qed.

(** Past the first guards the handler extracts the text, then decides on
    the fallback. *)
Lemma summarizeFor_unfold (ext : Ext) (uid : js_string) (req : Request)
  (w : World) :
  form_pdf req <> None \/ form_images req <> [] ->
  summarizeFor ext uid req w
  = bind (autoRasterize ext (form_pdf req) (option_map arrayBuffer (form_pdf req))
            (extractedText ext (form_pdf req)) (form_images req))
      (fun auto =>
         match auto with
         | inl response => ret response
         | inr autoPdfImages =>
           summarizeAndStore ext uid (form_pdf req) (form_images req)
             (extractedText ext (form_pdf req))
             (choose_summaryLength (extractedText ext (form_pdf req)))
             autoPdfImages
         end)
      (with_db w (Db.user_upsert uid (db w))).
Proof.
  intros Hin. unfold summarizeFor. unfold bind at 1. rewrite ensureUserRow_run.
  destruct (form_pdf req) as [f|], (form_images req) as [|i imgs];
    try (unfold bind at 1; rewrite extractPdfText_run; reflexivity).
  destruct Hin; congruence.
Qed.

(** The request is turned away before anything is asked of the model. *)
Lemma POST_no_input (ext : Ext) (req : Request) (w : World) :
  form_pdf req = None -> form_images req = [] ->
  model_calls (snd (POST ext req w)) = model_calls w
  /\ raster_calls (snd (POST ext req w)) = raster_calls w
  /\ Db.summaries (db (snd (POST ext req w))) = Db.summaries (db w).
Proof.
  intros Hp Hi. unfold POST. rewrite try_catch_world.
  destruct (falsy (GEMINI_API_KEY ext)); [now cbn|].
  destruct (caller req) as [uid|]; [|now cbn].
  destruct (negb (truthy uid)); [now cbn|].
  unfold summarizeFor, bind. rewrite ensureUserRow_run, Hp, Hi. cbn.
  repeat split. apply user_upsert_summaries.
Qed.

Lemma summarizeAndStore_status (ext : Ext) (uid : js_string)
  (pdfFile : option File) (images : list File)
  (pdfText summaryLength : js_string) (auto : list Image) (w : World)
  (resp : NextResponse) :
  fst (summarizeAndStore ext uid pdfFile images pdfText summaryLength auto w)
  = Returns resp ->
  status resp = 200 \/ status resp = 500.
Proof.
  unfold summarizeAndStore, bind.
  destruct (summarize _ _ _ _ _ _ w) as [[raw|e|] w1]; cbn [fst]; try discriminate.
  destruct (parseSummary ext raw) as [p|] eqn:E.
  - destruct (finishSummary_stores ext uid pdfFile images auto
                ((0 <? len images) || (0 <? len auto)) pdfText raw w1 p E)
      as (row & w' & -> & _).
    cbn [fst]. intros [= <-]. now left.
  - rewrite finishSummary_rejects by assumption. cbn [fst]. intros [= <-].
    now right.
Qed.

(** What [summarizeFor] does with a scanned PDF and no image. *)
Lemma summarizeFor_scanned (ext : Ext) (uid : js_string) (req : Request)
  (f : File) (w : World) :
  form_pdf req = Some f -> form_images req = [] ->
  trim (extractedText ext (Some f)) = [] ->
  summarizeFor ext uid req w =
  let w2 := with_raster (with_db w (Db.user_upsert uid (db w))) (arrayBuffer f) in
  match pdfBufferToJpegPagesBase64 ext (arrayBuffer f) 2 with
  | Ok [] => (Returns (NextResponse_json (error_body msg_scanned_empty) 400), w2)
  | Ok pages =>
    summarizeAndStore ext uid (Some f) [] (extractedText ext (Some f))
      (choose_summaryLength (extractedText ext (Some f))) pages w2
  | Throw _ =>
    (Returns (NextResponse_json (error_body msg_scanned_failed) 400), w2)
  end.
Proof.
  intros Hp Hi Ht. rewrite summarizeFor_unfold by (left; congruence).
  rewrite Hp, Hi. cbn [option_map]. unfold bind.
  rewrite autoRasterize_run by assumption.
  now destruct (pdfBufferToJpegPagesBase64 ext (arrayBuffer f) 2) as [[|p ps]|e].
Qed.

(** What it does when the fallback is not needed. *)
Lemma summarizeFor_direct (ext : Ext) (uid : js_string) (req : Request)
  (w : World) :
  form_images req <> []
  \/ (form_pdf req <> None /\ trim (extractedText ext (form_pdf req)) <> []) ->
  summarizeFor ext uid req w =
  summarizeAndStore ext uid (form_pdf req) (form_images req)
    (extractedText ext (form_pdf req))
    (choose_summaryLength (extractedText ext (form_pdf req))) []
    (with_db w (Db.user_upsert uid (db w))).
Proof.
  intros H. rewrite summarizeFor_unfold by tauto.
  unfold bind. rewrite autoRasterize_skipped by tauto. reflexivity.
Qed.

(** Every way through [POST] either leaves the summaries as they were or
    appends one row, built from an answer that parsed. *)
Lemma POST_rows (ext : Ext) (req : Request) (w : World) :
  let run := POST ext req w in
  Db.summaries (db (snd run)) = Db.summaries (db w)
  \/ exists uid auto raw p row,
       caller req = Some uid
       /\ (auto = []
           \/ exists f, form_pdf req = Some f /\ form_images req = []
                /\ pdfBufferToJpegPagesBase64 ext (arrayBuffer f) 2 = Ok auto)
       /\ parseSummary ext raw = Some p
       /\ fst run = Returns (NextResponse_json (saved_body row) 200)
       /\ Db.summaries (db (snd run)) = Db.summaries (db w) ++ [row]
       /\ Db.userId row = uid
       /\ Db.source row =
          toDbSource match form_pdf req with
                     | Some _ =>
                       if (0 <? len (form_images req)) || (0 <? len auto)
                       then api_pdf_plus_image else api_pdf
                     | None => api_image
                     end
       /\ Db.title row =
          match title p with
          | Some t =>
            if truthy (slice t 0 140) then slice t 0 140 else default_title
          | None => default_title
          end
       /\ Db.summary row = summary p
       /\ Db.keywords row = JArray (map JString (keywords p))
       /\ Db.imageCount row =
          Some (if 0 <? len (form_images req) then len (form_images req)
                else len auto).
Proof.
  cbn zeta.
  destruct (falsy (GEMINI_API_KEY ext)) eqn:Hk;
    [left; unfold POST; now rewrite Hk|].
  destruct (caller req) as [uid|] eqn:Hc;
    [|left; unfold POST; now rewrite Hk, Hc].
  destruct (truthy uid) eqn:Hu;
    [|left; unfold POST; now rewrite Hk, Hc, Hu].
  rewrite (POST_guarded ext req uid w Hk Hc Hu), try_catch_world.
  assert (Hstore : forall auto w2,
             Db.summaries (db w2) = Db.summaries (db w) ->
             (auto = []
              \/ exists f, form_pdf req = Some f /\ form_images req = []
                   /\ pdfBufferToJpegPagesBase64 ext (arrayBuffer f) 2 = Ok auto) ->
             summarizeFor ext uid req w
             = summarizeAndStore ext uid (form_pdf req) (form_images req)
                 (extractedText ext (form_pdf req))
                 (choose_summaryLength (extractedText ext (form_pdf req)))
                 auto w2 ->
             Db.summaries (db (snd (summarizeFor ext uid req w)))
             = Db.summaries (db w)
             \/ exists uid0 auto0 raw p row,
                  Some uid = Some uid0
                  /\ (auto0 = []
                      \/ exists f, form_pdf req = Some f /\ form_images req = []
                           /\ pdfBufferToJpegPagesBase64 ext (arrayBuffer f) 2
                              = Ok auto0)
                  /\ parseSummary ext raw = Some p
                  /\ fst (try_catch (summarizeFor ext uid req)
                            (fun e => ret (server_error e)) w)
                     = Returns (NextResponse_json (saved_body row) 200)
                  /\ Db.summaries (db (snd (summarizeFor ext uid req w)))
                     = Db.summaries (db w) ++ [row]
                  /\ Db.userId row = uid0
                  /\ Db.source row =
                     toDbSource match form_pdf req with
                                | Some _ =>
                                  if (0 <? len (form_images req))
                                     || (0 <? len auto0)
                                  then api_pdf_plus_image else api_pdf
                                | None => api_image
                                end
                  /\ Db.title row =
                     match title p with
                     | Some t =>
                       if truthy (slice t 0 140) then slice t 0 140
                       else default_title
                     | None => default_title
                     end
                  /\ Db.summary row = summary p
                  /\ Db.keywords row = JArray (map JString (keywords p))
                  /\ Db.imageCount row =
                     Some (if 0 <? len (form_images req)
                           then len (form_images req) else len auto0)).
  { intros auto w2 Hw2 Hauto Hrun.
    pose proof (summarizeAndStore_rows ext uid (form_pdf req) (form_images req)
                  (extractedText ext (form_pdf req))
                  (choose_summaryLength (extractedText ext (form_pdf req)))
                  auto w2) as [_ [Hsame|(raw & p & row & Hp & Hres & Hrows & Hrow)]];
      cbn zeta in *.
    - left. rewrite Hrun. congruence.
    - right. exists uid, auto, raw, p, row.
      split; [reflexivity|]. split; [assumption|]. split; [assumption|].
      split; [apply try_catch_result; now rewrite Hrun|].
      split; [rewrite Hrun; congruence|]. exact Hrow. }
  destruct (form_images req) as [|img imgs] eqn:Hi.
  - destruct (form_pdf req) as [f|] eqn:Hp.
    + destruct (trim (extractedText ext (Some f))) as [|c r] eqn:Ht.
      * pose proof (summarizeFor_scanned ext uid req f w Hp Hi Ht) as Hrun.
        cbn zeta in Hrun.
        destruct (pdfBufferToJpegPagesBase64 ext (arrayBuffer f) 2)
          as [[|pg pgs]|e] eqn:Hr.
        -- left. rewrite Hrun. cbn. apply user_upsert_summaries.
        -- refine (Hstore (pg :: pgs) _ _ _ Hrun);
             [apply user_upsert_summaries|].
           right. now exists f.
        -- left. rewrite Hrun. cbn. apply user_upsert_summaries.
      * pose proof (summarizeFor_direct ext uid req w) as Hrun.
        rewrite Hp, Hi in Hrun.
        refine (Hstore [] _ _ _ (Hrun _));
          [apply user_upsert_summaries | now left |].
        right. rewrite Ht. split; congruence.
    + left. unfold summarizeFor, bind. rewrite ensureUserRow_run, Hp, Hi. cbn.
      apply user_upsert_summaries.
  - pose proof (summarizeFor_direct ext uid req w) as Hrun.
    rewrite Hi in Hrun.
    refine (Hstore [] _ _ _ (Hrun _));
      [apply user_upsert_summaries | now left |].
    left. congruence.
Qed.

(* ------------------------------------------------------------------ *)
(** ** The strategy of the orchestrator *)

(** C2. A request with a PDF whose extracted text is blank and with no
    image: the handler runs the rasterizer on the PDF once. If that throws
    or gives no page, the answer is status 400 with the message that asks
    for a page image, no model call is made and no summary is stored.
    Otherwise exactly one model call is made and the answer is not a 400:
    so the 400 is returned only when rasterization fails. *)
Theorem scanned_pdf_fallback (ext : Ext) (req : Request) (w : World)
  (uid : js_string) (f : File) :
  falsy (GEMINI_API_KEY ext) = false ->
  caller req = Some uid -> truthy uid = true ->
  form_pdf req = Some f -> form_images req = [] ->
  trim (extractedText ext (Some f)) = [] ->
  let out := fst (POST ext req w) in
  let w' := snd (POST ext req w) in
  raster_calls w' = raster_calls w ++ [arrayBuffer f]
  /\ match pdfBufferToJpegPagesBase64 ext (arrayBuffer f) 2 with
     | Throw _ =>
       out = Returns (NextResponse_json (error_body msg_scanned_failed) 400)
       /\ model_calls w' = model_calls w
       /\ Db.summaries (db w') = Db.summaries (db w)
     | Ok [] =>
       out = Returns (NextResponse_json (error_body msg_scanned_empty) 400)
       /\ model_calls w' = model_calls w
       /\ Db.summaries (db w') = Db.summaries (db w)
     | Ok (_ :: _) =>
       (exists parts, model_calls w' = model_calls w ++ [parts])
       /\ forall resp, out = Returns resp -> status resp <> 400
     end.
Proof.
  intros Hk Hc Hu Hp Hi Ht. cbn zeta.
  rewrite (POST_guarded ext req uid w Hk Hc Hu), try_catch_world.
  unfold try_catch.
  rewrite (summarizeFor_scanned ext uid req f w Hp Hi Ht). cbn zeta.
  destruct (pdfBufferToJpegPagesBase64 ext (arrayBuffer f) 2) as [[|pg pgs]|e].
  - cbn. repeat split. apply user_upsert_summaries.
  - set (w2 := with_raster (with_db w (Db.user_upsert uid (db w))) (arrayBuffer f)).
    set (text_ := extractedText ext (Some f)).
    pose proof (summarizeAndStore_rows ext uid (Some f) [] text_
                  (choose_summaryLength text_) (pg :: pgs) w2) as [Hr _].
    destruct (summarizeAndStore_single ext uid (Some f) [] text_
                (choose_summaryLength text_) (pg :: pgs) w2)
      as (parts & Hcalls & _); [intros img [] | right; right; congruence |].
    pose proof (summarizeAndStore_status ext uid (Some f) [] text_
                  (choose_summaryLength text_) (pg :: pgs) w2) as Hst.
    cbn zeta in Hr.
    destruct (summarizeAndStore ext uid (Some f) [] text_
                (choose_summaryLength text_) (pg :: pgs) w2) as [[resp|e|] w3];
      cbn [fst snd ret] in *.
    + split; [exact Hr|]. split; [now exists parts|].
      intros resp' [= <-]. destruct (Hst resp eq_refl) as [-> | ->]; lia.
    + split; [exact Hr|]. split; [now exists parts|].
      intros resp' [= <-]. cbn. lia.
    + split; [exact Hr|]. split; [now exists parts|]. discriminate.
  - cbn. repeat split. apply user_upsert_summaries.
Qed.

(** The fallback on an empty PDF that the rasterizer cannot render. *)
Lemma scanned_pdf_fallback_witness :
  let ext := Demo.ext false Demo.wrapped_answer in
  let req := Demo.request 0 0 in
  let w := Demo.world [] in
  raster_calls (snd (POST ext req w)) = [[]]
  /\ fst (POST ext req w)
     = Returns (NextResponse_json (error_body msg_scanned_failed) 400)
  /\ model_calls (snd (POST ext req w)) = []
  /\ Db.summaries (db (snd (POST ext req w))) = [].
Proof.
  cbn zeta.
  pose proof (scanned_pdf_fallback (Demo.ext false Demo.wrapped_answer)
                (Demo.request 0 0) (Demo.world []) (js "u1") (Demo.file 0)
                eq_refl eq_refl eq_refl eq_refl eq_refl eq_refl) as H.
  cbn zeta in H. destruct H as [Hr H].
  split; [exact Hr|]. exact H.
Defined.

(** *** The model calls of a request, case by case *)

Section Calls.

Variables (ext : Ext) (req : Request) (w : World) (uid : js_string).
Hypothesis Hkey : falsy (GEMINI_API_KEY ext) = false.
Hypothesis Hcaller : caller req = Some uid.
Hypothesis Huid : truthy uid = true.

Let pdfText := extractedText ext (form_pdf req).
Let w' := snd (POST ext req w).

Lemma POST_world : w' = snd (summarizeFor ext uid req w).
Proof.
  unfold w'. now rewrite (POST_guarded ext req uid w Hkey Hcaller Huid),
               try_catch_world.
Qed.

Lemma text_needs_pdf : pdfText <> [] -> form_pdf req <> None.
Proof. unfold pdfText. intros H E. rewrite E in H. now apply H. Qed.

Lemma POST_chunk_and_merge :
  answers ext -> form_images req = [] -> 12000 < Js.length pdfText ->
  exists chunks partials,
    chunkText pdfText 9000 = Some chunks
    /\ len chunks = ceil_div (Js.length (trim pdfText)) 9000
    /\ model_calls w' =
       model_calls w ++ map chunk_prompt chunks
         ++ [merge_prompt partials (choose_summaryLength pdfText)].
Proof.
  intros Hai Hi HL. rewrite POST_world.
  assert (Hne : pdfText <> []) by (intros E; rewrite E in HL; cbn in HL; lia).
  assert (Ht : trim pdfText <> []).
  { unfold pdfText. now rewrite extractedText_trimmed. }
  rewrite summarizeFor_direct
    by (right; split; [now apply text_needs_pdf | exact Ht]).
  rewrite Hi. fold pdfText.
  destruct (summarizeAndStore_chunked ext uid (form_pdf req) pdfText
              (choose_summaryLength pdfText)
              (with_db w (Db.user_upsert uid (db w))) Hai Ht HL)
    as (chunks & partials & Hck & Hcalls).
  exists chunks, partials. split; [assumption|]. split; [|exact Hcalls].
  destruct (chunkText_spec pdfText 9000) as (chunks' & Hck' & _ & Hlen & _);
    [lia|]. congruence.
Qed.

Lemma POST_single_direct :
  compressible ext (firstn 4 (form_images req)) ->
  form_images req <> []
  \/ (trim pdfText <> [] /\ Js.length pdfText <= 12000) ->
  exists parts,
    model_calls w' = model_calls w ++ [parts]
    /\ images_in parts = Z.min 4 (len (form_images req)).
Proof.
  intros Hok Hcase. rewrite POST_world.
  rewrite summarizeFor_direct.
  - destruct (summarizeAndStore_single ext uid (form_pdf req) (form_images req)
                pdfText (choose_summaryLength pdfText) []
                (with_db w (Db.user_upsert uid (db w))) Hok)
      as (parts & Hcalls & Himg); [tauto|].
    exists parts. split; [exact Hcalls|]. rewrite Himg. cbn. lia.
  - destruct Hcase as [H|[Ht _]]; [now left|]. right.
    split; [|exact Ht]. apply text_needs_pdf. intros E. rewrite E in Ht.
    now apply Ht.
Qed.

Lemma POST_single_rasterized (f : File) (pages : list Image) :
  form_pdf req = Some f -> form_images req = [] -> trim pdfText = [] ->
  pdfBufferToJpegPagesBase64 ext (arrayBuffer f) 2 = Ok pages ->
  exists parts,
    model_calls w' = model_calls w ++ [parts]
    /\ images_in parts = len pages.
Proof.
  intros Hp Hi Ht Hr. rewrite POST_world.
  assert (Ht' : trim (extractedText ext (Some f)) = [])
    by (rewrite <- Hp; exact Ht).
  rewrite (summarizeFor_scanned ext uid req f w Hp Hi Ht'). cbn zeta.
  rewrite Hr. pose proof (rasterized_pages ext _ _ Hr) as Hlen.
  destruct pages as [|pg pgs]; [cbn in Hlen; lia|].
  destruct (summarizeAndStore_single ext uid (Some f) []
              (extractedText ext (Some f))
              (choose_summaryLength (extractedText ext (Some f))) (pg :: pgs)
              (with_raster (with_db w (Db.user_upsert uid (db w)))
                 (arrayBuffer f)))
    as (parts & Hcalls & Himg); [intros img [] | right; right; congruence |].
  exists parts. split; [exact Hcalls|]. rewrite Himg.
  unfold len in *. cbn [List.length] in *. lia.
Qed.

Lemma POST_nothing_to_summarize :
  form_images req = [] -> trim pdfText = [] ->
  (forall f pages,
     form_pdf req = Some f ->
     pdfBufferToJpegPagesBase64 ext (arrayBuffer f) 2 <> Ok pages) ->
  model_calls w' = model_calls w
  /\ exists resp, fst (POST ext req w) = Returns resp /\ status resp = 400.
Proof.
  intros Hi Ht Hnone. rewrite POST_world.
  rewrite (POST_guarded ext req uid w Hkey Hcaller Huid). unfold try_catch.
  unfold pdfText in Ht.
  destruct (form_pdf req) as [f|] eqn:Hp.
  - rewrite (summarizeFor_scanned ext uid req f w Hp Hi Ht). cbn zeta.
    destruct (pdfBufferToJpegPagesBase64 ext (arrayBuffer f) 2)
      as [pages|e] eqn:Hr; [now destruct (Hnone f pages eq_refl)|].
    split; [reflexivity | now eexists].
  - unfold summarizeFor, bind. rewrite ensureUserRow_run, Hp, Hi.
    split; [reflexivity | now eexists].
Qed.

End Calls.

(** C1, as the code has it. For a request of a known caller, with the API
    key set, whose first four images [sharp] can re-encode:
    - no image and an extracted text of more than 12000 characters: when the
      model answers every call, the calls made are one per chunk of
      [chunkText], in order, followed by one merge call, and there are
      [ceil(len(trimmed text) / 9000)] chunks;
    - no image, a text that is not blank and has at most 12000 characters:
      exactly one call;
    - at least one uploaded image: exactly one call;
    - no uploaded image, a blank text and a PDF the rasterizer renders:
      exactly one call;
    - no uploaded image, a blank text and no rendered page: no call at all,
      and the answer has status 400. *)
Theorem strategy_calls (ext : Ext) (req : Request) (w : World)
  (uid : js_string) :
  falsy (GEMINI_API_KEY ext) = false ->
  caller req = Some uid -> truthy uid = true ->
  compressible ext (firstn 4 (form_images req)) ->
  let pdfText := extractedText ext (form_pdf req) in
  let w' := snd (POST ext req w) in
  (answers ext -> form_images req = [] -> 12000 < Js.length pdfText ->
   exists chunks partials,
     chunkText pdfText 9000 = Some chunks
     /\ len chunks = ceil_div (Js.length (trim pdfText)) 9000
     /\ model_calls w' =
        model_calls w ++ map chunk_prompt chunks
          ++ [merge_prompt partials (choose_summaryLength pdfText)])
  /\ (form_images req = [] -> trim pdfText <> [] ->
      Js.length pdfText <= 12000 ->
      exists parts, model_calls w' = model_calls w ++ [parts])
  /\ (form_images req <> [] ->
      exists parts, model_calls w' = model_calls w ++ [parts])
  /\ (forall f pages,
        form_pdf req = Some f -> form_images req = [] -> trim pdfText = [] ->
        pdfBufferToJpegPagesBase64 ext (arrayBuffer f) 2 = Ok pages ->
        exists parts, model_calls w' = model_calls w ++ [parts])
  /\ (form_images req = [] -> trim pdfText = [] ->
      (forall f pages,
         form_pdf req = Some f ->
         pdfBufferToJpegPagesBase64 ext (arrayBuffer f) 2 <> Ok pages) ->
      model_calls w' = model_calls w
      /\ exists resp, fst (POST ext req w) = Returns resp /\ status resp = 400).
Proof.
  intros Hk Hc Hu Hok. cbn zeta.
  split; [now apply (POST_chunk_and_merge ext req w uid)|].
  split.
  { intros Hi Ht HL.
    destruct (POST_single_direct ext req w uid Hk Hc Hu Hok) as (parts & H & _);
      [right; now split | now exists parts]. }
  split.
  { intros Hi.
    destruct (POST_single_direct ext req w uid Hk Hc Hu Hok) as (parts & H & _);
      [now left | now exists parts]. }
  split.
  { intros f pages Hp Hi Ht Hr.
    destruct (POST_single_rasterized ext req w uid Hk Hc Hu f pages Hp Hi Ht Hr)
      as (parts & H & _). now exists parts. }
  now apply (POST_nothing_to_summarize ext req w uid).
Qed.

(** *** The demonstration PDF: its text is its letters *)

Lemma collapse_letters (n : nat) (r : js_string) :
  collapse_blanks false (repeat 97%N n ++ r)
  = repeat 97%N n ++ collapse_blanks false r.
Proof. induction n as [|n IH]; cbn [repeat app collapse_blanks]; [reflexivity|]. change (is_whitespace 97%N) with false. cbn iota. now rewrite IH. Qed.

Lemma trim_letters (n : nat) :
  trim (repeat 97%N (S n) ++ [32%N]) = repeat 97%N (S n).
Proof.
  unfold trim, trimEnd. cbn [repeat app trimStart].
  change (is_whitespace 97%N) with false. cbn iota.
  change (97%N :: repeat 97%N n ++ [32%N]) with (repeat 97%N (S n) ++ [32%N]).
  rewrite rev_app_distr. cbn [rev app trimStart].
  change (is_whitespace 32%N) with true. cbn iota.
  rewrite rev_repeat. cbn [repeat trimStart].
  change (is_whitespace 97%N) with false. cbn iota.
  change (97%N :: repeat 97%N n) with (repeat 97%N (S n)).
  now rewrite rev_repeat.
Qed.

Lemma demo_text (raster_ok : bool) (answer : js_string) (n : nat) :
  extractedText (Demo.ext raster_ok answer) (Some (Demo.file (S n)))
  = repeat 97%N (S n).
Proof.
  unfold extractedText, parsePdfToText.
  cbn [Demo.ext Demo.file pdfjs_text_items arrayBuffer flat_map page_texts
       repeat truthy app join].
  change (97%N :: repeat 97%N n ++ js " " ++ nl)
    with (repeat 97%N (S n) ++ [32%N; 10%N]).
  rewrite collapse_letters.
  change (collapse_blanks false [32%N; 10%N]) with [32%N].
  apply trim_letters.
Qed.

Lemma demo_text_length (raster_ok : bool) (answer : js_string) (n : nat) :
  Js.length (extractedText (Demo.ext raster_ok answer) (Some (Demo.file (S n))))
  = Z.of_nat (S n).
Proof. rewrite demo_text. unfold Js.length. now rewrite repeat_length. Qed.

(** The chunk-and-merge path on a PDF of 12001 letters. *)
Lemma strategy_calls_witness :
  let ext := Demo.ext true Demo.wrapped_answer in
  let req := Demo.request 12001 0 in
  let w := Demo.world [] in
  let pdfText := extractedText ext (form_pdf req) in
  exists chunks partials,
    chunkText pdfText 9000 = Some chunks
    /\ len chunks = ceil_div (Js.length (trim pdfText)) 9000
    /\ model_calls (snd (POST ext req w)) =
       model_calls w ++ map chunk_prompt chunks
         ++ [merge_prompt partials (choose_summaryLength pdfText)].
Proof.
  cbn zeta.
  refine (proj1 (strategy_calls (Demo.ext true Demo.wrapped_answer)
                   (Demo.request 12001 0) (Demo.world []) (js "u1")
                   eq_refl eq_refl eq_refl _) _ eq_refl _).
  - intros img [].
  - intros n parts. eexists. reflexivity.
  - change (12000 < Js.length (extractedText (Demo.ext true Demo.wrapped_answer)
                                 (Some (Demo.file (S 12000))))).
    rewrite demo_text_length. vm_compute. reflexivity.
Defined.

(** Against C1 as the specification words it: a PDF whose text is empty
    (so of a length at or below the threshold), no uploaded image, and a
    rasterizer that cannot render the PDF. The request is answered with
    status 400 and no model call is made, where the claim has exactly
    one. *)
Lemma strategy_calls_counterexample :
  let ext := Demo.ext false Demo.wrapped_answer in
  let req := Demo.request 0 0 in
  let w := Demo.world [] in
  Js.length (extractedText ext (form_pdf req)) <= 12000
  /\ form_images req = []
  /\ pdfBufferToJpegPagesBase64 ext (arrayBuffer (Demo.file 0)) 2
     = Throw (Error (js "unsupported"))
  /\ model_calls (snd (POST ext req w)) = model_calls w
  /\ ~ exists parts, model_calls (snd (POST ext req w)) = model_calls w ++ [parts].
Proof.
  cbn zeta. split; [vm_compute; discriminate|]. split; [reflexivity|].
  split; [reflexivity|]. split; [reflexivity|].
  intros [parts H]. vm_compute in H. discriminate.
Qed.

(* ------------------------------------------------------------------ *)
(** ** The band of sentence counts *)

Lemma choose_summaryLength_cases (pdfText : js_string) :
  choose_summaryLength pdfText =
  if Js.length pdfText =? 0 then js "18-24"
  else if Js.length pdfText <? 10000 then js "16-22"
  else if Js.length pdfText <? 40000 then js "24-34"
  else js "34-45".
Proof.
  unfold choose_summaryLength.
  destruct pdfText as [|c r]; [reflexivity|].
  cbn [truthy andb].
  assert (0 < Js.length (c :: r)) by (unfold Js.length; cbn [List.length]; lia).
  destruct (Z.ltb_spec 0 (Js.length (c :: r))); [|lia].
  destruct (Z.eqb_spec (Js.length (c :: r)) 0); [lia|reflexivity].
Qed.

(** Against C6 as the specification words it: a text of exactly 40000
    characters, which is not more than 40000, is given the band 34-45. *)
Lemma summaryLength_counterexample :
  exists pdfText : js_string,
    choose_summaryLength pdfText = js "34-45"
    /\ ~ 40000 < Js.length pdfText.
Proof.
  exists (repeat 97%N 40000).
  assert (E : Js.length (repeat 97%N 40000) = 40000).
  { unfold Js.length. rewrite repeat_length. reflexivity. }
  rewrite choose_summaryLength_cases, E. split; [reflexivity | lia].
Qed.

(** C6, as the code has it. The band is 18-24 when there is no text, 16-22
    for fewer than 10000 characters, 24-34 from 10000 to 39999, and 34-45
    exactly for 40000 characters or more. A PDF of 15000 extracted
    characters and no image goes the chunk-and-merge way, in two chunks, and
    its merge call asks for 24-34. *)
Theorem summaryLength_bands :
  (forall pdfText : js_string,
     choose_summaryLength pdfText =
     if Js.length pdfText =? 0 then js "18-24"
     else if Js.length pdfText <? 10000 then js "16-22"
     else if Js.length pdfText <? 40000 then js "24-34"
     else js "34-45")
  /\ (forall pdfText : js_string,
        choose_summaryLength pdfText = js "34-45" <-> 40000 <= Js.length pdfText)
  /\ (forall (ext : Ext) (req : Request) (w : World) (uid : js_string),
        falsy (GEMINI_API_KEY ext) = false ->
        caller req = Some uid -> truthy uid = true ->
        answers ext ->
        form_images req = [] ->
        Js.length (extractedText ext (form_pdf req)) = 15000 ->
        choose_summaryLength (extractedText ext (form_pdf req)) = js "24-34"
        /\ exists chunks partials,
             chunkText (extractedText ext (form_pdf req)) 9000 = Some chunks
             /\ len chunks = 2
             /\ model_calls (snd (POST ext req w)) =
                model_calls w ++ map chunk_prompt chunks
                  ++ [merge_prompt partials (js "24-34")]).
Proof.
  split; [exact choose_summaryLength_cases|]. split.
  - intros pdfText. rewrite choose_summaryLength_cases.
    destruct (Z.eqb_spec (Js.length pdfText) 0);
      [split; [discriminate|lia]|].
    destruct (Z.ltb_spec (Js.length pdfText) 10000);
      [split; [discriminate|lia]|].
    destruct (Z.ltb_spec (Js.length pdfText) 40000);
      [split; [discriminate|lia]|].
    split; [lia|reflexivity].
  - intros ext req w uid Hk Hc Hu Hai Hi HL.
    assert (Hband : choose_summaryLength (extractedText ext (form_pdf req))
                    = js "24-34").
    { rewrite choose_summaryLength_cases, HL. reflexivity. }
    split; [exact Hband|].
    destruct (POST_chunk_and_merge ext req w uid Hk Hc Hu Hai Hi)
      as (chunks & partials & Hck & Hlen & Hcalls); [lia|].
    exists chunks, partials. split; [assumption|].
    rewrite extractedText_trimmed, HL in Hlen. rewrite Hband in Hcalls.
    split; [exact Hlen | exact Hcalls].
Qed.

(** The scenario of the specification: a PDF of 15000 letters. *)
Lemma summaryLength_bands_witness :
  let ext := Demo.ext true Demo.wrapped_answer in
  let req := Demo.request 15000 0 in
  let w := Demo.world [] in
  choose_summaryLength (extractedText ext (form_pdf req)) = js "24-34"
  /\ exists chunks partials,
       chunkText (extractedText ext (form_pdf req)) 9000 = Some chunks
       /\ len chunks = 2
       /\ model_calls (snd (POST ext req w)) =
          model_calls w ++ map chunk_prompt chunks
            ++ [merge_prompt partials (js "24-34")].
Proof.
  cbn zeta.
  refine (proj2 (proj2 summaryLength_bands) (Demo.ext true Demo.wrapped_answer)
            (Demo.request 15000 0) (Demo.world []) (js "u1")
            eq_refl eq_refl eq_refl _ eq_refl _).
  - intros n parts. eexists. reflexivity.
  - change (Js.length (extractedText (Demo.ext true Demo.wrapped_answer)
                         (Some (Demo.file (S 14999)))) = 15000).
    rewrite demo_text_length. vm_compute. reflexivity.
Defined.

(* ------------------------------------------------------------------ *)
(** ** What is stored *)

Lemma filter_strings_filter (ks : list Json) :
  map JString (filter_strings ks) = filter is_string ks.
Proof.
  induction ks as [|k r IH]; [reflexivity|].
  destruct k; cbn [filter_strings filter is_string map]; congruence.
Qed.

Lemma normalizeSummary_keywords (v : Json) (p : SummaryJSON) :
  normalizeSummary v = Some p ->
  keywords p =
  match match get_prop v (js "keywords") with
        | Some (JArray ks) => filter_strings ks
        | _ => []
        end with
  | [] => default_keywords
  | k :: ks => k :: ks
  end.
Proof.
  unfold normalizeSummary. destruct (negb (isRecord v)); [discriminate|].
  destruct (get_prop v (js "summary")) as [[| | |s| |]|]; try discriminate.
  intros [= <-]. cbn [keywords].
  destruct (match get_prop v (js "keywords") with
            | Some (JArray ks) => filter_strings ks
            | _ => []
            end); reflexivity.
Qed.

Lemma parseSummary_normalized (ext : Ext) (raw : js_string) (p : SummaryJSON) :
  parseSummary ext raw = Some p -> exists v, normalizeSummary v = Some p.
Proof.
  unfold parseSummary. destruct (JSON_parse ext raw) as [v|e]; [now exists v|].
  destruct (extractJson raw) as [sliced|]; [|discriminate].
  destruct (negb (truthy sliced)); [discriminate|].
  destruct (JSON_parse ext sliced) as [v|e']; [now exists v|discriminate].
Qed.

(** C7. Storing a source and reading it back is the identity on the three
    user-facing values; [pdf+image] is stored as the enum member
    [pdf_image] and shown again as [pdf+image]. No stored value reads
    [pdf+image] and no shown value reads [pdf_image]; the response shows for
    every row the user-facing form of the source the row stores. *)
Theorem source_round_trip :
  (forall s : ApiSource,
     toApiSource (SummarySource_value (toDbSource s)) = ApiSource_value s)
  /\ toDbSource api_pdf_plus_image = pdf_image
  /\ SummarySource_value pdf_image = js "pdf_image"
  /\ ApiSource_value api_pdf_plus_image = js "pdf+image"
  /\ (forall d : SummarySource, SummarySource_value d <> js "pdf+image")
  /\ (forall s : ApiSource, ApiSource_value s <> js "pdf_image")
  /\ (forall row : Db.Summary,
        exists s data,
          Db.source row = toDbSource s
          /\ get_prop (saved_body row) (js "data") = Some data
          /\ get_prop data (js "source") = Some (JString (ApiSource_value s))).
Proof.
  split; [intros []; reflexivity|]. split; [reflexivity|].
  split; [reflexivity|]. split; [reflexivity|].
  split; [intros []; discriminate|]. split; [intros []; discriminate|].
  intros row.
  destruct (Db.source row) eqn:E;
    [exists api_pdf | exists api_image | exists api_pdf_plus_image];
    eexists; (split; [reflexivity|]); (split; [reflexivity|]);
    cbn; rewrite E; reflexivity.
Qed.

(* ------------------------------------------------------------------ *)
(** ** Deleting a summary *)

Lemma matches_spec (id_ uid : js_string) (r : Db.Summary) :
  Db.matches id_ uid r = true <-> Db.id r = id_ /\ Db.userId r = uid.
Proof.
  unfold Db.matches. rewrite andb_true_iff, !js_eqb_eq. reflexivity.
Qed.

Lemma filter_none {A} (f : A -> bool) (xs : list A) :
  (forall x, In x xs -> f x = false) ->
  filter f xs = [] /\ filter (fun x => negb (f x)) xs = xs.
Proof.
  induction xs as [|x r IH]; intros H; [now split|].
  cbn [filter]. rewrite (H x (or_introl eq_refl)). cbn [negb].
  destruct IH as [E1 E2]; [intros y Hy; apply H; now right|].
  now rewrite E1, E2.
Qed.

Lemma filter_unrelated {A} (f g : A -> bool) (xs : list A) :
  (forall x, f x = true -> g x = false) ->
  filter g (filter (fun x => negb (f x)) xs) = filter g xs.
Proof.
  intros H. induction xs as [|x r IH]; [reflexivity|].
  cbn [filter]. destruct (f x) eqn:Ef; cbn [negb filter].
  - now rewrite (H x Ef).
  - destruct (g x); [f_equal|]; exact IH.
Qed.

(** C8. For a known caller, [DELETE] removes exactly the summaries that have
    the given id and belong to the caller. If there is such a summary the
    answer is [{success: true}], and afterwards the table holds every other
    row, unchanged, and none that matches. If there is none (no row of that
    id, or only rows of other callers) the answer is status 404 and the
    world is as it was. *)
Theorem DELETE_only_own (req : DeleteRequest) (w : World) (uid : js_string) :
  del_caller req = Some uid -> truthy uid = true ->
  let owned := fun r => Db.id r = params_id req /\ Db.userId r = uid in
  let out := fst (DELETE req w) in
  let w' := snd (DELETE req w) in
  ((exists r, In r (Db.summaries (db w)) /\ owned r) ->
   out = Returns (NextResponse_json (JObject [(js "success", JBool true)]) 200)
   /\ Db.summaries (db w')
      = filter (fun r => negb (Db.matches (params_id req) uid r))
          (Db.summaries (db w))
   /\ (forall r, In r (Db.summaries (db w')) <->
                 In r (Db.summaries (db w)) /\ ~ owned r)
   /\ forall other, other <> uid -> summaries_of other w' = summaries_of other w)
  /\ (~ (exists r, In r (Db.summaries (db w)) /\ owned r) ->
      out = Returns (NextResponse_json
                       (JObject [(js "error", JString (js "Not found"))]) 404)
      /\ w' = w).
Proof.
  intros Hc Hu. cbn zeta. unfold DELETE. rewrite Hc, Hu. cbn [negb].
  unfold bind, on_db, Db.summary_deleteMany. cbn [fst snd].
  set (rows := Db.summaries (db w)).
  set (m := Db.matches (params_id req) uid).
  split.
  - intros (r & Hin & Hr).
    assert (Hgone : In r (filter m rows)).
    { apply filter_In. split; [exact Hin|]. now apply matches_spec. }
    destruct (Z.eqb_spec (Z.of_nat (List.length (filter m rows))) 0) as [E|E].
    { destruct (filter m rows); [contradiction | cbn in E; lia]. }
    cbn [fst snd ret with_db db Db.summaries]. split; [reflexivity|].
    split; [reflexivity|]. split.
    + intros x. rewrite filter_In, negb_true_iff.
      unfold m. rewrite <- matches_spec.
      destruct (Db.matches (params_id req) uid x); intuition congruence.
    + intros other Hother. unfold summaries_of.
      cbn [with_db db Db.summaries]. apply filter_unrelated.
      intros x Hx. apply matches_spec in Hx as [_ Hx].
      apply js_eqb_neq. congruence.
  - intros Hnone.
    destruct (filter_none m rows) as [E1 E2].
    { intros x Hx. destruct (m x) eqn:Em; [|reflexivity].
      exfalso. apply Hnone. exists x. split; [exact Hx|].
      now apply matches_spec. }
    rewrite E1, E2. cbn [List.length Z.of_nat Z.eqb fst snd ret].
    split; [reflexivity|]. unfold with_db, rows.
    destruct w as [[us ss] mc rc]. reflexivity.
Qed.

(** Caller [u1] deletes a summary of their own, and fails to delete one of
    caller [u2]. *)
Lemma DELETE_only_own_witness :
  let mine := Demo.row (js "a") (js "u1") in
  let theirs := Demo.row (js "b") (js "u2") in
  let w := Demo.world [mine; theirs] in
  (* own row: deleted *)
  (fst (DELETE {| del_caller := Some (js "u1"); params_id := js "a" |} w)
   = Returns (NextResponse_json (JObject [(js "success", JBool true)]) 200)
   /\ Db.summaries
        (db (snd (DELETE {| del_caller := Some (js "u1"); params_id := js "a" |} w)))
      = [theirs])
  (* another caller's row: 404, nothing changes *)
  /\ fst (DELETE {| del_caller := Some (js "u1"); params_id := js "b" |} w)
     = Returns (NextResponse_json
                  (JObject [(js "error", JString (js "Not found"))]) 404)
  /\ snd (DELETE {| del_caller := Some (js "u1"); params_id := js "b" |} w) = w.
Proof.
  cbn zeta.
  pose proof (DELETE_only_own
                {| del_caller := Some (js "u1"); params_id := js "a" |}
                (Demo.world [Demo.row (js "a") (js "u1");
                             Demo.row (js "b") (js "u2")])
                (js "u1") eq_refl eq_refl) as [Hdel _].
  pose proof (DELETE_only_own
                {| del_caller := Some (js "u1"); params_id := js "b" |}
                (Demo.world [Demo.row (js "a") (js "u1");
                             Demo.row (js "b") (js "u2")])
                (js "u1") eq_refl eq_refl) as [_ Hnot].
  cbn zeta in Hdel, Hnot. split.
  - destruct Hdel as (Hout & Hrows & _).
    + exists (Demo.row (js "a") (js "u1")). split; [now left | now split].
    + split; [exact Hout | exact Hrows].
  - apply Hnot. intros (r & [<-|[<-|[]]] & Hid & Hu); vm_compute in Hid, Hu;
      discriminate.
Defined.

(* ------------------------------------------------------------------ *)
(** ** Lists that grow by one element *)

Lemma app_one_inv {A} (xs : list A) (a b : A) : xs ++ [a] = xs ++ [b] -> a = b.
Proof. intros H. apply app_inv_head in H. now injection H. Qed.

Lemma app_one_neq {A} (xs : list A) (a : A) : xs ++ [a] <> xs.
Proof.
  intros H. apply (f_equal (@List.length A)) in H.
  rewrite length_app in H. cbn in H. lia.
Qed.

(* ------------------------------------------------------------------ *)
(** ** Parsing the model's answer *)

Lemma indexOf_from_first (p r : js_string) (c : code_unit) (i : Z) :
  ~ In c p -> indexOf_from (p ++ c :: r) c i = i + len p.
Proof.
  revert i. induction p as [|x p IH]; intros i Hp; cbn [app indexOf_from].
  - rewrite N.eqb_refl. cbn. lia.
  - destruct (N.eqb_spec x c) as [->|_]; [exfalso; apply Hp; now left|].
    rewrite IH by (intros H; apply Hp; now right).
    unfold len. cbn [List.length]. lia.
Qed.

Lemma indexOf_from_none (s : js_string) (c : code_unit) (i : Z) :
  ~ In c s -> indexOf_from s c i = -1.
Proof.
  revert i. induction s as [|x s IH]; intros i Hs; cbn [indexOf_from];
    [reflexivity|].
  destruct (N.eqb_spec x c) as [->|_]; [exfalso; apply Hs; now left|].
  apply IH. intros H. apply Hs. now right.
Qed.

Lemma lastIndexOf_from_app (a b : js_string) (c : code_unit) (i last : Z) :
  lastIndexOf_from (a ++ b) c i last
  = lastIndexOf_from b c (i + len a) (lastIndexOf_from a c i last).
Proof.
  revert i last. induction a as [|x a IH]; intros i last;
    cbn [app lastIndexOf_from].
  - f_equal. cbn. lia.
  - rewrite IH. f_equal. unfold len. cbn [List.length]. lia.
Qed.

Lemma lastIndexOf_from_none (s : js_string) (c : code_unit) (i last : Z) :
  ~ In c s -> lastIndexOf_from s c i last = last.
Proof.
  revert i last. induction s as [|x s IH]; intros i last Hs;
    cbn [lastIndexOf_from]; [reflexivity|].
  destruct (N.eqb_spec x c) as [->|_]; [exfalso; apply Hs; now left|].
  apply IH. intros H. apply Hs. now right.
Qed.

Lemma lastIndexOf_from_bound (s : js_string) (c : code_unit) (i last : Z) :
  last < i -> lastIndexOf_from s c i last < i + len s.
Proof.
  revert i last. induction s as [|x s IH]; intros i last H;
    cbn [lastIndexOf_from].
  - cbn. lia.
  - unfold len. cbn [List.length]. rewrite Nat2Z.inj_succ.
    specialize (IH (i + 1) (if (x =? c)%N then i else last)).
    unfold len in IH. destruct (x =? c)%N; lia.
Qed.

Lemma split_first (s : js_string) (c : code_unit) :
  ~ In c s \/ exists p r, s = p ++ c :: r /\ ~ In c p.
Proof.
  induction s as [|x s IH]; [left; intros []|].
  destruct (N.eq_dec x c) as [->|Hx]; [right; now exists [], s|].
  destruct IH as [Hs|(p & r & -> & Hp)].
  - left. intros [H|H]; [now apply Hx | now apply Hs].
  - right. exists (x :: p), r. split; [reflexivity|].
    intros [H|H]; [now apply Hx | now apply Hp].
Qed.

Lemma split_last (s : js_string) (c : code_unit) :
  ~ In c s \/ exists p q, s = p ++ c :: q /\ ~ In c q.
Proof.
  destruct (split_first (rev s) c) as [Hs|(p & r & E & Hp)].
  - left. now rewrite in_rev.
  - right. exists (rev r), (rev p). split.
    + rewrite <- (rev_involutive s), E, rev_app_distr. cbn [rev].
      now rewrite <- app_assoc.
    + now rewrite <- in_rev.
Qed.

Lemma suffix_after_first (p r a x : js_string) (c : code_unit) :
  p ++ c :: r = a ++ c :: x -> ~ In c p -> exists d, r = d ++ x.
Proof.
  revert a. induction p as [|y p IH]; intros a E Hp.
  - destruct a as [|y a]; cbn [app] in E.
    + injection E as ->. now exists [].
    + injection E as _ ->. exists (a ++ [c]). now rewrite <- app_assoc.
  - destruct a as [|y' a]; cbn [app] in E.
    + injection E as -> _. exfalso. apply Hp. now left.
    + injection E as _ E. apply (IH a E). intros H. apply Hp. now right.
Qed.

Lemma firstn_length_app {A} (a b : list A) : firstn (List.length a) (a ++ b) = a.
Proof. induction a as [|x a IH]; cbn; [now destruct b | now rewrite IH]. Qed.

Lemma skipn_length_app {A} (a b : list A) : skipn (List.length a) (a ++ b) = b.
Proof. induction a as [|x a IH]; cbn; [reflexivity | exact IH]. Qed.

(** [extractJson] cuts from the first [{] to the last [}]. *)
Lemma extractJson_cut (p mid q : js_string) :
  ~ In open_brace p -> ~ In close_brace q ->
  extractJson (p ++ open_brace :: mid ++ close_brace :: q)
  = Some (open_brace :: mid ++ [close_brace]).
Proof.
  intros Hp Hq. unfold extractJson, indexOf, lastIndexOf.
  rewrite indexOf_from_first by assumption.
  replace (p ++ open_brace :: mid ++ close_brace :: q)
    with ((p ++ open_brace :: mid) ++ close_brace :: q)
    by (now rewrite <- app_assoc).
  rewrite lastIndexOf_from_app. cbn [lastIndexOf_from].
  rewrite N.eqb_refl, lastIndexOf_from_none by assumption.
  assert (Hlen : len (p ++ open_brace :: mid) = len p + 1 + len mid).
  { unfold len. rewrite length_app. cbn [List.length]. lia. }
  rewrite Hlen. rewrite !Z.add_0_l.
  assert (0 <= len p /\ 0 <= len mid) as [? ?] by (unfold len; lia).
  destruct (Z.ltb_spec (len p) 0); [lia|].
  destruct (Z.leb_spec (len p + 1 + len mid) (len p)); [lia|]. cbn [orb].
  replace (len p + 1 + len mid + 1) with (len p + (len mid + 2)) by lia.
  rewrite slice_window by lia. f_equal.
  rewrite <- app_assoc. unfold len. rewrite Nat2Z.id, skipn_length_app.
  replace (Z.to_nat (Z.of_nat (List.length mid) + 2))
    with (List.length (open_brace :: mid ++ [close_brace]))
    by (cbn [List.length]; rewrite length_app; cbn [List.length]; lia).
  replace ((open_brace :: mid) ++ close_brace :: q)
    with ((open_brace :: mid ++ [close_brace]) ++ q)
    by (cbn [app]; now rewrite <- app_assoc).
  apply firstn_length_app.
Qed.

(** And gives nothing exactly when no [}] follows a [{]. *)
Lemma extractJson_spec (raw : js_string) :
  (exists p mid q,
     raw = p ++ open_brace :: mid ++ close_brace :: q
     /\ ~ In open_brace p /\ ~ In close_brace q
     /\ extractJson raw = Some (open_brace :: mid ++ [close_brace]))
  \/ (extractJson raw = None
      /\ ~ exists p mid q, raw = p ++ open_brace :: mid ++ close_brace :: q).
Proof.
  destruct (split_first raw open_brace) as [Hno|(p & r & -> & Hp)].
  - right. split.
    + unfold extractJson, indexOf. now rewrite indexOf_from_none.
    + intros (p & mid & q & ->). apply Hno. apply in_or_app. right. now left.
  - destruct (split_last r close_brace) as [Hno|(mid & q & -> & Hq)].
    + right. split.
      * unfold extractJson, indexOf, lastIndexOf.
        rewrite indexOf_from_first by assumption.
        rewrite lastIndexOf_from_app.
        rewrite (lastIndexOf_from_none (open_brace :: r)).
        -- pose proof (lastIndexOf_from_bound p close_brace 0 (-1)).
           destruct (Z.ltb_spec (0 + len p) 0); [reflexivity|].
           destruct (Z.leb_spec (lastIndexOf_from p close_brace 0 (-1))
                       (0 + len p)); [reflexivity|lia].
        -- intros [H|H]; [discriminate | now apply Hno].
      * intros (a & mid & q & E).
        destruct (suffix_after_first p r a (mid ++ close_brace :: q)
                    open_brace E Hp) as [d ->].
        apply Hno. apply in_or_app. right. apply in_or_app. right. now left.
    + left. exists p, mid, q. repeat split; try assumption.
      now apply extractJson_cut.
Qed.

Lemma normalizeSummary_usable (v : Json) :
  normalizeSummary v <> None
  <-> exists s, get_prop v (js "summary") = Some (JString s).
Proof.
  unfold normalizeSummary. split.
  - destruct (negb (isRecord v)); [congruence|].
    destruct (get_prop v (js "summary")) as [[| | |s| |]|]; try congruence.
    intros _. now exists s.
  - intros [s Hs]. rewrite Hs.
    destruct v; cbn in Hs; discriminate.
Qed.

(** C4. [parseSummary] first parses the whole answer and takes the value
    when that succeeds. When the parse throws, it takes the text from the
    first [{] to the last [}] (nothing, when no [}] follows a [{]) and
    parses that. A parsed value is usable exactly when it has a string
    [summary]. When nothing usable comes out, the request ends with status
    500, the message that the model returned no JSON and the first 300
    characters of the answer, and stores nothing. An object that parses and
    is usable, wrapped in text without braces that keeps the whole from
    parsing, is recovered; so is the object of the specification's
    scenario. *)
Theorem parseSummary_repairs :
  (forall ext raw v,
     JSON_parse ext raw = Ok v -> parseSummary ext raw = normalizeSummary v)
  /\ (forall ext raw e,
        JSON_parse ext raw = Throw e ->
        parseSummary ext raw =
        match extractJson raw with
        | Some sliced =>
          match JSON_parse ext sliced with
          | Ok v => normalizeSummary v
          | Throw _ => None
          end
        | None => None
        end)
  /\ (forall raw,
        (exists p mid q,
           raw = p ++ open_brace :: mid ++ close_brace :: q
           /\ ~ In open_brace p /\ ~ In close_brace q
           /\ extractJson raw = Some (open_brace :: mid ++ [close_brace]))
        \/ (extractJson raw = None
            /\ ~ exists p mid q,
                   raw = p ++ open_brace :: mid ++ close_brace :: q))
  /\ (forall v,
        normalizeSummary v <> None
        <-> exists s, get_prop v (js "summary") = Some (JString s))
  /\ (forall ext uid pdfFile images pdfText summaryLength auto w raw w1,
        summarize ext pdfText summaryLength images auto
          ((0 <? len images) || (0 <? len auto)) w = (Returns raw, w1) ->
        parseSummary ext raw = None ->
        summarizeAndStore ext uid pdfFile images pdfText summaryLength auto w
        = (Returns
             (NextResponse_json
                (JObject [(js "ok", JBool false);
                          (js "error", JString (js "Model JSON dönmedi."));
                          (js "raw", JString (firstn 300 raw))]) 500), w1)
        /\ Db.summaries (db w1) = Db.summaries (db w))
  /\ (forall ext p mid q e v s,
        let object := open_brace :: mid ++ [close_brace] in
        ~ In open_brace p -> ~ In close_brace q ->
        JSON_parse ext (p ++ object ++ q) = Throw e ->
        JSON_parse ext object = Ok v ->
        normalizeSummary v = Some s ->
        parseSummary ext (p ++ object ++ q) = Some s)
  /\ parseSummary (Demo.ext true Demo.wrapped_answer) Demo.wrapped_answer
     = Some {| title := None; summary := js "...";
               keywords := [js "a"; js "b"] |}
  /\ (let run := POST (Demo.ext true Demo.refusal) (Demo.request 5 0)
                   (Demo.world []) in
      fst run
      = Returns
          (NextResponse_json
             (JObject [(js "ok", JBool false);
                       (js "error", JString (js "Model JSON dönmedi."));
                       (js "raw", JString Demo.refusal)]) 500)
      /\ Db.summaries (db (snd run)) = []).
Proof.
  assert (Hretry : forall ext raw e,
             JSON_parse ext raw = Throw e ->
             parseSummary ext raw =
             match extractJson raw with
             | Some sliced =>
               match JSON_parse ext sliced with
               | Ok v => normalizeSummary v
               | Throw _ => None
               end
             | None => None
             end).
  { intros ext raw e H. unfold parseSummary. rewrite H.
    destruct (extractJson_spec raw) as [(p & mid & q & _ & _ & _ & ->)|[-> _]];
      reflexivity. }
  split; [intros ext raw v H; unfold parseSummary; now rewrite H|].
  split; [exact Hretry|]. split; [exact extractJson_spec|].
  split; [exact normalizeSummary_usable|]. split.
  - intros ext uid pdfFile images pdfText summaryLength auto w raw w1 Hrun Hp.
    unfold summarizeAndStore, bind. rewrite Hrun.
    rewrite finishSummary_rejects by assumption.
    rewrite slice_prefix by lia. split; [reflexivity|].
    pose proof (only_calls_summarize ext pdfText summaryLength images auto
                  ((0 <? len images) || (0 <? len auto)) w) as [Hdb _].
    rewrite Hrun in Hdb. cbn [snd] in Hdb. now rewrite Hdb.
  - split.
    + intros ext p mid q e v s object Hp Hq Hthrow Hok Hs.
      rewrite (Hretry ext _ e Hthrow). unfold object.
      replace (p ++ (open_brace :: mid ++ [close_brace]) ++ q)
        with (p ++ open_brace :: mid ++ close_brace :: q)
        by (cbn [app]; now rewrite <- app_assoc).
      rewrite extractJson_cut by assumption.
      fold object. now rewrite Hok.
    + split; [vm_compute; reflexivity|]. cbn zeta.
      split; vm_compute; reflexivity.
Qed.

(** The scenario of the specification, through the clause on wrapped
    objects: the prose is free of braces and keeps the whole from parsing. *)
Lemma parseSummary_repairs_witness :
  let ext := Demo.ext true Demo.wrapped_answer in
  parseSummary ext Demo.wrapped_answer
  = Some {| title := None; summary := js "..."; keywords := [js "a"; js "b"] |}.
Proof.
  cbn zeta.
  pose (mid := skipn 1 (firstn 37 (skipn 20 Demo.wrapped_answer))).
  let r := eval vm_compute in
    (JsonRef.parse (open_brace :: mid ++ [close_brace])) in
  match r with
  | Ok ?v =>
    refine (proj1 (proj2 (proj2 (proj2 (proj2 (proj2 parseSummary_repairs)))))
              (Demo.ext true Demo.wrapped_answer)
              (js "Here is the result: ") mid (js " Thanks!")
              JsonRef.SyntaxError v _ _ _ _ _ _)
  end.
  - vm_compute. intuition discriminate.
  - vm_compute. intuition discriminate.
  - vm_compute. reflexivity.
  - vm_compute. reflexivity.
  - vm_compute. reflexivity.
Defined.

(* ================================================================== *)
(** * Further properties of the code *)

(* ------------------------------------------------------------------ *)
(** ** The rasterizer *)

Lemma render_pages_ok (ext : Ext) (buf : Buffer) (n : nat) :
  forall i out pages,
    render_pages ext buf n i out = Ok pages ->
    exists rendered,
      pages = out ++ rendered
      /\ List.length rendered = n
      /\ forall k page, nth_error rendered k = Some page ->
           mime page = js "image/jpeg"
           /\ sharp_pdf_page_jpeg ext buf (i + Z.of_nat k) = Ok (b64 page).
Proof.
  induction n as [|n IH]; intros i out pages H; cbn [render_pages] in H.
  - injection H as <-. exists []. rewrite app_nil_r.
    split; [reflexivity|]. split; [reflexivity|].
    intros [|k] page Hk; discriminate.
  - destruct (sharp_pdf_page_jpeg ext buf i) as [jpg|e] eqn:E; [|discriminate].
    destruct (IH _ _ _ H) as (rendered & -> & Hlen & Hpages).
    exists ({| mime := js "image/jpeg"; b64 := jpg |} :: rendered).
    rewrite <- app_assoc. split; [reflexivity|]. split; [cbn; lia|].
    intros [|k] page Hk; cbn [nth_error] in Hk.
    + injection Hk as <-. cbn [mime b64]. rewrite Z.add_0_r. now split.
    + destruct (Hpages k page Hk) as [Hm Hp]. split; [exact Hm|].
      rewrite <- Hp. f_equal. lia.
Qed.

Lemma render_pages_throw (ext : Ext) (buf : Buffer) (n : nat) :
  forall i out e,
    render_pages ext buf n i out = Throw e ->
    exists k, (k < n)%nat
      /\ sharp_pdf_page_jpeg ext buf (i + Z.of_nat k) = Throw e
      /\ forall j, (j < k)%nat ->
           exists jpg, sharp_pdf_page_jpeg ext buf (i + Z.of_nat j) = Ok jpg.
Proof.
  induction n as [|n IH]; intros i out e H; cbn [render_pages] in H;
    [discriminate|].
  destruct (sharp_pdf_page_jpeg ext buf i) as [jpg|e'] eqn:E.
  - destruct (IH _ _ _ H) as (k & Hk & Hthrow & Hbefore).
    exists (S k). split; [lia|]. split.
    + rewrite <- Hthrow. f_equal. lia.
    + intros [|j] Hj.
      * exists jpg. now rewrite Z.add_0_r.
      * destruct (Hbefore j) as [jpg' Hj']; [lia|]. exists jpg'.
        rewrite <- Hj'. f_equal. lia.
  - injection H as <-. exists 0%nat. split; [lia|]. split.
    + now rewrite Z.add_0_r.
    + intros j Hj. lia.
Qed.

(** The number of pages the rasterizer sets out to render. *)
Lemma pages_to_render (ext : Ext) (buf : Buffer) (maxPages : Z) :
  exists total,
    1 <= total
    /\ (forall n, sharp_pdf_pages ext buf = Ok (Some n) -> 0 < n -> total = n)
    /\ (forall n, sharp_pdf_pages ext buf = Ok (Some n) -> n <= 0 -> total = 1)
    /\ (sharp_pdf_pages ext buf = Ok None -> total = 1)
    /\ (forall e, sharp_pdf_pages ext buf = Throw e -> total = 1)
    /\ pdfBufferToJpegPagesBase64 ext buf maxPages
       = render_pages ext buf (Z.to_nat (Z.min total maxPages)) 0 [].
Proof.
  unfold pdfBufferToJpegPagesBase64.
  destruct (sharp_pdf_pages ext buf) as [[n|]|e].
  - destruct (Z.ltb_spec 0 n).
    + exists n. split; [lia|]. split; [now intros n' [= <-] _|].
      split; [intros n' [= <-] Hn; lia|]. split; [discriminate|].
      split; [discriminate | reflexivity].
    + exists 1. split; [lia|]. split; [intros n' [= <-] Hn; lia|].
      split; [reflexivity|]. split; [discriminate|].
      split; [discriminate | reflexivity].
  - exists 1. split; [lia|]. split; [discriminate|]. split; [discriminate|].
    split; [reflexivity|]. split; [reflexivity | reflexivity].
  - exists 1. split; [lia|]. split; [discriminate|]. split; [discriminate|].
    split; [discriminate|]. split; [reflexivity | reflexivity].
Qed.

(** X1. The rasterizer. With [total] the page count [sharp] reports when
    that is a positive number, and 1 when it reports a number that is not
    positive, reports none, or throws, [pdfBufferToJpegPagesBase64] renders
    the pages 0 to [min(total, maxPages) - 1] in order. It returns them
    all, as JPEG, when each renders, and otherwise throws what the first
    page that fails threw. So for a [maxPages] of 1 or more a result is
    never empty. *)
Theorem rasterizer_renders_first_pages (ext : Ext) (buf : Buffer)
  (maxPages : Z) :
  exists total,
    1 <= total
    /\ (forall n, sharp_pdf_pages ext buf = Ok (Some n) -> 0 < n -> total = n)
    /\ (forall n, sharp_pdf_pages ext buf = Ok (Some n) -> n <= 0 -> total = 1)
    /\ (sharp_pdf_pages ext buf = Ok None -> total = 1)
    /\ (forall e, sharp_pdf_pages ext buf = Throw e -> total = 1)
    /\ match pdfBufferToJpegPagesBase64 ext buf maxPages with
       | Ok pages =>
         len pages = Z.max 0 (Z.min total maxPages)
         /\ (1 <= maxPages -> pages <> [])
         /\ forall k page, nth_error pages k = Some page ->
              mime page = js "image/jpeg"
              /\ sharp_pdf_page_jpeg ext buf (Z.of_nat k) = Ok (b64 page)
       | Throw e =>
         exists k, Z.of_nat k < Z.min total maxPages
           /\ sharp_pdf_page_jpeg ext buf (Z.of_nat k) = Throw e
           /\ forall j, (j < k)%nat ->
                exists jpg, sharp_pdf_page_jpeg ext buf (Z.of_nat j) = Ok jpg
       end.
Proof.
  destruct (pages_to_render ext buf maxPages)
    as (total & Htot & Hrep & Hneg & Hnone & Hthrow & ->).
  exists total. split; [exact Htot|]. split; [exact Hrep|].
  split; [exact Hneg|]. split; [exact Hnone|]. split; [exact Hthrow|].
  destruct (render_pages ext buf (Z.to_nat (Z.min total maxPages)) 0 [])
    as [pages|e] eqn:E.
  - destruct (render_pages_ok _ _ _ _ _ _ E) as (rendered & -> & Hlen & Hpages).
    cbn [app]. split; [unfold len; lia|]. split.
    + intros Hmax ->. cbn in Hlen. lia.
    + intros k page Hk. now apply Hpages.
  - destruct (render_pages_throw _ _ _ _ _ _ E) as (k & Hk & Hfail & Hbefore).
    exists k. split; [lia|]. split; [exact Hfail|].
    intros j Hj. now apply Hbefore.
Qed.

(* ------------------------------------------------------------------ *)
(** ** [chunkText] for any positive chunk size *)

(** X2. The chunk size. For every positive chunk size the chunks are the
    consecutive windows of that size of the trimmed text: chunk [k] is the
    slice from [k * size], every chunk but the last has exactly [size]
    characters and the last at least one, they concatenate to the trimmed
    text and there are [ceil(len / size)] of them. A blank text gives no
    chunk whatever the size. *)
Theorem chunkText_any_size :
  (forall s cs, 0 < cs ->
     exists chunks,
       chunkText s cs = Some chunks
       /\ List.concat chunks = trim s
       /\ len chunks = ceil_div (Js.length (trim s)) cs
       /\ forall k c, nth_error chunks k = Some c ->
            c = slice (trim s) (Z.of_nat k * cs) (Z.of_nat k * cs + cs)
            /\ 0 < Js.length c <= cs
            /\ (Z.of_nat k + 1 < len chunks -> Js.length c = cs))
  /\ (forall s cs, trim s = [] -> chunkText s cs = Some []).
Proof.
  split.
  - intros s cs Hcs.
    destruct (chunkText_spec s cs Hcs) as (chunks & Hrun & Hcat & Hlen & Hnth).
    exists chunks. split; [exact Hrun|]. split; [exact Hcat|].
    split; [exact Hlen|]. intros k c H.
    assert (Hk : Z.of_nat k < len chunks).
    { unfold len. apply Nat2Z.inj_lt. apply nth_error_Some. congruence. }
    pose proof (Z.mul_div_le (Js.length (trim s) + cs - 1) cs Hcs) as Hdiv.
    unfold ceil_div in Hlen. rewrite Hlen in Hk.
    split; [now apply Hnth|].
    rewrite (Hnth k c H), slice_length by lia. split; [split; [nia | lia]|].
    intros Hnext. rewrite Hlen in Hnext. nia.
  - intros s cs Ht. unfold chunkText. now rewrite Ht.
Qed.

(* ------------------------------------------------------------------ *)
(** ** The text extracted from a PDF *)

Lemma collapse_single_spaced (s : js_string) :
  forall b, single_spaced b (collapse_blanks b s) = true.
Proof.
  induction s as [|c r IH]; intros b; cbn [collapse_blanks]; [reflexivity|].
  destruct (is_whitespace c) eqn:Ec.
  - destruct b; [apply IH|].
    cbn [single_spaced]. change (is_whitespace 32%N) with true. cbn.
    apply IH.
  - cbn [single_spaced]. rewrite Ec. apply IH.
Qed.

Lemma single_spaced_weaken (s : js_string) :
  single_spaced true s = true -> single_spaced false s = true.
Proof.
  destruct s as [|c r]; [reflexivity|]. cbn [single_spaced].
  destruct (is_whitespace c); [discriminate | auto].
Qed.

Lemma single_spaced_trimStart (s : js_string) :
  forall b, single_spaced b s = true -> single_spaced true (trimStart s) = true.
Proof.
  induction s as [|c r IH]; intros b H; [reflexivity|].
  cbn [trimStart single_spaced] in *.
  destruct (is_whitespace c) eqn:Ec.
  - apply andb_true_iff in H as [_ H]. now apply (IH true).
  - cbn [single_spaced]. now rewrite Ec.
Qed.

Lemma single_spaced_prefix (p q : js_string) :
  forall b, single_spaced b (p ++ q) = true -> single_spaced b p = true.
Proof.
  induction p as [|c r IH]; intros b H; [reflexivity|].
  cbn [app single_spaced] in *. destruct (is_whitespace c).
  - apply andb_true_iff in H as [H1 H2]. rewrite H1. now apply IH.
  - now apply IH.
Qed.

Lemma single_spaced_trim (s : js_string) (b : bool) :
  single_spaced b s = true -> single_spaced true (trim s) = true.
Proof.
  intros H. unfold trim. apply single_spaced_trimStart in H.
  destruct (trimEnd_prefix (trimStart s)) as [q Hq]. rewrite Hq in H.
  now apply single_spaced_prefix in H.
Qed.

Lemma trim_clean_ends (s : js_string) :
  starts_clean (trim s) /\ starts_clean (rev (trim s)).
Proof.
  split.
  - unfold trim. apply trimEnd_keeps_start, trimStart_clean.
  - unfold trim, trimEnd. rewrite rev_involutive. apply trimStart_clean.
Qed.

(** In a single-spaced text a blank is a space, follows a character that is
    not blank and is followed by none that is. *)
Lemma single_spaced_blank (p q : js_string) (c : code_unit) :
  forall b,
    single_spaced b (p ++ c :: q) = true -> is_whitespace c = true ->
    c = 32%N
    /\ (p = [] -> b = false)
    /\ (forall p' x, p = p' ++ [x] -> is_whitespace x = false)
    /\ (forall y q', q = y :: q' -> is_whitespace y = false).
Proof.
  induction p as [|x p IH]; intros b H Hc; cbn [app single_spaced] in H.
  - rewrite Hc in H. apply andb_true_iff in H as [H Hq].
    apply andb_true_iff in H as [Hb H32]. apply N.eqb_eq in H32.
    split; [exact H32|]. split; [now destruct b|]. split.
    + intros [|? ?] x' E; discriminate.
    + intros y q' ->. cbn [single_spaced] in Hq.
      destruct (is_whitespace y); [discriminate | reflexivity].
  - destruct (is_whitespace x) eqn:Ex.
    + apply andb_true_iff in H as [_ H].
      destruct (IH true H Hc) as (H32 & Hb & _ & Hq).
      destruct p as [|x' p]; [now specialize (Hb eq_refl)|].
      destruct (IH true H Hc) as (_ & _ & Hp & _).
      split; [exact H32|]. split; [discriminate|]. split; [|exact Hq].
      intros p' y E. destruct p' as [|z p'].
      * discriminate.
      * injection E as _ E. now apply (Hp p' y).
    + destruct (IH false H Hc) as (H32 & _ & Hp & Hq).
      split; [exact H32|]. split; [discriminate|]. split; [|exact Hq].
      intros p' y E. destruct p' as [|z p'].
      * injection E as <- E. exact Ex.
      * injection E as _ E. now apply (Hp p' y).
Qed.

(** X3. The extracted text is in normal form. What [parsePdfToText] returns
    is its own trim, and every blank in it is one space character that
    stands between two characters that are not blank: no line feed or tab
    survives, no two blanks meet, none starts or ends the text. *)
Theorem parsePdfToText_normal_form (ext : Ext) (buffer : Buffer)
  (text_ : js_string) :
  parsePdfToText ext buffer = Ok text_ ->
  trim text_ = text_
  /\ forall p c q,
       text_ = p ++ c :: q -> is_whitespace c = true ->
       c = 32%N
       /\ (exists p' x, p = p' ++ [x] /\ is_whitespace x = false)
       /\ (exists y q', q = y :: q' /\ is_whitespace y = false).
Proof.
  unfold parsePdfToText.
  destruct (pdfjs_text_items ext buffer) as [pages|e]; [|discriminate].
  intros [= <-].
  set (raw := collapse_blanks false (join (js " ") (flat_map page_texts pages))).
  split; [apply trim_idempotent|].
  intros p c q E Hc.
  pose proof (single_spaced_trim raw false (collapse_single_spaced _ false)) as Hs.
  destruct (trim_clean_ends raw) as [_ Hend].
  rewrite E in Hs, Hend.
  destruct (single_spaced_blank p q c true Hs Hc) as (H32 & Hb & Hp & Hq).
  split; [exact H32|]. split.
  - destruct (exists_last (l := p)) as (p' & x & ->).
    { intros ->. now specialize (Hb eq_refl). }
    exists p', x. split; [reflexivity|]. now apply (Hp p' x).
  - destruct q as [|y q'].
    + rewrite rev_app_distr in Hend. cbn in Hend. congruence.
    + exists y, q'. split; [reflexivity|]. now apply (Hq y q').
Qed.

Lemma parsePdfToText_normal_form_witness :
  let text_ := js "a b" in
  trim text_ = text_
  /\ forall p c q,
       text_ = p ++ c :: q -> is_whitespace c = true ->
       c = 32%N
       /\ (exists p' x, p = p' ++ [x] /\ is_whitespace x = false)
       /\ (exists y q', q = y :: q' /\ is_whitespace y = false).
Proof.
  exact (parsePdfToText_normal_form (Demo.ext true Demo.refusal)
           (js "  a   b  ") (js "a b") eq_refl).
Defined.

(* ------------------------------------------------------------------ *)
(** ** What the merge call is given *)

Lemma summarize_chunks_answered (ext : Ext) (chunks : list js_string) :
  answers ext ->
  forall i acc w,
    summarize_chunks ext chunks i acc w
    = (Returns (acc ++ labelled_answers ext (List.length (model_calls w)) i chunks),
       {| db := db w;
          model_calls := model_calls w ++ map chunk_prompt chunks;
          raster_calls := raster_calls w |}).
Proof.
  intros Hai. induction chunks as [|c rest IH]; intros i acc w.
  - cbn. rewrite !app_nil_r. now destruct w.
  - cbn [summarize_chunks labelled_answers map].
    unfold geminiSummarizeTextChunkAcademic, bind at 1, bind at 1,
      ai_generateContent, answer_text.
    destruct (Hai (List.length (model_calls w)) (chunk_prompt c)) as [r ->].
    cbn [ret]. rewrite IH.
    cbn [with_call db model_calls raster_calls].
    rewrite length_app, Nat.add_1_r, <- !app_assoc. reflexivity.
Qed.





(* ------------------------------------------------------------------ *)
(** ** What the single call carries *)

Lemma push_compressed_parts (ext : Ext) (imgs : list File) :
  compressible ext imgs ->
  forall parts w,
  exists ps,
    push_compressed ext imgs parts w = (Returns (parts ++ ps), w)
    /\ List.length ps = List.length imgs
    /\ forall k img,
         nth_error imgs k = Some img ->
         exists out,
           sharp_jpeg ext (arrayBuffer img) = Ok out
           /\ nth_error ps k = Some (inlineData (js "image/jpeg") out).
Proof.
  induction imgs as [|img rest IH]; intros Hok parts w; cbn [push_compressed].
  - exists []. rewrite app_nil_r. split; [reflexivity|]. split; [reflexivity|].
    intros [|k] i Hk; discriminate.
  - destruct (Hok img (or_introl eq_refl)) as [out Hout].
    unfold compressImageToJpegBase64. rewrite Hout. cbn [lift].
    unfold bind at 1. cbn [ret mime b64].
    destruct (IH (fun i Hi => Hok i (or_intror Hi))
                 (parts ++ [inlineData (js "image/jpeg") out]) w)
      as (ps & Hrun & Hlen & Hnth).
    exists (inlineData (js "image/jpeg") out :: ps).
    rewrite Hrun, <- app_assoc. cbn [app List.length].
    split; [reflexivity|]. split; [congruence|].
    intros [|k] i Hk; cbn [nth_error] in *.
    + injection Hk as <-. now exists out.
    + now apply Hnth.
Qed.





(* ------------------------------------------------------------------ *)
(** ** The calls a request makes, and how it ends *)

Lemma answered_from_app (ext : Ext) (a b : list (list Part)) :
  forall n,
    answered_from ext n (a ++ b)
    <-> answered_from ext n a /\ answered_from ext (n + List.length a) b.
Proof.
  induction a as [|c a IH]; intros n; cbn [app answered_from List.length].
  - rewrite Nat.add_0_r. tauto.
  - rewrite IH. replace (S n + List.length a)%nat
      with (n + S (List.length a))%nat by lia. tauto.
Qed.

Lemma fail_fast_ret {A} (ext : Ext) (a : A) : fail_fast ext (ret a).
Proof. intros w. exists []. cbn. now rewrite app_nil_r. Qed.

Lemma fail_fast_throw {A} (ext : Ext) (e : Exn) : fail_fast ext (@throw A e).
Proof. intros w. exists []. cbn. rewrite app_nil_r. split; [reflexivity | now left]. Qed.

Lemma fail_fast_lift {A} (ext : Ext) (r : Res A) : fail_fast ext (lift r).
Proof. destruct r; [apply fail_fast_ret | apply fail_fast_throw]. Qed.

Lemma fail_fast_generate (ext : Ext) (parts : list Part) :
  fail_fast ext (ai_generateContent ext parts).
Proof.
  intros w. exists [parts]. unfold ai_generateContent.
  destruct (generateContent ext (List.length (model_calls w)) parts)
    as [r|e] eqn:E; cbn [fst snd model_calls with_call answered_from].
  - split; [reflexivity|]. split; [now exists r | exact I].
  - split; [reflexivity|]. right. exists [], parts. cbn [app answered_from].
    split; [reflexivity|]. split; [exact I|]. cbn [List.length].
    now rewrite Nat.add_0_r.
Qed.

Lemma fail_fast_bind {A B} (ext : Ext) (m : M A) (k : A -> M B) :
  fail_fast ext m -> (forall a, fail_fast ext (k a)) -> fail_fast ext (bind m k).
Proof.
  intros Hm Hk w. destruct (Hm w) as (c1 & Hc1 & H1). unfold bind.
  destruct (m w) as [[a|e|] w1]; cbn [fst snd] in *.
  - destruct (Hk a w1) as (c2 & Hc2 & H2). exists (c1 ++ c2).
    rewrite Hc2, Hc1, app_assoc. split; [reflexivity|].
    rewrite Hc1, length_app in H2.
    destruct (fst (k a w1)) as [b|e|].
    + apply answered_from_app. now split.
    + destruct H2 as [H2|(before & last & -> & Hb & Hl)].
      * left. apply answered_from_app. now split.
      * right. exists (c1 ++ before), last. rewrite app_assoc.
        split; [reflexivity|]. split; [apply answered_from_app; now split|].
        now rewrite length_app, Nat.add_assoc.
    + exact H2.
  - exists c1. now split.
  - destruct H1.
Qed.

Ltac calls :=
  repeat first
    [ apply fail_fast_ret | apply fail_fast_throw | apply fail_fast_lift
    | apply fail_fast_generate | apply fail_fast_bind; [|intros ?] ].

Lemma fail_fast_summarize_chunks (ext : Ext) (chunks : list js_string) :
  forall i acc, fail_fast ext (summarize_chunks ext chunks i acc).
Proof.
  induction chunks as [|c rest IH]; intros i acc; cbn [summarize_chunks].
  - calls.
  - unfold geminiSummarizeTextChunkAcademic. calls. apply IH.
Qed.

Lemma fail_fast_push_compressed (ext : Ext) (imgs : list File) :
  forall parts, fail_fast ext (push_compressed ext imgs parts).
Proof.
  induction imgs as [|f rest IH]; intros parts; cbn [push_compressed].
  - calls.
  - calls. apply IH.
Qed.

Lemma fail_fast_summarize (ext : Ext) (pdfText summaryLength : js_string)
  (images : list File) (autoPdfImages : list Image) (hasAnyImages : bool) :
  fail_fast ext (summarize ext pdfText summaryLength images autoPdfImages
                   hasAnyImages).
Proof.
  unfold summarize.
  destruct (truthy pdfText && (12000 <? Js.length pdfText) && negb hasAnyImages).
  - unfold summarizeFullPdfTextAcademic.
    destruct (chunkText_spec pdfText 9000 ltac:(lia)) as (chunks & -> & _).
    destruct (len chunks =? 0); [calls|].
    unfold geminiFinalSummaryAcademic. calls.
    apply fail_fast_summarize_chunks.
  - unfold summarizeSingleCall. calls.
    apply fail_fast_push_compressed.
Qed.

(** The row [finishSummary] stores for an answer that parsed as [p]. *)
Lemma finishSummary_row (ext : Ext) (uid : js_string)
  (pdfFile : option File) (images : list File) (auto : list Image)
  (pdfText raw : js_string) (w : World) (p : SummaryJSON) :
  parseSummary ext raw = Some p ->
  let row := new_row ext uid pdfFile images auto pdfText p (db w) in
  finishSummary ext uid pdfFile images auto
    ((0 <? len images) || (0 <? len auto)) pdfText raw w
  = (Returns (NextResponse_json (saved_body row) 200),
     with_db w (with_row (db w) row)).
Proof.
  intros Hp row. unfold finishSummary. rewrite Hp.
  unfold bind, on_db, Db.summary_create, ret. cbn [fst snd].
  assert ((if truthy pdfText then pdfText else empty) = pdfText) as ->
    by now destruct pdfText.
  reflexivity.
Qed.

(** How [summarizeAndStore] ends: it throws and stores nothing, or the
    answer is no usable JSON and nothing is stored, or one row is stored.
    It does end, and the calls it made were answered, but for the last one
    when the model's failure is what it throws. *)
Lemma summarizeAndStore_outcomes (ext : Ext) (uid : js_string)
  (pdfFile : option File) (images : list File)
  (pdfText summaryLength : js_string) (auto : list Image) (w : World) :
  let run := summarizeAndStore ext uid pdfFile images pdfText summaryLength
               auto w in
  let n := List.length (model_calls w) in
  exists calls,
    model_calls (snd run) = model_calls w ++ calls
    /\ raster_calls (snd run) = raster_calls w
    /\ ((exists e,
           fst run = Throws e /\ db (snd run) = db w
           /\ (answered_from ext n calls \/ failed_last ext n calls e))
        \/ (exists raw,
              parseSummary ext raw = None
              /\ fst run = Returns (no_json_response raw)
              /\ db (snd run) = db w
              /\ answered_from ext n calls)
        \/ (exists raw p,
              parseSummary ext raw = Some p
              /\ fst run
                 = Returns (NextResponse_json
                              (saved_body (new_row ext uid pdfFile images auto
                                             pdfText p (db w))) 200)
              /\ db (snd run)
                 = with_row (db w)
                     (new_row ext uid pdfFile images auto pdfText p (db w))
              /\ answered_from ext n calls)).
Proof.
  cbv zeta. unfold summarizeAndStore, bind.
  set (has := (0 <? len images) || (0 <? len auto)).
  pose proof (only_calls_summarize ext pdfText summaryLength images auto has w)
    as [Hdb Hr].
  destruct (fail_fast_summarize ext pdfText summaryLength images auto has w)
    as (calls & Hcalls & Hend).
  destruct (summarize ext pdfText summaryLength images auto has w)
    as [[raw|e|] w1]; cbn [snd fst] in *; [| |destruct Hend].
  - exists calls. destruct (parseSummary ext raw) as [p|] eqn:E.
    + unfold has. rewrite (finishSummary_row ext uid pdfFile images auto pdfText
                             raw w1 p E).
      cbn [fst snd db model_calls raster_calls with_db].
      split; [exact Hcalls|]. split; [exact Hr|]. right. right.
      exists raw, p. rewrite Hdb. now repeat split.
    + rewrite finishSummary_rejects by assumption. cbn [fst snd].
      split; [exact Hcalls|]. split; [exact Hr|]. right. left.
      exists raw. now repeat split.
  - exists calls. split; [exact Hcalls|]. split; [exact Hr|]. left.
    exists e. now repeat split.
Qed.

(** The ways through [POST]: the two guards, the empty form, the scanned
    PDF that cannot be rasterized, and else [summarizeAndStore] inside the
    handler's [try], on no pages or on the one or two pages rasterized. *)
Lemma POST_cases (ext : Ext) (req : Request) (w : World) :
  (falsy (GEMINI_API_KEY ext) = true
   /\ POST ext req w
      = (Returns (NextResponse_json (error_body msg_no_key) 500), w))
  \/ (falsy (GEMINI_API_KEY ext) = false
      /\ falsy (caller req) = true
      /\ POST ext req w
         = (Returns (NextResponse_json (error_body msg_unauthorized) 401), w))
  \/ exists uid,
       falsy (GEMINI_API_KEY ext) = false
       /\ caller req = Some uid /\ truthy uid = true
       /\ let w1 := with_db w (Db.user_upsert uid (db w)) in
          let pdfText := extractedText ext (form_pdf req) in
          (form_pdf req = None /\ form_images req = []
           /\ POST ext req w
              = (Returns (NextResponse_json (error_body msg_no_input) 400), w1))
          \/ (exists f e,
                form_pdf req = Some f /\ form_images req = []
                /\ trim pdfText = []
                /\ pdfBufferToJpegPagesBase64 ext (arrayBuffer f) 2 = Throw e
                /\ POST ext req w
                   = (Returns (NextResponse_json
                                 (error_body msg_scanned_failed) 400),
                      with_raster w1 (arrayBuffer f)))
          \/ (exists auto w2,
                ((auto = [] /\ w2 = w1
                  /\ (form_images req <> []
                      \/ (form_pdf req <> None /\ trim pdfText <> [])))
                 \/ (exists f,
                       form_pdf req = Some f /\ form_images req = []
                       /\ trim pdfText = []
                       /\ pdfBufferToJpegPagesBase64 ext (arrayBuffer f) 2
                          = Ok auto
                       /\ 1 <= len auto <= 2
                       /\ w2 = with_raster w1 (arrayBuffer f)))
                /\ POST ext req w
                   = try_catch
                       (summarizeAndStore ext uid (form_pdf req)
                          (form_images req) pdfText
                          (choose_summaryLength pdfText) auto)
                       (fun e => ret (server_error e)) w2).
Proof.
  destruct (falsy (GEMINI_API_KEY ext)) eqn:Hk.
  { left. split; [reflexivity|]. unfold POST. now rewrite Hk. }
  right. destruct (caller req) as [uid|] eqn:Hc.
  2:{ left. split; [reflexivity|]. split; [reflexivity|].
      unfold POST. now rewrite Hk, Hc. }
  destruct (truthy uid) eqn:Hu.
  2:{ left. split; [reflexivity|]. split; [cbn; now rewrite Hu|].
      unfold POST. now rewrite Hk, Hc, Hu. }
  right. exists uid. split; [reflexivity|]. split; [reflexivity|].
  split; [exact Hu|]. cbv zeta.
  rewrite (POST_guarded ext req uid w Hk Hc Hu).
  destruct (form_images req) as [|i imgs] eqn:Hi.
  2:{ right. right. exists [], (with_db w (Db.user_upsert uid (db w))).
      split; [left; split; [reflexivity|]; split; [reflexivity|]; now left|].
      unfold try_catch. rewrite summarizeFor_direct by (left; congruence).
      now rewrite Hi. }
  destruct (form_pdf req) as [f|] eqn:Hp.
  2:{ left. split; [reflexivity|]. split; [reflexivity|].
      unfold try_catch, summarizeFor, bind.
      now rewrite ensureUserRow_run, Hp, Hi. }
  right.
  destruct (list_eq_dec N.eq_dec (trim (extractedText ext (Some f))) [])
    as [Ht|Ht].
  - destruct (pdfBufferToJpegPagesBase64 ext (arrayBuffer f) 2)
      as [pages|e] eqn:Hr.
    + right. exists pages, (with_raster (with_db w (Db.user_upsert uid (db w)))
                              (arrayBuffer f)).
      pose proof (rasterized_pages ext (arrayBuffer f) pages Hr) as Hlen.
      split.
      * right. exists f. now repeat split.
      * unfold try_catch. rewrite (summarizeFor_scanned ext uid req f w Hp Hi Ht).
        rewrite Hr. cbv zeta. destruct pages as [|pg pages]; [cbn in Hlen; lia|].
        reflexivity.
    + left. exists f, e. repeat split; try assumption.
      unfold try_catch. rewrite (summarizeFor_scanned ext uid req f w Hp Hi Ht).
      now rewrite Hr.
  - right. exists [], (with_db w (Db.user_upsert uid (db w))). split.
    + left. split; [reflexivity|]. split; [reflexivity|]. right.
      split; [discriminate | exact Ht].
    + unfold try_catch. rewrite summarizeFor_direct.
      * now rewrite Hp, Hi.
      * right. rewrite Hp. split; [discriminate | exact Ht].
Qed.

(** Every way [POST] ends, with the answer it gives and the world it
    leaves. *)
Lemma POST_ends (ext : Ext) (req : Request) (w : World) :
  let run := POST ext req w in
  (falsy (GEMINI_API_KEY ext) = true
   /\ run = (Returns (NextResponse_json (error_body msg_no_key) 500), w))
  \/ (falsy (GEMINI_API_KEY ext) = false
      /\ falsy (caller req) = true
      /\ run = (Returns (NextResponse_json (error_body msg_unauthorized) 401), w))
  \/ exists uid,
       falsy (GEMINI_API_KEY ext) = false
       /\ caller req = Some uid /\ truthy uid = true
       /\ let w1 := with_db w (Db.user_upsert uid (db w)) in
          let pdfText := extractedText ext (form_pdf req) in
          (form_pdf req = None /\ form_images req = []
           /\ run = (Returns (NextResponse_json (error_body msg_no_input) 400), w1))
          \/ (exists f e,
                form_pdf req = Some f /\ form_images req = []
                /\ trim pdfText = []
                /\ pdfBufferToJpegPagesBase64 ext (arrayBuffer f) 2 = Throw e
                /\ run = (Returns (NextResponse_json
                                     (error_body msg_scanned_failed) 400),
                          with_raster w1 (arrayBuffer f)))
          \/ (exists auto calls,
                ((auto = [] /\ raster_calls (snd run) = raster_calls w
                  /\ (form_images req <> []
                      \/ (form_pdf req <> None /\ trim pdfText <> [])))
                 \/ (exists f,
                       form_pdf req = Some f /\ form_images req = []
                       /\ trim pdfText = []
                       /\ pdfBufferToJpegPagesBase64 ext (arrayBuffer f) 2
                          = Ok auto
                       /\ 1 <= len auto <= 2
                       /\ raster_calls (snd run)
                          = raster_calls w ++ [arrayBuffer f]))
                /\ model_calls (snd run) = model_calls w ++ calls
                /\ let n := List.length (model_calls w) in
                   let row p := new_row ext uid (form_pdf req) (form_images req)
                                  auto pdfText p (db w1) in
                   (exists e,
                      fst run = Returns (server_error e)
                      /\ db (snd run) = db w1
                      /\ (answered_from ext n calls \/ failed_last ext n calls e))
                   \/ (exists raw,
                         parseSummary ext raw = None
                         /\ fst run = Returns (no_json_response raw)
                         /\ db (snd run) = db w1
                         /\ answered_from ext n calls)
                   \/ (exists raw p,
                         parseSummary ext raw = Some p
                         /\ fst run
                            = Returns (NextResponse_json (saved_body (row p)) 200)
                         /\ db (snd run) = with_row (db w1) (row p)
                         /\ answered_from ext n calls)).
Proof.
  cbv zeta.
  destruct (POST_cases ext req w)
    as [H|[H|(uid & Hk & Hc & Hu & [H|[H|(auto & w2 & Hw2 & Hrun)]])]];
    [now left | right; now left | right; right; exists uid;
     split; [exact Hk|]; split; [exact Hc|]; split; [exact Hu|]; cbv zeta ..].
  1: now left.
  1: right; now left.
  right. right.
  set (w1 := with_db w (Db.user_upsert uid (db w))) in *.
  set (pdfText := extractedText ext (form_pdf req)) in *.
  assert (Hw : model_calls w2 = model_calls w /\ db w2 = db w1).
  { destruct Hw2 as [(_ & -> & _)|(f & _ & _ & _ & _ & _ & ->)]; now split. }
  destruct Hw as [Hm Hd].
  destruct (summarizeAndStore_outcomes ext uid (form_pdf req) (form_images req)
              pdfText (choose_summaryLength pdfText) auto w2)
    as (calls & Hcalls & Hrast & Hout).
  rewrite Hm, Hd in *.
  exists auto, calls.
  assert (Hsnd : snd (POST ext req w)
                 = snd (summarizeAndStore ext uid (form_pdf req)
                          (form_images req) pdfText
                          (choose_summaryLength pdfText) auto w2)).
  { rewrite Hrun. apply try_catch_world. }
  rewrite Hsnd. split; [|split; [exact Hcalls|]].
  - destruct Hw2 as [(-> & -> & Hcase)|(f & Hp & Hi & Ht & Hr & Hl & ->)].
    + left. now repeat split.
    + right. exists f. rewrite Hrast. now repeat split.
  - rewrite Hrun. unfold try_catch.
    destruct Hout as [(e & Ho & Hdb & Ha)|[(raw & Hp & Ho & Hdb & Ha)
                                          |(raw & p & Hp & Ho & Hdb & Ha)]];
      destruct (summarizeAndStore ext uid (form_pdf req) (form_images req)
                  pdfText (choose_summaryLength pdfText) auto w2)
        as [o w3]; cbn [fst snd] in *; subst o; cbn [fst ret].
    + left. exists e. now repeat split.
    + right. left. exists raw. now repeat split.
    + right. right. exists raw, p. now repeat split.
Qed.

(* ------------------------------------------------------------------ *)
(** ** From the model's answer to the stored row *)

(** With a model that answers and images that can be re-encoded,
    [summarize] returns the text of the answer to the last call it
    makes. *)
Lemma summarize_answered (ext : Ext) (pdfText summaryLength : js_string)
  (images : list File) (auto : list Image) (has : bool) (w : World) :
  answers ext -> compressible ext (firstn 4 images) ->
  trim pdfText = pdfText ->
  exists before last r w3,
    summarize ext pdfText summaryLength images auto has w
    = (Returns (response_text r), w3)
    /\ db w3 = db w /\ raster_calls w3 = raster_calls w
    /\ model_calls w3 = model_calls w ++ before ++ [last]
    /\ generateContent ext
         (List.length (model_calls w) + List.length before) last = Ok r.
Proof.
  intros Hai Hok Htrim. unfold summarize.
  destruct (truthy pdfText && (12000 <? Js.length pdfText) && negb has) eqn:Hc.
  - apply andb_true_iff in Hc as [Hc _]. apply andb_true_iff in Hc as [_ HL].
    apply Z.ltb_lt in HL.
    unfold summarizeFullPdfTextAcademic.
    destruct (chunkText_spec pdfText 9000 ltac:(lia))
      as (chunks & -> & _ & Hlen & _).
    rewrite Htrim in Hlen.
    assert ((len chunks =? 0) = false) as ->.
    { apply Z.eqb_neq. rewrite Hlen. unfold ceil_div.
      assert (0 < (Js.length pdfText + 9000 - 1) / 9000); [|lia].
      apply Z.div_str_pos. lia. }
    unfold bind at 1. rewrite (summarize_chunks_answered ext chunks Hai).
    unfold geminiFinalSummaryAcademic, bind at 1, ai_generateContent.
    cbn [model_calls app].
    set (last := merge_prompt
                   (join (nl ++ nl)
                      (labelled_answers ext (List.length (model_calls w)) 0 chunks))
                   summaryLength).
    destruct (Hai (List.length (model_calls w ++ map chunk_prompt chunks)) last)
      as [r Hr].
    rewrite Hr. cbn [ret].
    exists (map chunk_prompt chunks), last, r. eexists.
    split; [reflexivity|]. cbn [with_call db raster_calls model_calls].
    split; [reflexivity|]. split; [reflexivity|].
    split; [now rewrite <- app_assoc|].
    now rewrite length_app in Hr.
  - unfold summarizeSingleCall, bind at 1.
    destruct (push_compressed_parts ext (firstn 4 images) Hok
                [text_part (single_prompt_text pdfText summaryLength has)] w)
      as (ps & -> & _).
    set (last := ([text_part (single_prompt_text pdfText summaryLength has)]
                    ++ ps)
                 ++ map (fun a => inlineData (mime a) (b64 a)) (firstn 4 auto)).
    unfold bind, ai_generateContent.
    destruct (Hai (List.length (model_calls w)) last) as [r Hr].
    rewrite Hr. cbn [ret].
    exists [], last, r. eexists.
    split; [reflexivity|]. cbn [with_call db raster_calls model_calls app].
    split; [reflexivity|]. split; [reflexivity|]. split; [reflexivity|].
    cbn [List.length]. now rewrite Nat.add_0_r.
Qed.

(** The pages [POST] works with beside the uploads: none when an image was
    uploaded or the PDF has text, and else the pages rasterized. *)
Lemma summarizeFor_reached (ext : Ext) (uid : js_string) (req : Request)
  (auto : list Image) (w : World) :
  let pdfText := extractedText ext (form_pdf req) in
  (auto = []
   /\ (form_images req <> []
       \/ (form_pdf req <> None /\ trim pdfText <> [])))
  \/ (exists f,
        form_pdf req = Some f /\ form_images req = []
        /\ trim pdfText = []
        /\ pdfBufferToJpegPagesBase64 ext (arrayBuffer f) 2 = Ok auto) ->
  exists w2,
    db w2 = Db.user_upsert uid (db w)
    /\ model_calls w2 = model_calls w
    /\ summarizeFor ext uid req w
       = summarizeAndStore ext uid (form_pdf req) (form_images req) pdfText
           (choose_summaryLength pdfText) auto w2.
Proof.
  intros pdfText [(-> & Hcase)|(f & Hp & Hi & Ht & Hr)].
  - exists (with_db w (Db.user_upsert uid (db w))).
    split; [reflexivity|]. split; [reflexivity|].
    now apply summarizeFor_direct.
  - exists (with_raster (with_db w (Db.user_upsert uid (db w))) (arrayBuffer f)).
    split; [reflexivity|]. split; [reflexivity|].
    assert (Ht' : trim (extractedText ext (Some f)) = [])
      by (unfold pdfText in Ht; now rewrite Hp in Ht).
    rewrite (summarizeFor_scanned ext uid req f w Hp Hi Ht'). cbv zeta.
    rewrite Hr. pose proof (rasterized_pages ext _ _ Hr) as Hlen.
    unfold pdfText. rewrite Hp, Hi.
    destruct auto as [|pg pgs]; [cbn in Hlen; lia | reflexivity].
Qed.

(** The whole of a request that reaches a model that answers: the answer to
    the last call decides. When it parses, the row built from it is stored
    and shown with status 200; when it does not, the answer is the 500
    that quotes it and nothing is stored. *)
Lemma POST_answered (ext : Ext) (req : Request) (w : World) (uid : js_string)
  (auto : list Image) :
  falsy (GEMINI_API_KEY ext) = false ->
  caller req = Some uid -> truthy uid = true ->
  answers ext -> compressible ext (firstn 4 (form_images req)) ->
  let pdfText := extractedText ext (form_pdf req) in
  (auto = []
   /\ (form_images req <> []
       \/ (form_pdf req <> None /\ trim pdfText <> [])))
  \/ (exists f,
        form_pdf req = Some f /\ form_images req = []
        /\ trim pdfText = []
        /\ pdfBufferToJpegPagesBase64 ext (arrayBuffer f) 2 = Ok auto) ->
  let st1 := Db.user_upsert uid (db w) in
  exists before last r,
    model_calls (snd (POST ext req w)) = model_calls w ++ before ++ [last]
    /\ generateContent ext
         (List.length (model_calls w) + List.length before) last = Ok r
    /\ match parseSummary ext (response_text r) with
       | Some p =>
         let row := new_row ext uid (form_pdf req) (form_images req) auto
                      pdfText p st1 in
         fst (POST ext req w)
         = Returns (NextResponse_json (saved_body row) 200)
         /\ db (snd (POST ext req w)) = with_row st1 row
       | None =>
         fst (POST ext req w) = Returns (no_json_response (response_text r))
         /\ db (snd (POST ext req w)) = st1
       end.
Proof.
  intros Hk Hc Hu Hai Hok pdfText Hreach st1.
  destruct (summarizeFor_reached ext uid req auto w Hreach)
    as (w2 & Hdb & Hm & Hrun).
  rewrite (POST_guarded ext req uid w Hk Hc Hu). unfold try_catch.
  rewrite Hrun. fold pdfText. unfold summarizeAndStore, bind.
  destruct (summarize_answered ext pdfText (choose_summaryLength pdfText)
              (form_images req) auto
              ((0 <? len (form_images req)) || (0 <? len auto)) w2 Hai Hok
              (extractedText_trimmed ext (form_pdf req)))
    as (before & last & r & w3 & -> & Hdb3 & _ & Hcalls & Hr).
  exists before, last, r. rewrite Hm in Hcalls, Hr.
  split; [|split; [exact Hr|]].
  - destruct (finishSummary_calls ext uid (form_pdf req) (form_images req) auto
                ((0 <? len (form_images req)) || (0 <? len auto)) pdfText
                (response_text r) w3)
      as (resp & w4 & -> & Hc4 & _).
    cbn [snd]. congruence.
  - destruct (parseSummary ext (response_text r)) as [p|] eqn:Hp.
    + rewrite (finishSummary_row ext uid (form_pdf req) (form_images req) auto
                 pdfText (response_text r) w3 p Hp).
      cbv zeta. cbn [fst snd db with_db]. rewrite Hdb3, Hdb. now split.
    + rewrite finishSummary_rejects by assumption.
      cbn [fst snd]. unfold no_json_response.
      split; [reflexivity | now rewrite Hdb3].
Qed.

Lemma normalizeSummary_value (v : Json) (s : js_string) :
  get_prop v (js "summary") = Some (JString s) ->
  normalizeSummary v
  = Some {| title := match get_prop v (js "title") with
                     | Some (JString t) => Some t
                     | _ => None
                     end;
            summary := s;
            keywords := match match get_prop v (js "keywords") with
                              | Some (JArray ks) => filter_strings ks
                              | _ => []
                              end with
                        | [] => default_keywords
                        | k :: ks => k :: ks
                        end |}.
Proof.
  intros Hs. unfold normalizeSummary.
  assert (isRecord v = true) as -> by (destruct v; try discriminate; reflexivity).
  cbn [negb]. rewrite Hs.
  destruct (match get_prop v (js "keywords") with
            | Some (JArray ks) => filter_strings ks
            | _ => []
            end); reflexivity.
Qed.

(** The value [parseSummary] normalizes: what the answer parses to, or
    what its slice from the first [{] to the last [}] parses to when the
    answer itself does not parse. *)
Lemma parseSummary_value (ext : Ext) (raw : js_string) (v : Json) :
  JSON_parse ext raw = Ok v
  \/ (exists e sliced,
        JSON_parse ext raw = Throw e /\ extractJson raw = Some sliced
        /\ JSON_parse ext sliced = Ok v) ->
  parseSummary ext raw = normalizeSummary v.
Proof.
  unfold parseSummary. intros [->|(e & sliced & -> & Hx & Hs)]; [reflexivity|].
  rewrite Hx.
  destruct (extractJson_spec raw) as [(p & mid & q & _ & _ & _ & E)|[E _]];
    rewrite E in Hx; [|discriminate].
  injection Hx as <-. cbn [truthy negb]. now rewrite Hs.
Qed.

(** A stored row for the example collaborators: with an answer that
    parses as [p], a request that reaches the model is answered 200 and
    the one row built from [p] is stored. *)
Lemma demo_stored (raster_ok : bool) (answer : js_string) (size n : nat)
  (p : SummaryJSON) (auto : list Image) :
  let ext := Demo.ext raster_ok answer in
  let req := Demo.request size n in
  let pdfText := extractedText ext (form_pdf req) in
  parseSummary ext answer = Some p ->
  (auto = []
   /\ (form_images req <> []
       \/ (form_pdf req <> None /\ trim pdfText <> [])))
  \/ (exists f,
        form_pdf req = Some f /\ form_images req = []
        /\ trim pdfText = []
        /\ pdfBufferToJpegPagesBase64 ext (arrayBuffer f) 2 = Ok auto) ->
  let row := new_row ext (js "u1") (form_pdf req) (form_images req) auto
               pdfText p
               {| Db.users := [js "u1"]; Db.summaries := [] |} in
  fst (POST ext req (Demo.world []))
  = Returns (NextResponse_json (saved_body row) 200)
  /\ Db.summaries (db (snd (POST ext req (Demo.world [])))) = [row].
Proof.
  intros ext req pdfText Hp Hreach row.
  destruct (POST_answered ext req (Demo.world []) (js "u1") auto
              eq_refl eq_refl eq_refl)
    as (before & last & r & _ & Hr & Hend).
  - intros k parts. eexists. reflexivity.
  - intros img _. eexists. reflexivity.
  - exact Hreach.
  - cbn [ext Demo.ext generateContent] in Hr. injection Hr as <-.
    cbn [response_text text] in Hend. rewrite Hp in Hend.
    destruct Hend as [Hout Hdb]. split; [exact Hout|].
    rewrite Hdb. reflexivity.
Qed.

Lemma demo_reaches (raster_ok : bool) (answer : js_string) (size n : nat) :
  let ext := Demo.ext raster_ok answer in
  let req := Demo.request (S size) n in
  @nil Image = []
  /\ (form_images req <> []
      \/ (form_pdf req <> None
          /\ trim (extractedText ext (form_pdf req)) <> [])).
Proof.
  cbv zeta. split; [reflexivity|]. right. split; [discriminate|].
  rewrite extractedText_trimmed.
  change (form_pdf (Demo.request (S size) n)) with (Some (Demo.file (S size))).
  rewrite demo_text. discriminate.
Qed.

(** C3. The keywords kept from a model answer are the string entries of
    its [keywords] array, in order; when there is none (no array, an empty
    one, or no string in it) they are the three default keywords. Every
    value with a string [summary] is normalized so, and the keywords are
    never empty. When a request reaches a model that answers, and the
    answer to the last call parses to such a value (at once, or after the
    repair), [POST] stores one row whose keywords are that non-empty array
    of strings. An answer with [keywords: []] or without keywords is stored
    with the three defaults, one with [keywords: [1, "a", null, "b"]] with
    [a] and [b]. *)
Theorem keywords_never_empty :
  (forall ks : list Json, map JString (filter_strings ks) = filter is_string ks)
  /\ default_keywords = [js "summary"; js "document"; js "analysis"]
  /\ (forall (v : Json) (p : SummaryJSON),
        normalizeSummary v = Some p ->
        let kept :=
          match get_prop v (js "keywords") with
          | Some (JArray ks) => filter_strings ks
          | _ => []
          end in
        keywords p <> []
        /\ (kept <> [] -> keywords p = kept)
        /\ (kept = [] -> keywords p = default_keywords))
  /\ (forall (v : Json) (s : js_string),
        get_prop v (js "summary") = Some (JString s) ->
        let kept :=
          match get_prop v (js "keywords") with
          | Some (JArray ks) => filter_strings ks
          | _ => []
          end in
        exists p,
          normalizeSummary v = Some p
          /\ keywords p <> []
          /\ (kept <> [] -> keywords p = kept)
          /\ (kept = [] -> keywords p = default_keywords))
  /\ (forall (ext : Ext) (req : Request) (w : World),
        let w' := snd (POST ext req w) in
        Db.summaries (db w') = Db.summaries (db w)
        \/ exists v p row,
             normalizeSummary v = Some p
             /\ Db.summaries (db w') = Db.summaries (db w) ++ [row]
             /\ Db.keywords row = JArray (map JString (keywords p))
             /\ keywords p <> [])
  /\ (forall (ext : Ext) (req : Request) (w : World) (uid : js_string)
             (auto : list Image),
        falsy (GEMINI_API_KEY ext) = false ->
        caller req = Some uid -> truthy uid = true ->
        answers ext -> compressible ext (firstn 4 (form_images req)) ->
        let pdfText := extractedText ext (form_pdf req) in
        (auto = []
         /\ (form_images req <> []
             \/ (form_pdf req <> None /\ trim pdfText <> [])))
        \/ (exists f,
              form_pdf req = Some f /\ form_images req = []
              /\ trim pdfText = []
              /\ pdfBufferToJpegPagesBase64 ext (arrayBuffer f) 2 = Ok auto) ->
        let w' := snd (POST ext req w) in
        exists before last r,
          model_calls w' = model_calls w ++ before ++ [last]
          /\ generateContent ext
               (List.length (model_calls w) + List.length before) last = Ok r
          /\ forall v s,
               JSON_parse ext (response_text r) = Ok v
               \/ (exists e sliced,
                     JSON_parse ext (response_text r) = Throw e
                     /\ extractJson (response_text r) = Some sliced
                     /\ JSON_parse ext sliced = Ok v) ->
               get_prop v (js "summary") = Some (JString s) ->
               let kept :=
                 match get_prop v (js "keywords") with
                 | Some (JArray ks) => filter_strings ks
                 | _ => []
                 end in
               exists row,
                 fst (POST ext req w)
                 = Returns (NextResponse_json (saved_body row) 200)
                 /\ Db.summaries (db w') = Db.summaries (db w) ++ [row]
                 /\ Db.keywords row
                    = JArray (map JString (match kept with
                                           | [] => default_keywords
                                           | k :: ks => k :: ks
                                           end)))
  /\ (forall answer,
        In answer [Answers.empty_keywords; Answers.no_keywords] ->
        exists row,
          fst (POST (Demo.ext true answer) (Demo.request 5 0) (Demo.world []))
          = Returns (NextResponse_json (saved_body row) 200)
          /\ Db.summaries
               (db (snd (POST (Demo.ext true answer) (Demo.request 5 0)
                           (Demo.world []))))
             = [row]
          /\ Db.keywords row
             = JArray [JString (js "summary"); JString (js "document");
                       JString (js "analysis")])
  /\ (exists row,
        Db.summaries
          (db (snd (POST (Demo.ext true Answers.mixed_keywords)
                      (Demo.request 5 0) (Demo.world []))))
        = [row]
        /\ Db.keywords row = JArray [JString (js "a"); JString (js "b")]).
Proof.
  assert (Hne : forall v p, normalizeSummary v = Some p -> keywords p <> []).
  { intros v p H. rewrite (normalizeSummary_keywords v p H).
    destruct (match get_prop v (js "keywords") with
              | Some (JArray ks) => filter_strings ks
              | _ => []
              end); discriminate. }
  assert (Hkept : forall v p,
            normalizeSummary v = Some p ->
            let kept :=
              match get_prop v (js "keywords") with
              | Some (JArray ks) => filter_strings ks
              | _ => []
              end in
            keywords p <> []
            /\ (kept <> [] -> keywords p = kept)
            /\ (kept = [] -> keywords p = default_keywords)).
  { intros v p H. cbn zeta. split; [now apply (Hne v)|].
    rewrite (normalizeSummary_keywords v p H).
    destruct (match get_prop v (js "keywords") with
              | Some (JArray ks) => filter_strings ks
              | _ => []
              end); split; congruence. }
  split; [exact filter_strings_filter|]. split; [reflexivity|].
  split; [exact Hkept|]. split; [|split; [|split; [|split]]].
  - intros v s Hs. cbn zeta. eexists. split; [apply (normalizeSummary_value v s Hs)|].
    apply Hkept. apply (normalizeSummary_value v s Hs).
  - intros ext req w. cbn zeta.
    destruct (POST_rows ext req w)
      as [Hsame|(uid & auto & raw & p & row & _ & _ & Hp & _ & Hrows & _ & _ & _
                 & _ & Hkw & _)]; [now left|].
    right. destruct (parseSummary_normalized ext raw p Hp) as [v Hv].
    exists v, p, row. repeat split; try assumption. now apply (Hne v).
  - intros ext req w uid auto Hk Hc Hu Hai Hok pdfText Hreach w'.
    destruct (POST_answered ext req w uid auto Hk Hc Hu Hai Hok Hreach)
      as (before & last & r & Hcalls & Hr & Hend).
    exists before, last, r. split; [exact Hcalls|]. split; [exact Hr|].
    intros v s Hv Hs. cbn zeta.
    rewrite (parseSummary_value ext _ v Hv), (normalizeSummary_value v s Hs)
      in Hend.
    cbv zeta in Hend. destruct Hend as [Hout Hdb].
    eexists. split; [exact Hout|]. subst w'. rewrite Hdb.
    cbn [with_row Db.summaries new_row Db.keywords keywords].
    rewrite user_upsert_summaries. split; reflexivity.
  - intros answer Hin.
    assert (Hp : parseSummary (Demo.ext true answer) answer
                 = Some {| title := None; summary := js "s";
                           keywords := default_keywords |}).
    { destruct Hin as [<-|[<-|[]]]; vm_compute; reflexivity. }
    destruct (demo_stored true answer 5 0 _ [] Hp
                (or_introl (demo_reaches true answer 4 0))) as [Hout Hrows].
    eexists. split; [exact Hout|]. split; [exact Hrows|]. reflexivity.
  - assert (Hp : parseSummary (Demo.ext true Answers.mixed_keywords)
                   Answers.mixed_keywords
                 = Some {| title := None; summary := js "s";
                           keywords := [js "a"; js "b"] |})
      by (vm_compute; reflexivity).
    destruct (demo_stored true Answers.mixed_keywords 5 0 _ [] Hp
                (or_introl (demo_reaches true Answers.mixed_keywords 4 0)))
      as [_ Hrows].
    eexists. split; [exact Hrows|]. reflexivity.
Qed.

Lemma stored_title_cases (t : option js_string) :
  let stored :=
    match t with
    | Some t => if truthy (slice t 0 140) then slice t 0 140 else default_title
    | None => default_title
    end in
  stored <> []
  /\ Js.length stored <= 140
  /\ stored = match t with
              | Some (c :: r) => firstn 140 (c :: r)
              | _ => default_title
              end.
Proof.
  assert (Hd : default_title <> [] /\ Js.length default_title <= 140).
  { split; [discriminate | vm_compute; discriminate]. }
  cbv zeta. destruct t as [[|c r]|].
  - cbn [slice firstn skipn truthy]. split; [apply Hd|]. split; [apply Hd|].
    reflexivity.
  - rewrite slice_prefix by lia. change (Z.to_nat 140) with (S 139).
    assert (Hne : firstn (S 139) (c :: r) <> [])
      by (rewrite firstn_cons; discriminate).
    apply truthy_true in Hne as Htr. rewrite Htr.
    split; [exact Hne|]. split; [|reflexivity].
    unfold Js.length. rewrite length_firstn. lia.
  - split; [apply Hd|]. split; [apply Hd|]. reflexivity.
Qed.

(** C9. Every summary [POST] stores has a title that is not empty and has
    at most 140 characters. The title of a parsed answer is its [title]
    member when that is a string. When a request reaches a model that
    answers, and the answer to the last call parses to a value with a
    string [summary], [POST] stores one row whose title is the default
    title when the value has no string title or an empty one, and else the
    first 140 characters of that title. An answer without a title, or with
    the title [""], is stored under the default title; one with a title of
    150 letters under its first 140. *)
Theorem stored_title_never_empty :
  (forall (ext : Ext) (req : Request) (w : World),
     let w' := snd (POST ext req w) in
     Db.summaries (db w') = Db.summaries (db w)
     \/ exists raw p row,
          parseSummary ext raw = Some p
          /\ Db.summaries (db w') = Db.summaries (db w) ++ [row]
          /\ Db.title row <> []
          /\ Js.length (Db.title row) <= 140
          /\ (title p = None \/ title p = Some [] -> Db.title row = default_title)
          /\ (forall t, title p = Some t -> t <> [] ->
                Db.title row = firstn 140 t))
  /\ (forall (v : Json) (p : SummaryJSON),
        normalizeSummary v = Some p ->
        title p = match get_prop v (js "title") with
                  | Some (JString t) => Some t
                  | _ => None
                  end)
  /\ (forall (ext : Ext) (req : Request) (w : World) (uid : js_string)
             (auto : list Image),
        falsy (GEMINI_API_KEY ext) = false ->
        caller req = Some uid -> truthy uid = true ->
        answers ext -> compressible ext (firstn 4 (form_images req)) ->
        let pdfText := extractedText ext (form_pdf req) in
        (auto = []
         /\ (form_images req <> []
             \/ (form_pdf req <> None /\ trim pdfText <> [])))
        \/ (exists f,
              form_pdf req = Some f /\ form_images req = []
              /\ trim pdfText = []
              /\ pdfBufferToJpegPagesBase64 ext (arrayBuffer f) 2 = Ok auto) ->
        let w' := snd (POST ext req w) in
        exists before last r,
          model_calls w' = model_calls w ++ before ++ [last]
          /\ generateContent ext
               (List.length (model_calls w) + List.length before) last = Ok r
          /\ forall v s,
               JSON_parse ext (response_text r) = Ok v
               \/ (exists e sliced,
                     JSON_parse ext (response_text r) = Throw e
                     /\ extractJson (response_text r) = Some sliced
                     /\ JSON_parse ext sliced = Ok v) ->
               get_prop v (js "summary") = Some (JString s) ->
               exists row,
                 fst (POST ext req w)
                 = Returns (NextResponse_json (saved_body row) 200)
                 /\ Db.summaries (db w') = Db.summaries (db w) ++ [row]
                 /\ Db.title row <> []
                 /\ Js.length (Db.title row) <= 140
                 /\ Db.title row
                    = match get_prop v (js "title") with
                      | Some (JString (c :: t)) => firstn 140 (c :: t)
                      | _ => default_title
                      end)
  /\ (forall answer,
        In answer [Answers.no_keywords; Answers.empty_title] ->
        exists row,
          fst (POST (Demo.ext true answer) (Demo.request 5 0) (Demo.world []))
          = Returns (NextResponse_json (saved_body row) 200)
          /\ Db.summaries
               (db (snd (POST (Demo.ext true answer) (Demo.request 5 0)
                           (Demo.world []))))
             = [row]
          /\ Db.title row = js "Akademik Özet")
  /\ (exists row,
        Db.summaries
          (db (snd (POST (Demo.ext true Answers.long_title)
                      (Demo.request 5 0) (Demo.world []))))
        = [row]
        /\ Db.title row = repeat 98%N 140).
Proof.
  assert (Htitle : forall v p,
            normalizeSummary v = Some p ->
            title p = match get_prop v (js "title") with
                      | Some (JString t) => Some t
                      | _ => None
                      end).
  { intros v p Hp.
    assert (Hs : normalizeSummary v <> None) by congruence.
    apply normalizeSummary_usable in Hs as [s Hs].
    rewrite (normalizeSummary_value v s Hs) in Hp. now injection Hp as <-. }
  split; [|split; [exact Htitle|split; [|split]]].
  - intros ext req w. cbn zeta.
    destruct (POST_rows ext req w)
      as [Hsame|(uid & auto & raw & p & row & _ & _ & Hp & _ & Hrows & _ & _ & Ht
                 & _)]; [now left|].
    right. exists raw, p, row. split; [assumption|]. split; [assumption|].
    destruct (stored_title_cases (title p)) as (Hne & Hlen & Hcase).
    cbv zeta in *. rewrite Ht. split; [exact Hne|]. split; [exact Hlen|].
    rewrite Hcase. split.
    + intros [->| ->]; reflexivity.
    + intros t -> Hnt. destruct t; [now destruct Hnt | reflexivity].
  - intros ext req w uid auto Hk Hc Hu Hai Hok pdfText Hreach w'.
    destruct (POST_answered ext req w uid auto Hk Hc Hu Hai Hok Hreach)
      as (before & last & r & Hcalls & Hr & Hend).
    exists before, last, r. split; [exact Hcalls|]. split; [exact Hr|].
    intros v s Hv Hs.
    rewrite (parseSummary_value ext _ v Hv), (normalizeSummary_value v s Hs)
      in Hend.
    cbv zeta in Hend. destruct Hend as [Hout Hdb].
    eexists. split; [exact Hout|]. subst w'. rewrite Hdb.
    cbn [with_row Db.summaries new_row Db.title title].
    rewrite user_upsert_summaries. split; [reflexivity|].
    destruct (stored_title_cases
                match get_prop v (js "title") with
                | Some (JString t) => Some t
                | _ => None
                end) as (Hne & Hlen & Hcase).
    cbv zeta in *. split; [exact Hne|]. split; [exact Hlen|].
    rewrite Hcase.
    now destruct (get_prop v (js "title")) as [[| | |[|c t]| |]|].
  - intros answer Hin.
    assert (Hp : exists t,
               parseSummary (Demo.ext true answer) answer
               = Some {| title := t; summary := js "s";
                         keywords := default_keywords |}
               /\ (t = None \/ t = Some [])).
    { destruct Hin as [<-|[<-|[]]].
      - exists None. split; [vm_compute; reflexivity | now left].
      - exists (Some []). split; [vm_compute; reflexivity | now right]. }
    destruct Hp as (t & Hp & Ht).
    destruct (demo_stored true answer 5 0 _ [] Hp
                (or_introl (demo_reaches true answer 4 0))) as [Hout Hrows].
    eexists. split; [exact Hout|]. split; [exact Hrows|].
    destruct Ht as [-> | ->]; reflexivity.
  - assert (Hp : parseSummary (Demo.ext true Answers.long_title)
                   Answers.long_title
                 = Some {| title := Some (repeat 98%N 150); summary := js "s";
                           keywords := default_keywords |})
      by (vm_compute; reflexivity).
    destruct (demo_stored true Answers.long_title 5 0 _ [] Hp
                (or_introl (demo_reaches true Answers.long_title 4 0)))
      as [_ Hrows].
    eexists. split; [exact Hrows|]. vm_compute. reflexivity.
Qed.

Lemma one_call {A} (xs before : list A) (last parts : A) :
  xs ++ before ++ [last] = xs ++ [parts] -> before = [] /\ last = parts.
Proof.
  intros H. apply app_inv_head in H. destruct before as [|b [|b' bs]].
  - now injection H.
  - discriminate.
  - discriminate.
Qed.

(** C10. When [POST] stores a summary for a request with uploaded images,
    the stored [imageCount] is the number of uploaded images, however many,
    while the one model call made carries only the first four of them. With
    no uploaded image the count is the number of pages rasterized for the
    call: the one or two pages of a PDF without text, all carried by the
    call, and 0 for a PDF with text, which is not rasterized. When the
    request reaches a model that answers and the answer to the last call
    parses, the row with that count is stored. A request with five images
    is stored with the count 5 after a call that carried 4, and a scanned
    PDF of three pages with the count 2 after a call that carried 2. *)
Theorem imageCount_is_upload_count :
  (forall (ext : Ext) (req : Request) (w : World) (uid : js_string)
          (row : Db.Summary),
     falsy (GEMINI_API_KEY ext) = false ->
     caller req = Some uid -> truthy uid = true ->
     compressible ext (firstn 4 (form_images req)) ->
     let w' := snd (POST ext req w) in
     let pdfText := extractedText ext (form_pdf req) in
     Db.summaries (db w') = Db.summaries (db w) ++ [row] ->
     (form_images req <> [] ->
      Db.imageCount row = Some (len (form_images req))
      /\ exists parts,
           model_calls w' = model_calls w ++ [parts]
           /\ images_in parts = Z.min 4 (len (form_images req)))
     /\ (form_images req = [] -> trim pdfText <> [] ->
         Db.imageCount row = Some 0
         /\ raster_calls w' = raster_calls w)
     /\ (form_images req = [] -> trim pdfText = [] ->
         exists f auto,
           form_pdf req = Some f
           /\ pdfBufferToJpegPagesBase64 ext (arrayBuffer f) 2 = Ok auto
           /\ 1 <= len auto <= 2
           /\ Db.imageCount row = Some (len auto)
           /\ raster_calls w' = raster_calls w ++ [arrayBuffer f]
           /\ exists parts,
                model_calls w' = model_calls w ++ [parts]
                /\ images_in parts = len auto))
  /\ (forall (ext : Ext) (req : Request) (w : World) (uid : js_string)
             (auto : list Image),
        falsy (GEMINI_API_KEY ext) = false ->
        caller req = Some uid -> truthy uid = true ->
        answers ext -> compressible ext (firstn 4 (form_images req)) ->
        let pdfText := extractedText ext (form_pdf req) in
        (auto = []
         /\ (form_images req <> []
             \/ (form_pdf req <> None /\ trim pdfText <> [])))
        \/ (exists f,
              form_pdf req = Some f /\ form_images req = []
              /\ trim pdfText = []
              /\ pdfBufferToJpegPagesBase64 ext (arrayBuffer f) 2 = Ok auto) ->
        let w' := snd (POST ext req w) in
        exists before last r,
          model_calls w' = model_calls w ++ before ++ [last]
          /\ generateContent ext
               (List.length (model_calls w) + List.length before) last = Ok r
          /\ (form_images req <> [] \/ auto <> [] ->
              before = []
              /\ images_in last = Z.min 4 (len (form_images req)) + len auto)
          /\ forall p,
               parseSummary ext (response_text r) = Some p ->
               exists row,
                 fst (POST ext req w)
                 = Returns (NextResponse_json (saved_body row) 200)
                 /\ Db.summaries (db w') = Db.summaries (db w) ++ [row]
                 /\ Db.imageCount row
                    = Some (if 0 <? len (form_images req)
                            then len (form_images req) else len auto))
  /\ (let ext := Demo.ext true Demo.wrapped_answer in
      let req := Demo.request 5 5 in
      let w := Demo.world [] in
      exists row parts,
        Db.summaries (db (snd (POST ext req w))) = [row]
        /\ model_calls (snd (POST ext req w)) = [parts]
        /\ len (form_images req) = 5
        /\ Db.imageCount row = Some 5
        /\ images_in parts = 4)
  /\ (let ext := Demo.ext true Demo.wrapped_answer in
      let req := Demo.request 0 0 in
      let w := Demo.world [] in
      exists row parts,
        sharp_pdf_pages ext (arrayBuffer (Demo.file 0)) = Ok (Some 3)
        /\ Db.summaries (db (snd (POST ext req w))) = [row]
        /\ model_calls (snd (POST ext req w)) = [parts]
        /\ Db.imageCount row = Some 2
        /\ images_in parts = 2).
Proof.
  split; [|split; [|split]].
  - intros ext req w uid row Hk Hc Hu Hok w' pdfText Hrows. subst w'.
    destruct (POST_ends ext req w)
      as [(Hk' & _)|[(_ & Hc' & _)|(uid' & _ & Hc' & _ & H)]].
    { congruence. }
    { rewrite Hc in Hc'. cbn in Hc'. rewrite Hu in Hc'. discriminate. }
    rewrite Hc in Hc'. injection Hc' as <-. cbv zeta in H. fold pdfText in H.
    assert (Hsame : Db.summaries (db (snd (POST ext req w)))
                    = Db.summaries (db w) -> False).
    { intros E. rewrite E in Hrows. symmetry in Hrows.
      now apply app_one_neq in Hrows. }
    destruct H as [(_ & _ & E)|[(f & e & _ & _ & _ & _ & E)
                                |(auto & calls & Hauto & Hcalls & H)]].
    { exfalso. apply Hsame. rewrite E. apply user_upsert_summaries. }
    { exfalso. apply Hsame. rewrite E. apply user_upsert_summaries. }
    destruct H as [(e & _ & E & _)|[(raw & _ & _ & E & _)
                                   |(raw & p & _ & _ & E & _)]].
    { exfalso. apply Hsame. rewrite E. apply user_upsert_summaries. }
    { exfalso. apply Hsame. rewrite E. apply user_upsert_summaries. }
    rewrite E in Hrows. cbn [with_row Db.summaries db with_db] in Hrows.
    rewrite user_upsert_summaries in Hrows. apply app_one_inv in Hrows.
    assert (Hcount : Db.imageCount row
                     = Some (if 0 <? len (form_images req)
                             then len (form_images req) else len auto))
      by (rewrite <- Hrows; reflexivity).
    split; [|split].
    + intros Hi. split.
      * rewrite Hcount. destruct (form_images req); [congruence|reflexivity].
      * apply (POST_single_direct ext req w uid Hk Hc Hu Hok). now left.
    + intros Hi Ht. rewrite Hi in Hcount.
      destruct Hauto as [(-> & Hr & _)|(f & _ & _ & Ht' & _)];
        [|contradiction].
      split; [exact Hcount | exact Hr].
    + intros Hi Ht.
      destruct Hauto as [(_ & _ & [Hn|[_ Hn]])|(f & Hp & _ & _ & Hr & Hlen & Hrc)];
        [contradiction | contradiction |].
      exists f, auto. rewrite Hi in Hcount.
      split; [exact Hp|]. split; [exact Hr|]. split; [exact Hlen|].
      split; [exact Hcount|]. split; [exact Hrc|].
      apply (POST_single_rasterized ext req w uid Hk Hc Hu f auto Hp Hi Ht Hr).
  - intros ext req w uid auto Hk Hc Hu Hai Hok pdfText Hreach w'.
    destruct (POST_answered ext req w uid auto Hk Hc Hu Hai Hok Hreach)
      as (before & last & r & Hcalls & Hr & Hend).
    exists before, last, r. split; [exact Hcalls|]. split; [exact Hr|]. split.
    + intros Hany. subst w'.
      destruct Hreach as [(-> & Hcase)|(f & Hp & Hi & Ht & Hras)].
      * destruct Hany as [Hi|Hn]; [|now destruct Hn].
        destruct (POST_single_direct ext req w uid Hk Hc Hu Hok (or_introl Hi))
          as (parts & Hparts & Himg).
        rewrite Hparts in Hcalls. symmetry in Hcalls.
        apply one_call in Hcalls as [-> ->]. split; [reflexivity|].
        rewrite Himg. cbn. lia.
      * destruct (POST_single_rasterized ext req w uid Hk Hc Hu f auto
                    Hp Hi Ht Hras) as (parts & Hparts & Himg).
        rewrite Hparts in Hcalls. symmetry in Hcalls.
        apply one_call in Hcalls as [-> ->]. split; [reflexivity|].
        rewrite Himg, Hi. cbn. lia.
    + intros p Hp. rewrite Hp in Hend. cbv zeta in Hend.
      destruct Hend as [Hout Hdb].
      eexists. split; [exact Hout|]. subst w'. rewrite Hdb.
      cbn [with_row Db.summaries new_row Db.imageCount].
      rewrite user_upsert_summaries. split; reflexivity.
  - cbn zeta.
    eexists _, _. split; [vm_compute; reflexivity|].
    split; [vm_compute; reflexivity|]. repeat split.
  - cbn zeta.
    eexists _, _. split; [reflexivity|]. split; [vm_compute; reflexivity|].
    split; [vm_compute; reflexivity|]. repeat split.
Qed.

(** Five uploaded images: the count stored is 5, the call carries 4. *)
Lemma imageCount_is_upload_count_witness :
  let ext := Demo.ext true Demo.wrapped_answer in
  let req := Demo.request 5 5 in
  let w := Demo.world [] in
  exists row,
    Db.summaries (db (snd (POST ext req w))) = Db.summaries (db w) ++ [row]
    /\ Db.imageCount row = Some (len (form_images req))
    /\ exists parts,
         model_calls (snd (POST ext req w)) = model_calls w ++ [parts]
         /\ images_in parts = Z.min 4 (len (form_images req)).
Proof.
  cbn zeta.
  assert (Hok : compressible (Demo.ext true Demo.wrapped_answer)
                  (firstn 4 (form_images (Demo.request 5 5)))).
  { intros img _. eexists. reflexivity. }
  let rows := eval vm_compute in
    (Db.summaries (db (snd (POST (Demo.ext true Demo.wrapped_answer)
                              (Demo.request 5 5) (Demo.world []))))) in
  match rows with
  | [?row] => exists row
  end.
  assert (Hrow : Db.summaries
                   (db (snd (POST (Demo.ext true Demo.wrapped_answer)
                               (Demo.request 5 5) (Demo.world []))))
                 = Db.summaries (db (Demo.world [])) ++ _)
    by (vm_compute; reflexivity).
  split; [exact Hrow|].
  apply (proj1 (proj1 imageCount_is_upload_count
           (Demo.ext true Demo.wrapped_answer) (Demo.request 5 5)
           (Demo.world []) (js "u1") _ eq_refl eq_refl eq_refl Hok Hrow)).
  discriminate.
Defined.

(* ------------------------------------------------------------------ *)
(** ** [POST] as its callers see it *)

Lemma error_body_shape (msg : js_string) :
  Page.isErrResponse (error_body msg) = true
  /\ Page.isOkResponse (error_body msg) = false.
Proof. split; reflexivity. Qed.

Lemma saved_body_shape (row : Db.Summary) :
  Page.isOkResponse (saved_body row) = true
  /\ Page.isErrResponse (saved_body row) = false.
Proof. split; reflexivity. Qed.

Lemma no_json_shape (raw : js_string) :
  Page.isErrResponse (body (no_json_response raw)) = true
  /\ Page.isOkResponse (body (no_json_response raw)) = false.
Proof. split; reflexivity. Qed.

(** X6. [POST] always answers, in a shape the page can read. Whatever the
    collaborators do, the handler returns a response: it never throws and
    its loops end. The status is 200, 400, 401 or 500; the body of a 200 is
    what the page's [isOkResponse] accepts, every other body is what its
    [isErrResponse] accepts; and no status is one [fetchWithRetry] tries
    again. *)
Theorem POST_always_answers (ext : Ext) (req : Request) (w : World) :
  exists resp,
    fst (POST ext req w) = Returns resp
    /\ (status resp = 200 \/ status resp = 400 \/ status resp = 401
        \/ status resp = 500)
    /\ Page.isOkResponse (body resp) = (status resp =? 200)
    /\ Page.isErrResponse (body resp) = negb (status resp =? 200)
    /\ wants_retry (Ok {| Page.res_status := status resp |}) = false.
Proof.
  destruct (POST_ends ext req w)
    as [(_ & ->)|[(_ & _ & ->)|(uid & _ & _ & _ & H)]].
  1,2: eexists; split; [reflexivity|]; cbn; repeat split; tauto.
  cbv zeta in H.
  destruct H as [(_ & _ & ->)|[(f & e & _ & _ & _ & _ & ->)
                              |(auto & calls & _ & _ & H)]].
  1,2: eexists; split; [reflexivity|]; cbn; repeat split; tauto.
  destruct H as [(e & -> & _)|[(raw & _ & -> & _)|(raw & p & _ & -> & _)]].
  - eexists. split; [reflexivity|]. unfold server_error.
    cbn [status body NextResponse_json].
    destruct (error_body_shape match message e with
                               | Some msg => msg
                               | None => js "Server error"
                               end) as [-> ->].
    repeat split; tauto.
  - eexists. split; [reflexivity|].
    destruct (no_json_shape raw) as [-> ->]. cbn. repeat split; tauto.
  - eexists. split; [reflexivity|]. cbn [status body NextResponse_json].
    destruct (saved_body_shape
                (new_row ext uid (form_pdf req) (form_images req) auto
                   (extractedText ext (form_pdf req)) p
                   (db (with_db w (Db.user_upsert uid (db w))))))
      as [-> ->].
    cbn. repeat split; tauto.
Qed.

Lemma user_upsert_users (uid : js_string) (st : Db.Store) :
  In uid (Db.users (Db.user_upsert uid st))
  /\ (In uid (Db.users st) -> Db.user_upsert uid st = st)
  /\ (~ In uid (Db.users st) ->
      Db.users (Db.user_upsert uid st) = Db.users st ++ [uid])
  /\ (NoDup (Db.users st) -> NoDup (Db.users (Db.user_upsert uid st))).
Proof.
  unfold Db.user_upsert.
  destruct (existsb (Js.eqb uid) (Db.users st)) eqn:E.
  - apply existsb_exists in E as (x & Hx & Heq). apply js_eqb_eq in Heq.
    subst x. repeat split; tauto.
  - assert (Hn : ~ In uid (Db.users st)).
    { intros Hin. assert (existsb (Js.eqb uid) (Db.users st) = true); [|congruence].
      apply existsb_exists. exists uid. split; [exact Hin | apply js_eqb_refl]. }
    cbn [Db.users]. split; [apply in_or_app; right; now left|].
    split; [tauto|]. split; [reflexivity|].
    intros Hnd. apply NoDup_app; [exact Hnd | repeat constructor; intros [] |].
    intros x Hx [<-|[]]. contradiction.
Qed.

(** X7. Who gets a [User] row, and when. A request without the API key or
    without a caller changes nothing at all, and the missing key is
    reported (500) also when the caller is missing too. Past the two
    guards the caller has a [User] row when [POST] ends, however it ends:
    the row is added if it was not there, no row is lost or doubled. An
    empty form is turned away with 400 only after that row is written. *)
Theorem POST_registers_caller (ext : Ext) (req : Request) (w : World) :
  let w' := snd (POST ext req w) in
  (falsy (GEMINI_API_KEY ext) = true ->
   POST ext req w
   = (Returns (NextResponse_json (error_body msg_no_key) 500), w))
  /\ (falsy (GEMINI_API_KEY ext) = false -> falsy (caller req) = true ->
      POST ext req w
      = (Returns (NextResponse_json (error_body msg_unauthorized) 401), w))
  /\ (forall uid,
        falsy (GEMINI_API_KEY ext) = false ->
        caller req = Some uid -> truthy uid = true ->
        Db.users (db w') = Db.users (Db.user_upsert uid (db w))
        /\ In uid (Db.users (db w'))
        /\ (In uid (Db.users (db w)) -> Db.users (db w') = Db.users (db w))
        /\ (~ In uid (Db.users (db w)) ->
            Db.users (db w') = Db.users (db w) ++ [uid])
        /\ (NoDup (Db.users (db w)) -> NoDup (Db.users (db w')))
        /\ (form_pdf req = None -> form_images req = [] ->
            POST ext req w
            = (Returns (NextResponse_json (error_body msg_no_input) 400),
               with_db w (Db.user_upsert uid (db w))))).
Proof.
  intros w'. split; [|split].
  - intros Hk. unfold POST. now rewrite Hk.
  - intros Hk Hc. unfold POST. rewrite Hk.
    destruct (caller req) as [u|]; [|reflexivity].
    cbn in Hc. now rewrite Hc.
  - intros uid Hk Hc Hu.
    assert (Husers : Db.users (db w') = Db.users (Db.user_upsert uid (db w))).
    { subst w'.
      destruct (POST_ends ext req w)
        as [(Hk' & _)|[(_ & Hc' & _)|(uid' & _ & Hc' & _ & H)]].
      - congruence.
      - rewrite Hc in Hc'. cbn in Hc'. rewrite Hu in Hc'. discriminate.
      - rewrite Hc in Hc'. injection Hc' as <-. cbv zeta in H.
        destruct H as [(_ & _ & ->)|[(f & e & _ & _ & _ & _ & ->)
                                    |(auto & calls & _ & _ & H)]];
          [reflexivity | reflexivity |].
        destruct H as [(e & _ & -> & _)|[(raw & _ & _ & -> & _)
                                        |(raw & p & _ & _ & -> & _)]];
          reflexivity. }
    destruct (user_upsert_users uid (db w)) as (Hin & Hold & Hnew & Hnd).
    rewrite Husers. split; [reflexivity|]. split; [exact Hin|].
    split; [intros H; now rewrite (Hold H)|]. split; [exact Hnew|].
    split; [exact Hnd|].
    intros Hp Hi. rewrite (POST_guarded ext req uid w Hk Hc Hu).
    unfold try_catch, summarizeFor, bind.
    now rewrite ensureUserRow_run, Hp, Hi.
Qed.

(** X8. [POST] stores exactly what it answers with. A 200 means one row
    was appended to the summaries, and the body shows that row: it belongs
    to the caller, carries the time and id the datastore gave, the whole
    extracted text and the name of the PDF. Any other status means the
    summaries are as they were. *)
Theorem POST_stores_what_it_answers (ext : Ext) (req : Request) (w : World) :
  let w' := snd (POST ext req w) in
  exists resp,
    fst (POST ext req w) = Returns resp
    /\ ((status resp <> 200 /\ Db.summaries (db w') = Db.summaries (db w))
        \/ (exists row uid,
              resp = NextResponse_json (saved_body row) 200
              /\ Db.summaries (db w') = Db.summaries (db w) ++ [row]
              /\ caller req = Some uid
              /\ Db.userId row = uid
              /\ Db.id row = cuid ext (Db.user_upsert uid (db w))
              /\ Db.createdAt row = now ext
              /\ Db.inputText row = Some (extractedText ext (form_pdf req))
              /\ Db.pdfName row = option_map name (form_pdf req))).
Proof.
  intros w'. subst w'.
  destruct (POST_ends ext req w)
    as [(_ & ->)|[(_ & _ & ->)|(uid & _ & Hc & _ & H)]].
  1,2: eexists; split; [reflexivity|]; left; split; [discriminate | reflexivity].
  cbv zeta in H.
  destruct H as [(_ & _ & ->)|[(f & e & _ & _ & _ & _ & ->)
                              |(auto & calls & _ & _ & H)]].
  1,2: eexists; (split; [reflexivity|]); left; (split; [discriminate|]);
       apply user_upsert_summaries.
  destruct H as [(e & Ho & Hdb & _)|[(raw & _ & Ho & Hdb & _)
                                    |(raw & p & _ & Ho & Hdb & _)]];
    rewrite Ho, Hdb; eexists; (split; [reflexivity|]).
  - left. split; [discriminate | apply user_upsert_summaries].
  - left. split; [discriminate | apply user_upsert_summaries].
  - right. eexists; exists uid. split; [reflexivity|].
    cbn [with_row Db.summaries db with_db].
    rewrite user_upsert_summaries. now repeat split.
Qed.

Lemma keywords_round_trip (ks : list js_string) :
  filter_strings (map JString ks) = ks.
Proof. induction ks as [|k ks IH]; cbn; congruence. Qed.

(** X9. Keywords survive the trip to the page. A list of strings stored as
    a JSON array is read back unchanged, by the handler's
    [normalizeKeywordsFromJson] and by the page's [normalizeKeywords],
    which agree on every value. So for a row [POST] stores, the answer
    carries the stored array as it is, the history listing carries the same
    array, and from either the page shows the same list, which is not
    empty. *)
Theorem keywords_read_back :
  (forall v, Page.normalizeKeywords v = normalizeKeywordsFromJson v)
  /\ (forall ks, normalizeKeywordsFromJson (JArray (map JString ks)) = ks)
  /\ (forall (ext : Ext) (req : Request) (w : World),
        let w' := snd (POST ext req w) in
        Db.summaries (db w') = Db.summaries (db w)
        \/ exists row ks data,
             Db.summaries (db w') = Db.summaries (db w) ++ [row]
             /\ fst (POST ext req w)
                = Returns (NextResponse_json (saved_body row) 200)
             /\ ks <> []
             /\ Db.keywords row = JArray (map JString ks)
             /\ get_prop (saved_body row) (js "data") = Some data
             /\ get_prop data (js "keywords") = Some (Db.keywords row)
             /\ get_prop (history_item row) (js "keywords")
                = Some (Db.keywords row)
             /\ Page.normalizeKeywords (Db.keywords row) = ks).
Proof.
  split; [reflexivity|]. split; [exact keywords_round_trip|].
  intros ext req w w'. subst w'.
  destruct (POST_rows ext req w)
    as [H|(uid & auto & raw & p & row & _ & _ & Hp & Hout & Hrows & _ & _ & _
           & _ & Hkw & _)]; [now left|].
  right. exists row, (keywords p).
  exists (JObject [
    (js "id", JString (Db.id row));
    (js "createdAt", JString (Db.createdAt row));
    (js "source", JString (toApiSource (SummarySource_value (Db.source row))));
    (js "title", JString (Db.title row));
    (js "summary", JString (Db.summary row));
    (js "keywords",
     JArray (map JString (normalizeKeywordsFromJson (Db.keywords row))));
    (js "pdfName", opt_string_json (Db.pdfName row));
    (js "imageCount", opt_number_json (Db.imageCount row))
  ]).
  split; [exact Hrows|]. split; [exact Hout|]. split.
  { destruct (parseSummary_normalized ext raw p Hp) as (v & Hv).
    rewrite (normalizeSummary_keywords v p Hv).
    destruct (match get_prop v (js "keywords") with
              | Some (JArray ks) => filter_strings ks
              | _ => []
              end); discriminate. }
  split; [exact Hkw|]. split; [reflexivity|]. split.
  { rewrite Hkw. cbn [normalizeKeywordsFromJson].
    rewrite keywords_round_trip. reflexivity. }
  split; [reflexivity|].
  rewrite Hkw. apply keywords_round_trip.
Qed.

(** X10. Why [POST] answers 400. It does so in two cases only, both past
    the key and caller guards: the form holds neither a PDF nor an image,
    or it holds a PDF without text and no image and the rasterizer throws.
    In both no model call was made and no summary stored. The handler's
    third 400, for a rasterizer that gives no page, is never sent: a
    rasterization that succeeds gives one or two pages. *)
Theorem POST_bad_request (ext : Ext) (req : Request) (w : World) :
  let w' := snd (POST ext req w) in
  let turned_away :=
    exists uid,
      falsy (GEMINI_API_KEY ext) = false
      /\ caller req = Some uid /\ truthy uid = true
      /\ form_images req = []
      /\ (form_pdf req = None
          \/ exists f e,
               form_pdf req = Some f
               /\ trim (extractedText ext (Some f)) = []
               /\ pdfBufferToJpegPagesBase64 ext (arrayBuffer f) 2 = Throw e) in
  (forall buf pages,
     pdfBufferToJpegPagesBase64 ext buf 2 = Ok pages -> 1 <= len pages <= 2)
  /\ exists resp,
       fst (POST ext req w) = Returns resp
       /\ (status resp = 400 <-> turned_away)
       /\ (status resp = 400 ->
           model_calls w' = model_calls w
           /\ Db.summaries (db w') = Db.summaries (db w)
           /\ (resp = NextResponse_json (error_body msg_no_input) 400
               /\ form_pdf req = None
               \/ resp = NextResponse_json (error_body msg_scanned_failed) 400
                  /\ form_pdf req <> None))
       /\ resp <> NextResponse_json (error_body msg_scanned_empty) 400.
Proof.
  intros w' turned_away. split; [exact (rasterized_pages ext)|]. subst w'.
  destruct (POST_ends ext req w)
    as [(Hk & ->)|[(Hk & Hc & ->)|(uid & Hk & Hc & Hu & H)]].
  - eexists. split; [reflexivity|]. cbn [status NextResponse_json fst snd].
    split; [split; [discriminate|]|split; discriminate].
    intros (u & Hk' & _). congruence.
  - eexists. split; [reflexivity|]. cbn [status NextResponse_json fst snd].
    split; [split; [discriminate|]|split; discriminate].
    intros (u & _ & Hc' & Hu' & _). rewrite Hc' in Hc. cbn in Hc.
    rewrite Hu' in Hc. discriminate.
  - cbv zeta in H.
    destruct H as [(Hp & Hi & ->)|[(f & e & Hp & Hi & Ht & Hr & ->)
                                  |(auto & calls & Hauto & Hcalls & H)]].
    + eexists. split; [reflexivity|].
      cbn [status NextResponse_json fst snd model_calls db with_db].
      split; [split; [intros _|reflexivity]|split].
      * exists uid. repeat split; try assumption. now left.
      * intros _. split; [reflexivity|].
        split; [apply user_upsert_summaries|]. left. now split.
      * intros E. now inversion E.
    + eexists. split; [reflexivity|].
      cbn [status NextResponse_json fst snd model_calls db with_db with_raster].
      rewrite Hp in Ht.
      split; [split; [intros _|reflexivity]|split].
      * exists uid. repeat split; try assumption. right. now exists f, e.
      * intros _. split; [reflexivity|].
        split; [apply user_upsert_summaries|]. right.
        split; [reflexivity | congruence].
      * intros E. now inversion E.
    + assert (Hnot : ~ turned_away).
      { intros (u & _ & _ & _ & Hi & Hform).
        destruct Hauto as [(_ & _ & [Hn|[Hn Ht]])|(f & Hp & _ & Ht & Hr & _)].
        - contradiction.
        - destruct Hform as [Hp|(f & e & Hp & Ht' & _)]; [contradiction|].
          rewrite Hp in Ht. contradiction.
        - destruct Hform as [Hp'|(f' & e & Hp' & _ & Hr')]; [congruence|].
          rewrite Hp in Hp'. injection Hp' as <-. congruence. }
      destruct H as [(e & Ho & _)|[(raw & _ & Ho & _)|(raw & p & _ & Ho & _)]];
        rewrite Ho; eexists; (split; [reflexivity|]);
        cbn [status NextResponse_json server_error no_json_response];
        (split; [split; [discriminate | intros Ht; now destruct Hnot]|]);
        split; discriminate.
Qed.


(* ------------------------------------------------------------------ *)
(** ** [DELETE], again *)

Lemma filter_twice {A} (f : A -> bool) (xs : list A) :
  filter f (filter (fun x => negb (f x)) xs) = []
  /\ filter (fun x => negb (f x)) (filter (fun x => negb (f x)) xs)
     = filter (fun x => negb (f x)) xs.
Proof.
  induction xs as [|x xs [IH1 IH2]]; [now split|]. cbn [filter].
  destruct (f x) eqn:E; cbn [negb filter]; [now split|].
  rewrite E. cbn [negb]. now rewrite IH1, IH2.
Qed.

Lemma filter_nothing {A} (f : A -> bool) (xs : list A) :
  filter f xs = [] -> filter (fun x => negb (f x)) xs = xs.
Proof.
  induction xs as [|x xs IH]; [reflexivity|]. cbn [filter].
  destruct (f x); [discriminate|]. cbn [negb]. intros H. now rewrite IH.
Qed.

Lemma filter_split_length {A} (f : A -> bool) (xs : list A) :
  (List.length (filter f xs) + List.length (filter (fun x => negb (f x)) xs)
   = List.length xs)%nat.
Proof.
  induction xs as [|x xs IH]; [reflexivity|]. cbn [filter].
  destruct (f x); cbn [negb List.length]; lia.
Qed.

Lemma world_eta (w : World) :
  with_db w {| Db.users := Db.users (db w);
               Db.summaries := Db.summaries (db w) |} = w.
Proof. destruct w as [[us ss] calls rs]. reflexivity. Qed.

Lemma DELETE_run (req : DeleteRequest) (uid : js_string) (w : World) :
  del_caller req = Some uid -> truthy uid = true ->
  let gone := filter (Db.matches (params_id req) uid) (Db.summaries (db w)) in
  let kept := filter (fun r => negb (Db.matches (params_id req) uid r))
                (Db.summaries (db w)) in
  DELETE req w
  = (Returns (if len gone =? 0
              then NextResponse_json
                     (JObject [(js "error", JString (js "Not found"))]) 404
              else NextResponse_json (JObject [(js "success", JBool true)]) 200),
     with_db w {| Db.users := Db.users (db w); Db.summaries := kept |}).
Proof.
  intros Hc Hu. cbv zeta. unfold DELETE. rewrite Hc, Hu. cbn [negb].
  unfold bind, on_db, Db.summary_deleteMany. cbn [fst snd]. unfold len.
  now destruct (Z.of_nat _ =? 0).
Qed.

(** X12. [DELETE] at its edges. Without a caller it answers 401 and changes
    nothing. It never touches the users, and its answers are in neither of
    the two shapes the page decodes. It answers 200 exactly when the
    summaries got fewer, and leaves the world as it was otherwise. Asked
    again with the same request it changes nothing more, and a caller who
    was answered at all is then told 404. *)
Theorem DELETE_edges (req : DeleteRequest) (w : World) :
  let w' := snd (DELETE req w) in
  (falsy (del_caller req) = true ->
   DELETE req w
   = (Returns (NextResponse_json
                 (JObject [(js "error", JString msg_unauthorized)]) 401), w))
  /\ Db.users (db w') = Db.users (db w)
  /\ model_calls w' = model_calls w
  /\ raster_calls w' = raster_calls w
  /\ (exists resp,
        fst (DELETE req w) = Returns resp
        /\ (status resp = 200 \/ status resp = 401 \/ status resp = 404)
        /\ Page.isOkResponse (body resp) = false
        /\ Page.isErrResponse (body resp) = false
        /\ (status resp = 200
            <-> len (Db.summaries (db w')) < len (Db.summaries (db w)))
        /\ (status resp <> 200 -> w' = w))
  /\ snd (DELETE req w') = w'
  /\ (falsy (del_caller req) = false ->
      fst (DELETE req w')
      = Returns (NextResponse_json
                   (JObject [(js "error", JString (js "Not found"))]) 404)).
Proof.
  intros w'. subst w'.
  assert (H401 : falsy (del_caller req) = true ->
                 DELETE req w
                 = (Returns (NextResponse_json
                               (JObject [(js "error", JString msg_unauthorized)])
                               401), w)).
  { intros Hc. unfold DELETE. destruct (del_caller req) as [u|]; [|reflexivity].
    cbn in Hc. now rewrite Hc. }
  split; [exact H401|].
  destruct (falsy (del_caller req)) eqn:Hf.
  { rewrite (H401 eq_refl). cbn [fst snd]. rewrite (H401 eq_refl).
    repeat split; try discriminate.
    eexists. split; [reflexivity|]. cbn [status body NextResponse_json].
    repeat split; try tauto; try discriminate. lia. }
  destruct (del_caller req) as [uid|] eqn:Hc; [|discriminate].
  assert (Hu : truthy uid = true).
  { cbn in Hf. now destruct (truthy uid). }
  rewrite (DELETE_run req uid w Hc Hu). cbn [fst snd].
  set (m := Db.matches (params_id req) uid).
  set (rows := Db.summaries (db w)).
  split; [reflexivity|]. split; [reflexivity|]. split; [reflexivity|].
  pose proof (filter_split_length m rows) as Hsplit.
  destruct (filter_twice m rows) as [Hgone Hkept].
  split; [|split].
  - unfold len. destruct (Z.eqb_spec (Z.of_nat (List.length (filter m rows))) 0)
      as [E|E].
    + eexists. split; [reflexivity|]. cbn [status body NextResponse_json].
      assert (filter m rows = []) as Hnone by (destruct (filter m rows);
                                               [reflexivity | cbn in E; lia]).
      rewrite (filter_nothing m rows Hnone).
      split; [tauto|]. split; [reflexivity|]. split; [reflexivity|].
      cbn [db with_db Db.summaries]. split; [split; [discriminate | lia]|].
      intros _. apply world_eta.
    + eexists. split; [reflexivity|]. cbn [status body NextResponse_json].
      split; [tauto|]. split; [reflexivity|]. split; [reflexivity|].
      cbn [db with_db Db.summaries]. split; [split; [intros _; lia | reflexivity]|].
      intros H. now destruct H.
  - rewrite (DELETE_run req uid _ Hc Hu). cbn [snd db with_db Db.summaries Db.users].
    fold m. rewrite Hkept. reflexivity.
  - intros _. rewrite (DELETE_run req uid _ Hc Hu).
    cbn [fst db with_db Db.summaries]. fold m. rewrite Hgone. reflexivity.
Qed.

(* ------------------------------------------------------------------ *)
(** ** The history listing *)

Lemma insert_desc_perm (newer : js_string -> js_string -> bool)
  (r : Db.Summary) (l : list Db.Summary) :
  Permutation (insert_desc newer r l) (r :: l).
Proof.
  induction l as [|x l IH]; cbn [insert_desc]; [reflexivity|].
  destruct (newer (Db.createdAt r) (Db.createdAt x)); [reflexivity|].
  rewrite IH. apply perm_swap.
Qed.

Lemma sort_desc_perm (newer : js_string -> js_string -> bool)
  (l : list Db.Summary) :
  Permutation (sort_desc newer l) l.
Proof.
  induction l as [|x l IH]; cbn [sort_desc fold_right]; [reflexivity|].
  fold (sort_desc newer l). rewrite insert_desc_perm. now constructor.
Qed.

Lemma insert_desc_sorted (newer : js_string -> js_string -> bool)
  (r : Db.Summary) (l : list Db.Summary) :
  total_order newer ->
  (forall a b c, newer a b = true -> newer b c = true -> newer a c = true) ->
  StronglySorted (not_older newer) l ->
  StronglySorted (not_older newer) (insert_desc newer r l).
Proof.
  intros Htot Htrans. induction l as [|x l IH]; intros Hs; cbn [insert_desc].
  - repeat constructor.
  - destruct (newer (Db.createdAt r) (Db.createdAt x)) eqn:E.
    + constructor; [exact Hs|]. constructor; [exact E|].
      apply StronglySorted_inv in Hs as [_ Hx].
      rewrite Forall_forall in *. intros y Hy. unfold not_older in *.
      eapply Htrans; [exact E | now apply Hx].
    + apply StronglySorted_inv in Hs as [Hs Hx]. constructor; [now apply IH|].
      rewrite Forall_forall in *. intros y Hy.
      apply (Permutation_in _ (insert_desc_perm newer r l)) in Hy.
      destruct Hy as [<-|Hy]; [|now apply Hx].
      unfold not_older. destruct (Htot (Db.createdAt r) (Db.createdAt x));
        congruence.
Qed.

Lemma sort_desc_sorted (newer : js_string -> js_string -> bool)
  (l : list Db.Summary) :
  total_order newer ->
  (forall a b c, newer a b = true -> newer b c = true -> newer a c = true) ->
  StronglySorted (not_older newer) (sort_desc newer l).
Proof.
  intros Htot Htrans. induction l as [|x l IH]; cbn [sort_desc fold_right].
  - constructor.
  - now apply insert_desc_sorted.
Qed.

Lemma strongly_sorted_app {A} (R : A -> A -> Prop) (a b : list A) :
  StronglySorted R (a ++ b) ->
  StronglySorted R a /\ forall x y, In x a -> In y b -> R x y.
Proof.
  induction a as [|h a IH]; cbn [app]; intros Hs.
  - split; [constructor | intros x y []].
  - apply StronglySorted_inv in Hs as [Hs Hh].
    destruct (IH Hs) as [Ha Hab]. split.
    + constructor; [exact Ha|]. rewrite Forall_forall in *.
      intros y Hy. apply Hh. apply in_or_app. now left.
    + intros x y [<-|Hx] Hy; [|now apply Hab].
      rewrite Forall_forall in Hh. apply Hh. apply in_or_app. now right.
Qed.

Lemma GET_history_run (newer : js_string -> js_string -> bool)
  (uid : js_string) (w : World) :
  truthy uid = true ->
  GET_history newer (Some uid) w
  = (Returns (NextResponse_json
                (JObject [(js "ok", JBool true);
                          (js "data",
                           JArray (map history_item
                                     (summary_findMany newer uid 50 (db w))))])
                200), w).
Proof.
  intros Hu. unfold GET_history. rewrite Hu. cbn [negb].
  unfold bind, on_db, ret. cbn [fst snd]. f_equal.
  destruct w as [st calls rs]. reflexivity.
Qed.

(** X13. The history listing is the caller's own. [GET] changes nothing.
    Without a caller it answers 401, in the shape the page reads as an
    error. For a caller it answers 200 with at most 50 rows, each a stored
    summary of that caller and none listed more often than it is stored;
    when the caller has at most 50 summaries all of them are listed. A
    listed row shows neither the stored input text nor the owner. *)
Theorem GET_history_own_rows (newer : js_string -> js_string -> bool)
  (caller_ : option js_string) (w : World) :
  snd (GET_history newer caller_ w) = w
  /\ (falsy caller_ = true ->
      fst (GET_history newer caller_ w)
      = Returns (NextResponse_json (error_body msg_unauthorized) 401)
      /\ Page.isErrResponse (error_body msg_unauthorized) = true)
  /\ (forall uid,
        caller_ = Some uid -> truthy uid = true ->
        exists items rest,
          fst (GET_history newer caller_ w)
          = Returns (NextResponse_json
                       (JObject [(js "ok", JBool true);
                                 (js "data", JArray (map history_item items))])
                       200)
          /\ Page.isOkResponse
               (JObject [(js "ok", JBool true);
                         (js "data", JArray (map history_item items))]) = true
          /\ Permutation (items ++ rest) (summaries_of uid w)
          /\ len items = Z.min 50 (len (summaries_of uid w))
          /\ (len (summaries_of uid w) <= 50 -> rest = [])
          /\ (forall r, In r items ->
                In r (Db.summaries (db w)) /\ Db.userId r = uid))
  /\ (forall r,
        get_prop (history_item r) (js "inputText") = None
        /\ get_prop (history_item r) (js "userId") = None).
Proof.
  split; [|split; [|split]].
  - unfold GET_history. destruct caller_ as [uid|]; [|reflexivity].
    destruct (truthy uid); cbn [negb]; [|reflexivity].
    unfold bind, on_db, ret. cbn [fst snd]. now destruct w.
  - intros Hc. split; [|reflexivity]. unfold GET_history.
    destruct caller_ as [uid|]; [|reflexivity]. cbn in Hc. now rewrite Hc.
  - intros uid -> Hu. rewrite (GET_history_run newer uid w Hu). cbn [fst].
    unfold summary_findMany. fold (summaries_of uid w).
    set (sorted := sort_desc newer (summaries_of uid w)).
    exists (firstn 50 sorted), (skipn 50 sorted).
    pose proof (sort_desc_perm newer (summaries_of uid w)) as Hperm.
    fold sorted in Hperm.
    split; [reflexivity|]. split; [reflexivity|].
    split; [now rewrite firstn_skipn|].
    split; [rewrite len_firstn; unfold len;
            rewrite (Permutation_length Hperm); reflexivity|].
    split.
    + intros Hle. apply skipn_all2. rewrite (Permutation_length Hperm).
      unfold len in Hle. lia.
    + intros r Hr.
      assert (Hin : In r sorted).
      { rewrite <- (firstn_skipn 50 sorted). apply in_or_app. now left. }
      clear Hr. rename Hin into Hr.
      apply (Permutation_in _ Hperm) in Hr. unfold summaries_of in Hr.
      apply filter_In in Hr as [Hin Hr]. split; [exact Hin|].
      now apply js_eqb_eq.
  - intros r. split; reflexivity.
Qed.

(** X14. The listing is newest first. When the datastore's order on
    timestamps is total and transitive, the rows [GET] lists are in
    descending order of [createdAt], and every listed row is at least as
    new as every summary of the caller that is left out. *)
Theorem GET_history_newest_first (newer : js_string -> js_string -> bool)
  (uid : js_string) (w : World) :
  total_order newer ->
  (forall a b c, newer a b = true -> newer b c = true -> newer a c = true) ->
  truthy uid = true ->
  exists items rest,
    fst (GET_history newer (Some uid) w)
    = Returns (NextResponse_json
                 (JObject [(js "ok", JBool true);
                           (js "data", JArray (map history_item items))]) 200)
    /\ Permutation (items ++ rest) (summaries_of uid w)
    /\ StronglySorted (not_older newer) items
    /\ (forall a b, In a items -> In b rest -> not_older newer a b)
    /\ (rest <> [] -> len items = 50).
Proof.
  intros Htot Htrans Hu. rewrite (GET_history_run newer uid w Hu). cbn [fst].
  unfold summary_findMany. fold (summaries_of uid w).
  set (sorted := sort_desc newer (summaries_of uid w)).
  exists (firstn 50 sorted), (skipn 50 sorted).
  pose proof (sort_desc_perm newer (summaries_of uid w)) as Hperm.
  pose proof (sort_desc_sorted newer (summaries_of uid w) Htot Htrans) as Hs.
  fold sorted in Hperm, Hs. rewrite <- (firstn_skipn 50 sorted) in Hs.
  apply strongly_sorted_app in Hs as [Hs Hab].
  split; [reflexivity|]. split; [now rewrite firstn_skipn|].
  split; [exact Hs|]. split; [exact Hab|].
  intros Hrest. rewrite len_firstn.
  assert (50 < List.length sorted)%nat; [|unfold len; lia].
  destruct (Nat.lt_ge_cases 50 (List.length sorted)) as [H|H]; [exact H|].
  now rewrite skipn_all2 in Hrest.
Qed.

Lemma GET_history_newest_first_witness :
  let newer := fun a b : js_string => Js.length b <=? Js.length a in
  let w := Demo.world [Demo.row (js "a") (js "u1"); Demo.row (js "b") (js "u2")] in
  exists items rest,
    fst (GET_history newer (Some (js "u1")) w)
    = Returns (NextResponse_json
                 (JObject [(js "ok", JBool true);
                           (js "data", JArray (map history_item items))]) 200)
    /\ Permutation (items ++ rest) (summaries_of (js "u1") w)
    /\ StronglySorted (not_older newer) items
    /\ (forall a b, In a items -> In b rest -> not_older newer a b)
    /\ (rest <> [] -> len items = 50).
Proof.
  cbv zeta.
  apply (GET_history_newest_first
           (fun a b : js_string => Js.length b <=? Js.length a) (js "u1")
           (Demo.world [Demo.row (js "a") (js "u1");
                        Demo.row (js "b") (js "u2")])).
  - intros a b. destruct (Z.leb_spec (Js.length b) (Js.length a)); [now left|].
    right. apply Z.leb_le. lia.
  - intros a b c H1 H2. apply Z.leb_le in H1, H2. apply Z.leb_le. lia.
  - reflexivity.
Defined.

(* ------------------------------------------------------------------ *)
(** ** The listing after a request *)

Lemma history_same (newer : js_string -> js_string -> bool)
  (c : js_string) (w w' : World) :
  summaries_of c w' = summaries_of c w ->
  fst (GET_history newer (Some c) w') = fst (GET_history newer (Some c) w).
Proof.
  intros H. unfold GET_history. destruct (truthy c); cbn [negb]; [|reflexivity].
  unfold bind, on_db, ret, summary_findMany. cbn [fst snd].
  unfold summaries_of in H. now rewrite H.
Qed.

Lemma DELETE_rows (req : DeleteRequest) (w : World) :
  Db.summaries (db (snd (DELETE req w)))
  = match del_caller req with
    | Some uid =>
      if truthy uid
      then filter (fun r => negb (Db.matches (params_id req) uid r))
             (Db.summaries (db w))
      else Db.summaries (db w)
    | None => Db.summaries (db w)
    end.
Proof.
  destruct (del_caller req) as [uid|] eqn:Hc.
  - destruct (truthy uid) eqn:Hu.
    + now rewrite (DELETE_run req uid w Hc Hu).
    + unfold DELETE. now rewrite Hc, Hu.
  - unfold DELETE. now rewrite Hc.
Qed.

(** The status [POST] answers with and the summaries go together. *)
Lemma POST_status_rows (ext : Ext) (req : Request) (w : World) :
  let w' := snd (POST ext req w) in
  exists resp,
    fst (POST ext req w) = Returns resp
    /\ ((status resp <> 200 /\ Db.summaries (db w') = Db.summaries (db w))
        \/ exists row uid,
             caller req = Some uid /\ truthy uid = true
             /\ resp = NextResponse_json (saved_body row) 200
             /\ Db.summaries (db w') = Db.summaries (db w) ++ [row]
             /\ Db.userId row = uid).
Proof.
  intros w'. subst w'.
  destruct (POST_ends ext req w)
    as [(_ & ->)|[(_ & _ & ->)|(uid & _ & Hc & Hu & H)]].
  1,2: eexists; split; [reflexivity|]; left; split; [discriminate | reflexivity].
  cbv zeta in H.
  destruct H as [(_ & _ & ->)|[(f & e & _ & _ & _ & _ & ->)
                              |(auto & calls & _ & _ & H)]].
  1,2: eexists; (split; [reflexivity|]); left; (split; [discriminate|]);
       apply user_upsert_summaries.
  destruct H as [(e & Ho & Hdb & _)|[(raw & _ & Ho & Hdb & _)
                                    |(raw & p & _ & Ho & Hdb & _)]];
    rewrite Ho, Hdb; eexists; (split; [reflexivity|]).
  - left. split; [discriminate | apply user_upsert_summaries].
  - left. split; [discriminate | apply user_upsert_summaries].
  - right. eexists; exists uid. split; [exact Hc|]. split; [exact Hu|].
    split; [reflexivity|]. cbn [with_row Db.summaries db with_db].
    rewrite user_upsert_summaries. now split.
Qed.

(** A row appended to fewer than 50 summaries of a caller is listed. *)
Lemma listed_after_append (newer : js_string -> js_string -> bool)
  (uid : js_string) (w w' : World) (row : Db.Summary) :
  truthy uid = true ->
  summaries_of uid w' = summaries_of uid w ++ [row] ->
  len (summaries_of uid w) < 50 ->
  exists items,
    fst (GET_history newer (Some uid) w')
    = Returns (NextResponse_json
                 (JObject [(js "ok", JBool true);
                           (js "data", JArray (map history_item items))]) 200)
    /\ In row items
    /\ len items = len (summaries_of uid w) + 1.
Proof.
  intros Hu Hmine Hlt. rewrite (GET_history_run newer uid _ Hu). cbn [fst].
  unfold summary_findMany. fold (summaries_of uid w'). rewrite Hmine.
  set (sorted := sort_desc newer (summaries_of uid w ++ [row])).
  pose proof (sort_desc_perm newer (summaries_of uid w ++ [row])) as Hperm.
  fold sorted in Hperm.
  assert (Hlen : List.length sorted = S (List.length (summaries_of uid w))).
  { rewrite (Permutation_length Hperm), length_app. cbn. lia. }
  assert (Hall : firstn 50 sorted = sorted).
  { apply firstn_all2. unfold len in Hlt. lia. }
  exists (firstn 50 sorted). split; [reflexivity|]. rewrite Hall. split.
  - apply (Permutation_in _ (Permutation_sym Hperm)).
    apply in_or_app. right. now left.
  - unfold len. rewrite Hlen. lia.
Qed.

(** X15. What a listing shows after [POST]. A request changes no other
    caller's listing. [POST] answers 200 exactly when it adds one summary
    of the caller, and that row is listed as long as the caller had fewer
    than 50 summaries; any other answer leaves the summaries and every
    listing as they were. When the request reaches a model that answers
    and the answer to the last call parses, the answer is 200 and the new
    row is listed so. *)
Theorem POST_then_history (newer : js_string -> js_string -> bool)
  (ext : Ext) (req : Request) (w : World) :
  let w' := snd (POST ext req w) in
  (forall other,
     caller req <> Some other ->
     fst (GET_history newer (Some other) w')
     = fst (GET_history newer (Some other) w))
  /\ (exists resp,
        fst (POST ext req w) = Returns resp
        /\ ((status resp <> 200
             /\ Db.summaries (db w') = Db.summaries (db w)
             /\ forall c,
                  fst (GET_history newer c w') = fst (GET_history newer c w))
            \/ exists row uid,
                 caller req = Some uid /\ truthy uid = true
                 /\ resp = NextResponse_json (saved_body row) 200
                 /\ summaries_of uid w' = summaries_of uid w ++ [row]
                 /\ (len (summaries_of uid w) < 50 ->
                     exists items,
                       fst (GET_history newer (Some uid) w')
                       = Returns (NextResponse_json
                                    (JObject [(js "ok", JBool true);
                                              (js "data",
                                               JArray (map history_item items))])
                                    200)
                       /\ In row items
                       /\ len items = len (summaries_of uid w) + 1)))
  /\ (forall (uid : js_string) (auto : list Image),
        falsy (GEMINI_API_KEY ext) = false ->
        caller req = Some uid -> truthy uid = true ->
        answers ext -> compressible ext (firstn 4 (form_images req)) ->
        let pdfText := extractedText ext (form_pdf req) in
        (auto = []
         /\ (form_images req <> []
             \/ (form_pdf req <> None /\ trim pdfText <> [])))
        \/ (exists f,
              form_pdf req = Some f /\ form_images req = []
              /\ trim pdfText = []
              /\ pdfBufferToJpegPagesBase64 ext (arrayBuffer f) 2 = Ok auto) ->
        exists before last r,
          model_calls w' = model_calls w ++ before ++ [last]
          /\ generateContent ext
               (List.length (model_calls w) + List.length before) last = Ok r
          /\ forall p,
               parseSummary ext (response_text r) = Some p ->
               len (summaries_of uid w) < 50 ->
               exists row items,
                 fst (POST ext req w)
                 = Returns (NextResponse_json (saved_body row) 200)
                 /\ summaries_of uid w' = summaries_of uid w ++ [row]
                 /\ fst (GET_history newer (Some uid) w')
                    = Returns (NextResponse_json
                                 (JObject [(js "ok", JBool true);
                                           (js "data",
                                            JArray (map history_item items))])
                                 200)
                 /\ In row items).
Proof.
  intros w'. subst w'.
  assert (Hof : forall row c,
            Db.summaries (db (snd (POST ext req w)))
            = Db.summaries (db w) ++ [row] ->
            summaries_of c (snd (POST ext req w))
            = summaries_of c w
              ++ (if Js.eqb (Db.userId row) c then [row] else [])).
  { intros row c Hrows. unfold summaries_of. rewrite Hrows, filter_app.
    reflexivity. }
  assert (Hfwd : forall (uid : js_string) (auto : list Image),
            falsy (GEMINI_API_KEY ext) = false ->
            caller req = Some uid -> truthy uid = true ->
            answers ext -> compressible ext (firstn 4 (form_images req)) ->
            let pdfText := extractedText ext (form_pdf req) in
            (auto = []
             /\ (form_images req <> []
                 \/ (form_pdf req <> None /\ trim pdfText <> [])))
            \/ (exists f,
                  form_pdf req = Some f /\ form_images req = []
                  /\ trim pdfText = []
                  /\ pdfBufferToJpegPagesBase64 ext (arrayBuffer f) 2 = Ok auto) ->
            exists before last r,
              model_calls (snd (POST ext req w))
              = model_calls w ++ before ++ [last]
              /\ generateContent ext
                   (List.length (model_calls w) + List.length before) last = Ok r
              /\ forall p,
                   parseSummary ext (response_text r) = Some p ->
                   len (summaries_of uid w) < 50 ->
                   exists row items,
                     fst (POST ext req w)
                     = Returns (NextResponse_json (saved_body row) 200)
                     /\ summaries_of uid (snd (POST ext req w))
                        = summaries_of uid w ++ [row]
                     /\ fst (GET_history newer (Some uid) (snd (POST ext req w)))
                        = Returns (NextResponse_json
                                     (JObject [(js "ok", JBool true);
                                               (js "data",
                                                JArray (map history_item items))])
                                     200)
                     /\ In row items).
  { intros uid auto Hk Hc Hu Hai Hok pdfText Hreach.
    destruct (POST_answered ext req w uid auto Hk Hc Hu Hai Hok Hreach)
      as (before & last & r & Hcalls & Hr & Hend).
    exists before, last, r. split; [exact Hcalls|]. split; [exact Hr|].
    intros p Hp Hlt. rewrite Hp in Hend. cbv zeta in Hend.
    destruct Hend as [Hout Hdb].
    set (row := new_row ext uid (form_pdf req) (form_images req) auto
                  (extractedText ext (form_pdf req)) p
                  (Db.user_upsert uid (db w))) in *.
    assert (Hmine : summaries_of uid (snd (POST ext req w))
                    = summaries_of uid w ++ [row]).
    { rewrite (Hof row uid).
      - unfold row at 1. cbn [new_row Db.userId]. now rewrite js_eqb_refl.
      - rewrite Hdb. cbn [with_row Db.summaries].
        now rewrite user_upsert_summaries. }
    destruct (listed_after_append newer uid w _ row Hu Hmine Hlt)
      as (items & Hget & Hin & _).
    exists row, items. now repeat split. }
  destruct (POST_status_rows ext req w)
    as (resp & Hout & [[Hst H]|(row & uid & Hc & Hu & -> & Hrows & Hrow)]).
  - assert (Hsame : forall c, summaries_of c (snd (POST ext req w))
                              = summaries_of c w).
    { intros c. unfold summaries_of. now rewrite H. }
    split; [intros other _; apply history_same, Hsame|].
    split; [|exact Hfwd].
    exists resp. split; [exact Hout|]. left. split; [exact Hst|].
    split; [exact H|].
    intros [c|]; [apply history_same, Hsame | reflexivity].
  - assert (Hmine : summaries_of uid (snd (POST ext req w))
                    = summaries_of uid w ++ [row]).
    { rewrite (Hof row uid Hrows), Hrow. now rewrite js_eqb_refl. }
    split; [|split; [|exact Hfwd]].
    + intros other Hother. apply history_same. rewrite (Hof row other Hrows).
      assert (Js.eqb (Db.userId row) other = false) as ->.
      { apply js_eqb_neq. congruence. }
      apply app_nil_r.
    + eexists. split; [exact Hout|]. right. exists row, uid.
      split; [exact Hc|]. split; [exact Hu|]. split; [reflexivity|].
      split; [exact Hmine|]. intros Hlt.
      now apply (listed_after_append newer uid w).
Qed.

(** X16. What a listing shows after [DELETE]. The caller's listing then
    holds no row of the deleted id, and nothing that was not a summary of
    theirs before; when it is not cut at 50 it holds every other summary
    they had. No other caller's listing changes. *)
Theorem DELETE_then_history (newer : js_string -> js_string -> bool)
  (req : DeleteRequest) (w : World) :
  let w' := snd (DELETE req w) in
  (forall other,
     del_caller req <> Some other ->
     fst (GET_history newer (Some other) w')
     = fst (GET_history newer (Some other) w))
  /\ (forall uid,
        del_caller req = Some uid -> truthy uid = true ->
        exists items,
          fst (GET_history newer (Some uid) w')
          = Returns (NextResponse_json
                       (JObject [(js "ok", JBool true);
                                 (js "data", JArray (map history_item items))])
                       200)
          /\ (forall r, In r items ->
                Db.id r <> params_id req /\ In r (summaries_of uid w))
          /\ (len (summaries_of uid w') <= 50 ->
              forall r, In r (summaries_of uid w) ->
                        Db.id r <> params_id req -> In r items)).
Proof.
  intros w'. subst w'. split.
  - intros other Hother. apply history_same. unfold summaries_of.
    rewrite DELETE_rows.
    destruct (del_caller req) as [uid|]; [|reflexivity].
    destruct (truthy uid); [|reflexivity].
    apply filter_unrelated. intros x Hx.
    apply matches_spec in Hx as [_ Hx]. apply js_eqb_neq. congruence.
  - intros uid Hc Hu. rewrite (GET_history_run newer uid _ Hu). cbn [fst].
    unfold summary_findMany.
    fold (summaries_of uid (snd (DELETE req w))).
    set (mine' := summaries_of uid (snd (DELETE req w))).
    assert (Hmine : forall r,
              In r mine'
              <-> In r (summaries_of uid w) /\ Db.id r <> params_id req).
    { intros r. unfold mine', summaries_of. rewrite DELETE_rows, Hc, Hu.
      rewrite !filter_In, negb_true_iff.
      pose proof (matches_spec (params_id req) uid r) as Hm.
      pose proof (js_eqb_eq (Db.userId r) uid) as He.
      destruct (Db.matches (params_id req) uid r);
        destruct (Js.eqb (Db.userId r) uid); intuition congruence. }
    set (sorted := sort_desc newer mine').
    pose proof (sort_desc_perm newer mine') as Hperm. fold sorted in Hperm.
    exists (firstn 50 sorted). split; [reflexivity|]. split.
    + intros r Hr.
      assert (Hin : In r sorted).
      { rewrite <- (firstn_skipn 50 sorted). apply in_or_app. now left. }
      apply (Permutation_in _ Hperm), Hmine in Hin. tauto.
    + intros Hle r Hr Hid.
      rewrite firstn_all2
        by (rewrite (Permutation_length Hperm); unfold len in Hle; lia).
      apply (Permutation_in _ (Permutation_sym Hperm)), Hmine. tauto.
Qed.

(* ------------------------------------------------------------------ *)
(** ** The page's helpers *)

Lemma single_spaced_fixed (s : js_string) :
  forall b, single_spaced b s = true -> collapse_blanks b s = s.
Proof.
  induction s as [|c r IH]; intros b H; [reflexivity|].
  cbn [single_spaced collapse_blanks] in *.
  destruct (is_whitespace c).
  - apply andb_true_iff in H as [H Hr].
    apply andb_true_iff in H as [Hb H32]. apply N.eqb_eq in H32.
    destruct b; [discriminate|]. now rewrite (IH true Hr), H32.
  - now rewrite (IH false H).
Qed.

Lemma single_spaced_snoc (s : js_string) (x : code_unit) :
  is_whitespace x = false ->
  forall b, single_spaced b s = true -> single_spaced b (s ++ [x]) = true.
Proof.
  intros Hx. induction s as [|c r IH]; intros b H; cbn [app single_spaced] in *.
  - now rewrite Hx.
  - destruct (is_whitespace c).
    + apply andb_true_iff in H as [H Hr]. rewrite H. now apply IH.
    + now apply IH.
Qed.

Lemma collapse_starts_clean (u : js_string) (b : bool) :
  starts_clean u -> starts_clean (collapse_blanks b u).
Proof.
  destruct u as [|c r]; cbn [collapse_blanks starts_clean]; [trivial|].
  intros H. rewrite H. exact H.
Qed.

Lemma collapse_snoc (u : js_string) (x : code_unit) :
  is_whitespace x = false ->
  forall b, collapse_blanks b (u ++ [x]) = collapse_blanks b u ++ [x].
Proof.
  intros Hx. induction u as [|c r IH]; intros b; cbn [app collapse_blanks].
  - now rewrite Hx.
  - destruct (is_whitespace c); [destruct b|]; cbn [app]; now rewrite IH.
Qed.

Lemma collapse_ends_clean (u : js_string) (b : bool) :
  starts_clean (rev u) -> starts_clean (rev (collapse_blanks b u)).
Proof.
  destruct u as [|c r] using rev_ind; [trivial|].
  rewrite rev_app_distr. cbn [rev app starts_clean]. intros Hx.
  rewrite collapse_snoc by assumption. rewrite rev_app_distr. exact Hx.
Qed.

Lemma trim_clean (s : js_string) :
  starts_clean s -> starts_clean (rev s) -> trim s = s.
Proof.
  intros H1 H2. unfold trim. rewrite trimStart_id by assumption.
  now apply trimEnd_id.
Qed.

Lemma or_empty (s : js_string) : (if truthy s then s else empty) = s.
Proof. now destruct s. Qed.

(** The text [clip] cuts: trimmed, blanks collapsed. *)
Lemma clip_text (s : js_string) :
  let t := collapse_blanks false (trim s) in
  trim t = t /\ single_spaced false t = true /\ starts_clean t.
Proof.
  intros t. destruct (trim_clean_ends s) as [H1 H2].
  split; [|split].
  - apply trim_clean; [now apply collapse_starts_clean
                      | now apply collapse_ends_clean].
  - apply collapse_single_spaced.
  - now apply collapse_starts_clean.
Qed.

Lemma clip_unfold (s : js_string) (n : Z) :
  0 <= n ->
  Page.clip s n
  = let t := collapse_blanks false (trim s) in
    if Js.length t <=? n then t
    else firstn (Z.to_nat n) t ++ Page.ellipsis.
Proof.
  intros Hn. unfold Page.clip. rewrite or_empty. cbv zeta.
  now rewrite slice_prefix.
Qed.

(** X17. [clip] bounds what the page shows. For a bound [n] that is not
    negative the clipped text has at most [n + 1] characters: it is the
    trimmed text with its blanks collapsed when that has at most [n]
    characters, and its first [n] characters and an ellipsis otherwise.
    Clipping a clipped text again changes nothing. *)
Theorem clip_bounded (s : js_string) (n : Z) :
  0 <= n ->
  let t := collapse_blanks false (trim s) in
  Js.length (Page.clip s n) <= n + 1
  /\ (Js.length t <= n -> Page.clip s n = t)
  /\ (n < Js.length t ->
      Page.clip s n = firstn (Z.to_nat n) t ++ Page.ellipsis
      /\ Js.length (Page.clip s n) = n + 1)
  /\ Page.clip (Page.clip s n) n = Page.clip s n.
Proof.
  intros Hn t.
  destruct (clip_text s) as (Htrim & Hsp & Hstart). fold t in Htrim, Hsp, Hstart.
  assert (Hshort : Js.length t <= n -> Page.clip s n = t).
  { intros H. rewrite clip_unfold by assumption. cbv zeta. fold t.
    destruct (Z.leb_spec (Js.length t) n); [reflexivity | lia]. }
  assert (Hlong : n < Js.length t ->
                  Page.clip s n = firstn (Z.to_nat n) t ++ Page.ellipsis
                  /\ Js.length (Page.clip s n) = n + 1).
  { intros H. rewrite clip_unfold by assumption. cbv zeta. fold t.
    destruct (Z.leb_spec (Js.length t) n); [lia|]. split; [reflexivity|].
    unfold Js.length in *. rewrite length_app, length_firstn. cbn. lia. }
  split; [|split; [exact Hshort | split; [exact Hlong|]]].
  - destruct (Z.le_gt_cases (Js.length t) n) as [H|H].
    + rewrite (Hshort H). lia.
    + destruct (Hlong H) as [_ ->]. lia.
  - destruct (Z.le_gt_cases (Js.length t) n) as [H|H].
    + rewrite (Hshort H). rewrite clip_unfold by assumption. cbv zeta.
      rewrite Htrim, (single_spaced_fixed t false Hsp).
      destruct (Z.leb_spec (Js.length t) n); [reflexivity | lia].
    + destruct (Hlong H) as [Hc Hl]. rewrite Hc in *.
      set (c := firstn (Z.to_nat n) t ++ Page.ellipsis) in *.
      assert (Hcs : single_spaced false c = true).
      { apply single_spaced_snoc; [reflexivity|].
        apply single_spaced_prefix with (q := skipn (Z.to_nat n) t).
        now rewrite firstn_skipn. }
      assert (Hct : trim c = c).
      { apply trim_clean.
        - subst c. destruct (Z.to_nat n); [exact eq_refl|].
          destruct t; [exact eq_refl | exact Hstart].
        - subst c. rewrite rev_app_distr. exact eq_refl. }
      rewrite clip_unfold by assumption. cbv zeta.
      rewrite Hct, (single_spaced_fixed c false Hcs).
      destruct (Z.leb_spec (Js.length c) n); [lia|].
      subst c. rewrite firstn_app, firstn_firstn.
      replace (Z.to_nat n - List.length (firstn (Z.to_nat n) t))%nat with O.
      * rewrite Nat.min_id. cbn [firstn]. now rewrite app_nil_r.
      * rewrite length_firstn. unfold Js.length in H. lia.
Qed.

Lemma clip_bounded_witness :
  0 <= 3
  /\ Js.length (Page.clip (js "  ab   cd  ") 3) <= 3 + 1
  /\ Page.clip (js "  ab   cd  ") 3 = js "ab " ++ Page.ellipsis.
Proof.
  split; [lia|].
  destruct (clip_bounded (js "  ab   cd  ") 3 ltac:(lia)) as (H1 & _ & H3 & _).
  split; [exact H1|]. apply H3. reflexivity.
Defined.

(** X18. The page reads the source of a row whichever way it is spelled.
    The stored member and the shown label of a source both give the shown
    label, so a row displays the same source whether the page has it from
    the answer of [POST] or from the history listing; any other value,
    string or not, displays as a PDF. *)
Theorem toUiSource_reads_both :
  (forall s : ApiSource,
     Page.toUiSource (JString (SummarySource_value (toDbSource s)))
     = ApiSource_value s
     /\ Page.toUiSource (JString (ApiSource_value s)) = ApiSource_value s)
  /\ (forall row : Db.Summary,
        exists s listed data posted,
          Db.source row = toDbSource s
          /\ get_prop (history_item row) (js "source") = Some listed
          /\ get_prop (saved_body row) (js "data") = Some data
          /\ get_prop data (js "source") = Some posted
          /\ Page.toUiSource listed = ApiSource_value s
          /\ Page.toUiSource posted = ApiSource_value s)
  /\ (forall v,
        (forall d, v <> JString (SummarySource_value d)) ->
        (forall a, v <> JString (ApiSource_value a)) ->
        Page.toUiSource v = js "pdf").
Proof.
  split; [intros s; now destruct s|]. split.
  - intros row. unfold history_item, saved_body.
    destruct (Db.source row);
      [exists api_pdf | exists api_image | exists api_pdf_plus_image];
      do 3 eexists; repeat split; reflexivity.
  - intros v Hd Ha. destruct v as [| | | x | |]; try reflexivity.
    unfold Page.toUiSource.
    destruct (Js.eqb x (js "pdf")) eqn:E1; [reflexivity|].
    destruct (Js.eqb x (js "image")) eqn:E2.
    { apply js_eqb_eq in E2. subst x. now destruct (Ha api_image). }
    destruct (Js.eqb x (js "pdf_image")) eqn:E3.
    { apply js_eqb_eq in E3. subst x. now destruct (Hd pdf_image). }
    destruct (Js.eqb x (js "pdf+image")) eqn:E4; [|reflexivity].
    apply js_eqb_eq in E4. subst x. now destruct (Ha api_pdf_plus_image).
Qed.

(* ------------------------------------------------------------------ *)
(** ** [fetchWithRetry] *)

Lemma retry_loop_rounds (fetch : nat -> Res Page.Response) (retries : Z)
  (left : nat) :
  forall i lastErr net,
    0 <= i -> Z.of_nat left = retries - i + 1 -> (1 <= left)%nat ->
    exists k : nat,
      (1 <= k <= left)%nat
      /\ Page.sent (snd (Page.retry_loop fetch retries left i lastErr net))
         = (Page.sent net + k)%nat
      /\ fst (Page.retry_loop fetch retries left i lastErr net)
         = fetch (Page.sent net + k - 1)%nat
      /\ (forall j, (j < k - 1)%nat ->
            wants_retry (fetch (Page.sent net + j)%nat) = true)
      /\ (k = left \/ wants_retry (fetch (Page.sent net + k - 1)%nat) = false)
      /\ Page.slept (snd (Page.retry_loop fetch retries left i lastErr net))
         = Page.slept net
           ++ map (fun j => backoff (fetch (Page.sent net + j)%nat)
                              (i + Z.of_nat j))
                (seq 0 (k - 1)).
Proof.
  induction left as [|left IH]; intros i lastErr net Hi Hleft Hpos; [lia|].
  cbn [Page.retry_loop]. unfold Page.do_fetch.
  set (net1 := {| Page.sent := S (Page.sent net);
                  Page.slept := Page.slept net |}).
  set (P := fun out : Res Page.Response * Page.Net =>
              exists k : nat,
                (1 <= k <= S left)%nat
                /\ Page.sent (snd out) = (Page.sent net + k)%nat
                /\ fst out = fetch (Page.sent net + k - 1)%nat
                /\ (forall j, (j < k - 1)%nat ->
                      wants_retry (fetch (Page.sent net + j)%nat) = true)
                /\ (k = S left
                    \/ wants_retry (fetch (Page.sent net + k - 1)%nat) = false)
                /\ Page.slept (snd out)
                   = Page.slept net
                     ++ map (fun j => backoff (fetch (Page.sent net + j)%nat)
                                        (i + Z.of_nat j))
                          (seq 0 (k - 1))).
  assert (Hstop :
            (i <? retries) = false \/ wants_retry (fetch (Page.sent net)) = false ->
            P (fetch (Page.sent net), net1)).
  { intros Hr. exists 1%nat. cbn [fst snd Page.sent Page.slept net1].
    replace (Page.sent net + 1 - 1)%nat with (Page.sent net) by lia.
    split; [lia|]. split; [lia|]. split; [reflexivity|].
    split; [intros j Hj; lia|]. split.
    - destruct Hr as [Hr|Hr]; [|now right]. left.
      apply Z.ltb_ge in Hr. lia.
    - cbn. now rewrite app_nil_r. }
  assert (Hgo : forall lastErr',
            (i <? retries) = true ->
            wants_retry (fetch (Page.sent net)) = true ->
            P (Page.retry_loop fetch retries left (i + 1) lastErr'
                 (Page.do_sleep (backoff (fetch (Page.sent net)) i) net1))).
  { intros lastErr' Hlt Hw. apply Z.ltb_lt in Hlt.
    destruct (IH (i + 1) lastErr'
                (Page.do_sleep (backoff (fetch (Page.sent net)) i) net1)
                ltac:(lia) ltac:(lia) ltac:(lia))
      as (k & Hk & Hsent & Hout & Hbefore & Hlast & Hslept).
    exists (S k). cbn [Page.sent Page.slept Page.do_sleep net1] in *.
    replace (Page.sent net + S k - 1)%nat with (S (Page.sent net) + k - 1)%nat
      by lia.
    split; [lia|]. split; [rewrite Hsent; lia|]. split; [exact Hout|].
    split; [|split].
    - intros j Hj. destruct j as [|j].
      + now rewrite Nat.add_0_r.
      + replace (Page.sent net + S j)%nat with (S (Page.sent net) + j)%nat
          by lia.
        apply Hbefore. lia.
    - destruct Hlast as [->|Hlast]; [now left | now right].
    - rewrite Hslept, <- app_assoc. f_equal.
      replace (S k - 1)%nat with (S (k - 1)) by lia.
      rewrite <- cons_seq, <- seq_shift. cbn [map app]. rewrite map_map.
      rewrite Nat.add_0_r, Z.add_0_r. f_equal.
      apply map_ext. intros j. f_equal; [f_equal; lia | lia]. }
  fold net1. change (P (match fetch (Page.sent net) with
     | Ok res =>
         if (Page.res_status res =? 503) && (i <? retries)
         then Page.retry_loop fetch retries left (i + 1) lastErr
                (Page.do_sleep (1200 * 2 ^ i) net1)
         else (Ok res, net1)
     | Throw e =>
         if i <? retries
         then Page.retry_loop fetch retries left (i + 1) (Some e)
                (Page.do_sleep (800 * 2 ^ i) net1)
         else (Throw e, net1)
     end)).
  clearbody P.
  destruct (fetch (Page.sent net)) as [res|e] eqn:Ef.
  - destruct (Page.res_status res =? 503) eqn:E503; cbn [andb].
    + destruct (i <? retries) eqn:Elt.
      * apply (Hgo lastErr); [reflexivity | exact E503].
      * apply Hstop. now left.
    + apply Hstop. right. exact E503.
  - destruct (i <? retries) eqn:Elt.
    + apply (Hgo (Some e)); reflexivity.
    + apply Hstop. now left.
Qed.

(** X19. What [fetchWithRetry] does on the network. With [retries] from 0
    to 20 it sends between 1 and [retries + 1] requests and gives back what
    the last one gave, response or failure. Every request before the last
    got a 503 or failed; the last is either the round [retries] or a
    response whose status is not 503, so the first such response is
    returned at once. Between requests it asks for a wait of 1200 ms after
    a 503 and of 800 ms after a failure, doubled with every round. *)
Theorem fetchWithRetry_rounds (fetch : nat -> Res Page.Response)
  (retries : Z) (net : Page.Net) :
  0 <= retries <= 20 ->
  exists k : nat,
    1 <= Z.of_nat k <= retries + 1
    /\ Page.sent (snd (Page.fetchWithRetry fetch retries net))
       = (Page.sent net + k)%nat
    /\ fst (Page.fetchWithRetry fetch retries net)
       = fetch (Page.sent net + k - 1)%nat
    /\ (forall j, (j < k - 1)%nat ->
          wants_retry (fetch (Page.sent net + j)%nat) = true)
    /\ (Z.of_nat k = retries + 1
        \/ wants_retry (fetch (Page.sent net + k - 1)%nat) = false)
    /\ Page.slept (snd (Page.fetchWithRetry fetch retries net))
       = Page.slept net
         ++ map (fun j => backoff (fetch (Page.sent net + j)%nat) (Z.of_nat j))
              (seq 0 (k - 1)).
Proof.
  intros Hr. unfold Page.fetchWithRetry.
  destruct (retry_loop_rounds fetch retries (Z.to_nat (retries + 1)) 0 None net
              ltac:(lia) ltac:(lia) ltac:(lia))
    as (k & Hk & Hsent & Hout & Hbefore & Hlast & Hslept).
  exists k. split; [lia|]. split; [exact Hsent|]. split; [exact Hout|].
  split; [exact Hbefore|]. split; [|exact Hslept].
  destruct Hlast as [->|Hlast]; [left; lia | now right].
Qed.

Lemma fetchWithRetry_rounds_witness :
  let fetch := fun n : nat =>
                 if (n <? 2)%nat then Throw (Error (js "offline"))
                 else Ok {| Page.res_status := 200 |} in
  let net := {| Page.sent := 0; Page.slept := [] |} in
  0 <= 3 <= 20
  /\ exists k : nat,
       1 <= Z.of_nat k <= 3 + 1
       /\ Page.sent (snd (Page.fetchWithRetry fetch 3 net))
          = (Page.sent net + k)%nat
       /\ fst (Page.fetchWithRetry fetch 3 net)
          = fetch (Page.sent net + k - 1)%nat
       /\ (forall j, (j < k - 1)%nat ->
             wants_retry (fetch (Page.sent net + j)%nat) = true)
       /\ (Z.of_nat k = 3 + 1
           \/ wants_retry (fetch (Page.sent net + k - 1)%nat) = false)
       /\ Page.slept (snd (Page.fetchWithRetry fetch 3 net))
          = Page.slept net
            ++ map (fun j => backoff (fetch (Page.sent net + j)%nat)
                               (Z.of_nat j))
                 (seq 0 (k - 1)).
Proof.
  intros fetch net. split; [lia|].
  apply (fetchWithRetry_rounds fetch 3 net). lia.
Defined.

Lemma geometric_waits (c : Z) (n : nat) :
  fold_right Z.add 0 (map (fun j => c * 2 ^ Z.of_nat j) (seq 0 n))
  = c * (2 ^ Z.of_nat n - 1).
Proof.
  induction n as [|n IH]; [cbn; lia|].
  rewrite seq_S, map_app, fold_right_app. cbn [map fold_right Nat.add].
  rewrite Nat2Z.inj_succ, Z.pow_succ_r by lia.
  assert (Hacc : forall (l : list Z) a,
            fold_right Z.add a l = fold_right Z.add 0 l + a).
  { induction l as [|x l IHl]; intros a; cbn [fold_right]; [lia|].
    rewrite IHl. lia. }
  rewrite Hacc, IH. lia.
Qed.

Lemma fetchWithRetry_all_rounds (fetch : nat -> Res Page.Response)
  (retries : Z) (net : Page.Net) :
  0 <= retries ->
  (forall n, wants_retry (fetch n) = true) ->
  fst (Page.fetchWithRetry fetch retries net)
  = fetch (Page.sent net + Z.to_nat retries)%nat
  /\ Page.sent (snd (Page.fetchWithRetry fetch retries net))
     = (Page.sent net + Z.to_nat retries + 1)%nat
  /\ Page.slept (snd (Page.fetchWithRetry fetch retries net))
     = Page.slept net
       ++ map (fun j => backoff (fetch (Page.sent net + j)%nat) (Z.of_nat j))
            (seq 0 (Z.to_nat retries)).
Proof.
  intros Hr Hall. unfold Page.fetchWithRetry.
  destruct (retry_loop_rounds fetch retries (Z.to_nat (retries + 1)) 0 None net
              ltac:(lia) ltac:(lia) ltac:(lia))
    as (k & Hk & Hsent & Hout & _ & Hlast & Hslept).
  destruct Hlast as [->|Hlast]; [|now rewrite Hall in Hlast].
  replace (Z.to_nat (retries + 1) - 1)%nat with (Z.to_nat retries) in * by lia.
  replace (Page.sent net + Z.to_nat (retries + 1) - 1)%nat
    with (Page.sent net + Z.to_nat retries)%nat in * by lia.
  split; [exact Hout|]. split; [rewrite Hsent; lia|]. exact Hslept.
Qed.

(** X20. How [fetchWithRetry] gives up, for [retries] from 0 to 20. While
    the server keeps answering 503 it sends [retries + 1] requests, waiting
    1200, 2400, 4800, ... ms in between, and then returns the last 503
    response: after [1200 * (2 ^ retries - 1)] ms of waiting, 8400 ms for
    the default of 3 retries. While every request fails it waits 800, 1600,
    3200, ... ms and then throws the last failure. A first response whose
    status is not 503 is returned with no wait; a negative [retries] sends
    nothing and throws the function's own error. *)
Theorem fetchWithRetry_gives_up (fetch : nat -> Res Page.Response)
  (retries : Z) (net : Page.Net) :
  let out := Page.fetchWithRetry fetch retries net in
  let waits := skipn (List.length (Page.slept net)) (Page.slept (snd out)) in
  (0 <= retries <= 20 ->
   (forall n, exists res, fetch n = Ok res /\ Page.res_status res = 503) ->
   (exists res, fst out = Ok res /\ Page.res_status res = 503)
   /\ Page.sent (snd out) = (Page.sent net + Z.to_nat retries + 1)%nat
   /\ Page.slept (snd out) = Page.slept net ++ waits
   /\ waits = map (fun j => 1200 * 2 ^ Z.of_nat j) (seq 0 (Z.to_nat retries))
   /\ fold_right Z.add 0 waits = 1200 * (2 ^ retries - 1))
  /\ (0 <= retries <= 20 ->
      (forall n, exists e, fetch n = Throw e) ->
      fst out = fetch (Page.sent net + Z.to_nat retries)%nat
      /\ (exists e, fst out = Throw e)
      /\ Page.sent (snd out) = (Page.sent net + Z.to_nat retries + 1)%nat
      /\ Page.slept (snd out) = Page.slept net ++ waits
      /\ waits = map (fun j => 800 * 2 ^ Z.of_nat j) (seq 0 (Z.to_nat retries))
      /\ fold_right Z.add 0 waits = 800 * (2 ^ retries - 1))
  /\ (0 <= retries ->
      forall res, fetch (Page.sent net) = Ok res ->
      Page.res_status res <> 503 ->
      out = (Ok res, {| Page.sent := S (Page.sent net);
                        Page.slept := Page.slept net |}))
  /\ (retries < 0 ->
      out = (Throw (Error (js "Beklenmeyen hata")), net)).
Proof.
  intros out waits. split; [|split; [|split]].
  - intros [Hr _] Hall.
    destruct (fetchWithRetry_all_rounds fetch retries net Hr) as (Ho & Hs & Hw).
    { intros n. destruct (Hall n) as (res & -> & H503). cbn.
      now apply Z.eqb_eq. }
    fold out in Ho, Hs, Hw.
    assert (Hwaits : waits
                     = map (fun j => 1200 * 2 ^ Z.of_nat j)
                         (seq 0 (Z.to_nat retries))).
    { unfold waits. rewrite Hw, skipn_app, skipn_all, Nat.sub_diag.
      cbn [app skipn]. apply map_ext. intros j.
      destruct (Hall (Page.sent net + j)%nat) as (res & -> & _). reflexivity. }
    split; [rewrite Ho; apply Hall|]. split; [exact Hs|].
    split; [rewrite Hw, Hwaits; f_equal; apply map_ext; intros j;
            destruct (Hall (Page.sent net + j)%nat) as (res & -> & _);
            reflexivity|].
    split; [exact Hwaits|].
    rewrite Hwaits, geometric_waits. now rewrite Z2Nat.id.
  - intros [Hr _] Hall.
    destruct (fetchWithRetry_all_rounds fetch retries net Hr) as (Ho & Hs & Hw).
    { intros n. now destruct (Hall n) as (e & ->). }
    fold out in Ho, Hs, Hw.
    assert (Hwaits : waits
                     = map (fun j => 800 * 2 ^ Z.of_nat j)
                         (seq 0 (Z.to_nat retries))).
    { unfold waits. rewrite Hw, skipn_app, skipn_all, Nat.sub_diag.
      cbn [app skipn]. apply map_ext. intros j.
      destruct (Hall (Page.sent net + j)%nat) as (e & ->). reflexivity. }
    split; [exact Ho|]. split; [rewrite Ho; apply Hall|]. split; [exact Hs|].
    split; [rewrite Hw, Hwaits; f_equal; apply map_ext; intros j;
            destruct (Hall (Page.sent net + j)%nat) as (e & ->);
            reflexivity|].
    split; [exact Hwaits|].
    rewrite Hwaits, geometric_waits. now rewrite Z2Nat.id.
  - intros Hr res Hres H503. unfold out, Page.fetchWithRetry.
    replace (Z.to_nat (retries + 1)) with (S (Z.to_nat retries)) by lia.
    cbn [Page.retry_loop]. unfold Page.do_fetch. rewrite Hres.
    apply Z.eqb_neq in H503. now rewrite H503.
  - intros Hr. unfold out, Page.fetchWithRetry.
    replace (Z.to_nat (retries + 1)) with O by lia. reflexivity.
Qed.
